(** * Tableau workbook generator: a shallow embedding of
      [src/models/schemas.py] and [src/tableau_engine/generator.py].

    Python objects become records and inductive types, dictionaries become
    [gmap]s, exceptions become the left summand of a [result], the XML tree
    built through [Element]/[SubElement] becomes a rose tree, and the file
    system written to by the packaging layer is threaded as explicit state. *)

From Stdlib Require Import ZArith QArith_base String Ascii List Lia Bool.
From Stdlib Require Import DecimalString DecimalPos DecimalZ.
From stdpp Require Import base option list gmap strings.

Set Warnings "-register-all".

Local Open Scope string_scope.
Local Open Scope list_scope.
Local Open Scope Z_scope.

(** ** Python preliminaries *)

Module Py.

(** An exception value: its class and the text returned by [str(e)]. *)
Record Exn : Type := mkExn { exn_class : string; exn_str : string }.

Definition TypeError (msg : string) : Exn := mkExn "TypeError" msg.
Definition IndexError (msg : string) : Exn := mkExn "IndexError" msg.
Definition KeyError (key : string) : Exn := mkExn "KeyError" ("'" +:+ key +:+ "'").
Definition ZeroDivisionError (msg : string) : Exn := mkExn "ZeroDivisionError" msg.
Definition ValidationError (msg : string) : Exn := mkExn "ValidationError" msg.
Definition ValueError (msg : string) : Exn := mkExn "ValueError" msg.
Definition AttributeError (msg : string) : Exn := mkExn "AttributeError" msg.

(** A computation that either raises or returns. *)
Definition result (A : Type) : Type := Exn + A.

Definition ret {A} (a : A) : result A := inr a.
Definition raise {A} (e : Exn) : result A := inl e.
Definition bind {A B} (c : result A) (k : A -> result B) : result B :=
  match c with
  | inl e => inl e
  | inr a => k a
  end.

(** [for x in xs: f(x)], collecting what each iteration builds; the first
    exception leaves the loop. *)
Fixpoint for_each {A B} (f : A -> result B) (xs : list A) : result (list B) :=
  match xs with
  | [] => ret []
  | x :: xs' =>
      bind (f x) (fun y => bind (for_each f xs') (fun ys => ret (y :: ys)))
  end.

(** [enumerate(xs)], with Python [int] indices. *)
Fixpoint enumerate_from {A} (start : Z) (xs : list A) : list (Z * A) :=
  match xs with
  | [] => []
  | x :: xs' => (start, x) :: enumerate_from (start + 1) xs'
  end.
Definition enumerate {A} (xs : list A) : list (Z * A) := enumerate_from 0 xs.

(** [len(xs)] as a Python [int]. *)
Definition len {A} (xs : list A) : Z := Z.of_nat (length xs).

(** [str(n)] for an [int]. *)
Definition str_int (n : Z) : string := NilZero.string_of_int (Z.to_int n).

(** [a // b] and [a % b] on [int]: floor division, which is what [Z.div]
    and [Z.modulo] compute, except that Python raises on a zero divisor. *)
Definition floordiv (a b : Z) : result Z :=
  if Z.eqb b 0 then raise (ZeroDivisionError "integer division or modulo by zero")
  else ret (a / b).
Definition pymod (a b : Z) : result Z :=
  if Z.eqb b 0 then raise (ZeroDivisionError "integer division or modulo by zero")
  else ret (a mod b).

(** Truthiness of a [str] and of an [Optional[str]]. *)
Definition truthy_str (s : string) : bool :=
  match s with
  | EmptyString => false
  | String _ _ => true
  end.
Definition truthy_opt_str (o : option string) : bool :=
  match o with
  | None => false
  | Some s => truthy_str s
  end.

(** ASCII case tests and conversions, as [str.upper], [str.lower] and
    [str.title] apply them. *)
Definition is_lower (c : ascii) : bool :=
  let n := nat_of_ascii c in (Nat.leb 97 n && Nat.leb n 122)%bool.
Definition is_upper (c : ascii) : bool :=
  let n := nat_of_ascii c in (Nat.leb 65 n && Nat.leb n 90)%bool.
Definition to_upper (c : ascii) : ascii :=
  if is_lower c then ascii_of_nat (nat_of_ascii c - 32) else c.
Definition to_lower (c : ascii) : ascii :=
  if is_upper c then ascii_of_nat (nat_of_ascii c + 32) else c.

Fixpoint upper (s : string) : string :=
  match s with
  | EmptyString => EmptyString
  | String c s' => String (to_upper c) (upper s')
  end.

(** [str.title]: a cased character is upper-cased when the previous
    character is not cased and lower-cased when it is. *)
Fixpoint title_from (prev_cased : bool) (s : string) : string :=
  match s with
  | EmptyString => EmptyString
  | String c s' =>
      let cased := (is_lower c || is_upper c)%bool in
      String (if prev_cased then to_lower c else to_upper c)
             (title_from cased s')
  end.
Definition title (s : string) : string := title_from false s.

(** [s.replace(old, "")] for a one-character [old]. *)
Fixpoint remove_char (old : ascii) (s : string) : string :=
  match s with
  | EmptyString => EmptyString
  | String c s' =>
      if Ascii.eqb c old then remove_char old s' else String c (remove_char old s')
  end.

(** [s[:n]]. *)
Fixpoint prefix_n (n : nat) (s : string) : string :=
  match n, s with
  | O, _ => EmptyString
  | S _, EmptyString => EmptyString
  | S n', String c s' => String c (prefix_n n' s')
  end.

End Py.

Notation "'let!' x ':=' c 'in' k" := (Py.bind c (fun x => k))
  (at level 10, x name, c at level 100, k at level 200).

(** ** xml.etree.ElementTree *)

Module ET.

(** An element: tag, attributes in insertion order, text, children in
    append order. *)
Inductive Element : Type :=
  mkElement {
    tag : string;
    attrib : list (string * string);
    text : option string;
    children : list Element
  }.

(** [Element(tag)] *)
Definition new (t : string) : Element := mkElement t [] None [].

(** [attrib[k] = v] on an insertion-ordered dict *)
Fixpoint dict_set (k v : string) (d : list (string * string)) : list (string * string) :=
  match d with
  | [] => [(k, v)]
  | (k', v') :: d' =>
      if String.eqb k' k then (k, v) :: d' else (k', v') :: dict_set k v d'
  end.

Fixpoint dict_get (k : string) (d : list (string * string)) : option string :=
  match d with
  | [] => None
  | (k', v') :: d' => if String.eqb k' k then Some v' else dict_get k d'
  end.

(** [e.set(k, v)] *)
Definition set (k v : string) (e : Element) : Element :=
  mkElement (tag e) (dict_set k v (attrib e)) (text e) (children e).

(** [e.get(k)] *)
Definition get (e : Element) (k : string) : option string := dict_get k (attrib e).

(** [e.text = s] *)
Definition set_text (s : string) (e : Element) : Element :=
  mkElement (tag e) (attrib e) (Some s) (children e).

(** [SubElement(e, ...)] for an already built child [c] *)
Definition append (c : Element) (e : Element) : Element :=
  mkElement (tag e) (attrib e) (text e) (children e ++ [c]).

Definition extend (cs : list Element) (e : Element) : Element :=
  mkElement (tag e) (attrib e) (text e) (children e ++ cs).

(** A leaf [<t>s</t>] *)
Definition leaf (t s : string) : Element := set_text s (new t).

(** The children of [e] carrying tag [t] *)
Definition findall (e : Element) (t : string) : list Element :=
  filter (fun c => String.eqb (tag c) t = true) (children e).

(** What [str(x)] inside an f-string gives for the result of [e.get(k)] *)
Definition fmt_get (e : Element) (k : string) : string :=
  match get e k with
  | Some v => v
  | None => "None"
  end.

End ET.

(** ** The data model of [models/schemas.py] *)

Module Schemas.

Inductive DataType : Type :=
  | INTEGER | FLOAT | STRING | DATE | DATETIME | BOOLEAN | CATEGORICAL.

(** [DataType.value] *)
Definition DataType_value (d : DataType) : string :=
  match d with
  | INTEGER => "integer"
  | FLOAT => "float"
  | STRING => "string"
  | DATE => "date"
  | DATETIME => "datetime"
  | BOOLEAN => "boolean"
  | CATEGORICAL => "categorical"
  end.

Inductive VisualizationType : Type :=
  | BAR | LINE | AREA | SCATTER | PIE | HISTOGRAM | HEATMAP | TREEMAP | MAP
  | FILLED_MAP | GANTT | PACKED_BUBBLES | BOX_PLOT | BULLET_GRAPH.

#[global] Instance VisualizationType_eq_dec : EqDecision VisualizationType.
Proof. solve_decision. Defined.

Inductive ColorScheme : Type :=
  | TABLEAU10 | TABLEAU20 | CATEGORY10 | BLUES | ORANGES | GREENS
  | RED_BLUE | ORANGE_BLUE | GREEN_ORANGE.

(** A value of type [Any]. *)
Inductive PyVal : Type :=
  | PyNone
  | PyBool (b : bool)
  | PyInt (n : Z)
  | PyFloat (q : Q)
  | PyStr (s : string)
  | PyList (items : list PyVal).

(** [recommended_role : Optional[Literal["dimension", "measure", "attribute"]]] *)
Inductive ColumnRole : Type := RoleDimension | RoleMeasure | RoleAttribute.

Definition ColumnRole_str (r : ColumnRole) : string :=
  match r with
  | RoleDimension => "dimension"
  | RoleMeasure => "measure"
  | RoleAttribute => "attribute"
  end.

Record DataColumn : Type := {
  col_name : string;
  col_data_type : DataType;
  unique_values : Z;
  null_count : Z;
  sample_values : list PyVal;
  statistics : option (gmap string Q);
  is_key_field : bool;
  recommended_role : option ColumnRole
}.

(** [role : Optional[Literal["dimension", "measure"]]] *)
Inductive FieldRole : Type := FieldDimension | FieldMeasure.

Definition FieldRole_str (r : FieldRole) : string :=
  match r with
  | FieldDimension => "dimension"
  | FieldMeasure => "measure"
  end.

Record CalculatedFieldSpec : Type := {
  cf_name : string;
  cf_formula : string;
  cf_data_type : DataType;
  cf_role : option FieldRole
}.

(** A plain dict describing a calculated field, as the generator documents
    its argument ([calc_field : Dict[str, Any]]): each key may be absent
    ([None] here); when present, [name], [formula] and [role] hold a [str]
    and [data_type] holds a [DataType]. *)
Record CalcFieldDict : Type := {
  d_name : option string;
  d_formula : option string;
  d_data_type : option DataType;
  d_role : option string
}.

(** What the list [DatasetSchema.calculated_fields] can hold when the
    generator reads it.  The field is declared [List[CalculatedFieldSpec]],
    so construction leaves [CalculatedFieldSpec] instances in it; a list
    that is appended to after construction is not validated, so a plain
    dict may be there too. *)
Inductive CalcField : Type :=
  | CalcModel (spec : CalculatedFieldSpec)
  | CalcDict (entries : CalcFieldDict).

Record DatasetSchema : Type := {
  ds_name : string;
  total_rows : Z;
  total_columns : Z;
  columns : list DataColumn;
  data_quality_score : Q;
  business_context : option string;
  ds_created_at : Z;
  calculated_fields : list CalcField
}.

(** The schema holds what its declaration says: model instances only. *)
Definition declared_calculated_fields (s : DatasetSchema) : Prop :=
  Forall (fun c => exists spec, c = CalcModel spec) (calculated_fields s).

Record KPISpecification : Type := {
  kpi_name : string;
  kpi_description : string;
  calculation : string;
  target_value : option Q;
  format_string : string;
  priority : Z
}.

(** [Literal["sum", "avg", "count", "min", "max"]] *)
Inductive Aggregation : Type := AggSum | AggAvg | AggCount | AggMin | AggMax.

Definition Aggregation_str (a : Aggregation) : string :=
  match a with
  | AggSum => "sum"
  | AggAvg => "avg"
  | AggCount => "count"
  | AggMin => "min"
  | AggMax => "max"
  end.

Definition all_aggregations : list Aggregation := [AggSum; AggAvg; AggCount; AggMin; AggMax].

Record VisualizationSpec : Type := {
  chart_type : VisualizationType;
  title : string;
  x_axis : list string;
  y_axis : list string;
  color_field : option string;
  size_field : option string;
  filters : list (gmap string PyVal);
  viz_color_scheme : ColorScheme;
  show_labels : bool;
  show_legend : bool;
  aggregation_type : option Aggregation
}.

Record WorksheetSpec : Type := {
  ws_name : string;
  visualization : VisualizationSpec;
  kpis : list KPISpecification;
  ws_description : option string;
  ws_dimensions : gmap string Z
}.

Inductive LayoutType : Type := LayoutAutomatic | LayoutGrid | LayoutFreeForm.

Record DashboardLayout : Type := {
  layout_type : LayoutType;
  layout_rows : Z;
  layout_columns : Z;
  worksheet_positions : gmap string (gmap string Q)
}.

(** [DashboardLayout()] with every default *)
Definition DashboardLayout_default : DashboardLayout :=
  {| layout_type := LayoutAutomatic; layout_rows := 2; layout_columns := 2;
     worksheet_positions := ∅ |}.

Record DashboardSpec : Type := {
  db_name : string;
  db_description : string;
  worksheets : list WorksheetSpec;
  layout : DashboardLayout;
  global_filters : list (gmap string PyVal);
  db_color_scheme : ColorScheme;
  db_dimensions : gmap string Z
}.

Record TableauWorkbookSpec : Type := {
  wb_name : string;
  wb_description : string;
  dashboards : list DashboardSpec;
  data_source : string;
  version : string;
  created_by : string;
  wb_created_at : Z
}.

Record AIRecommendation : Type := {
  confidence_score : Q;
  reasoning : string;
  alternatives : list string
}.

Record AIAnalysisResponse : Type := {
  dataset_insights : gmap string PyVal;
  recommended_kpis : list KPISpecification;
  recommended_visualizations : list VisualizationSpec;
  dashboard_recommendations : AIRecommendation;
  layout_suggestions : AIRecommendation;
  color_scheme_recommendation : AIRecommendation;
  performance_considerations : list string;
  generated_at : Z
}.

(** [output_format : Literal["twb", "twbx"]] *)
Inductive OutputFormat : Type := Twb | Twbx.

Definition OutputFormat_str (f : OutputFormat) : string :=
  match f with
  | Twb => "twb"
  | Twbx => "twbx"
  end.

Record GenerationRequest : Type := {
  dataset_schema : DatasetSchema;
  ai_analysis : AIAnalysisResponse;
  user_preferences : gmap string PyVal;
  output_format : OutputFormat;
  include_sample_data : bool
}.

Record GenerationResult : Type := {
  workbook_spec : TableauWorkbookSpec;
  file_path : string;
  generation_time : Z;
  gr_warnings : list string;
  success : bool;
  error_message : option string
}.

Record ValidationResult : Type := {
  is_valid : bool;
  errors : list string;
  vr_warnings : list string;
  suggestions : list string
}.

(** *** Construction (pydantic validation) *)

(** Validation of a value given for
    [aggregation_type : Optional[Literal["sum", "avg", "count", "min", "max"]]]:
    [None] is kept, a permitted literal is kept, anything else is refused. *)
Definition parse_aggregation_type (v : PyVal) : Py.result (option Aggregation) :=
  match v with
  | PyNone => Py.ret None
  | PyStr s =>
      match find (fun a => String.eqb (Aggregation_str a) s) all_aggregations with
      | Some a => Py.ret (Some a)
      | None =>
          Py.raise (Py.ValidationError
            "aggregation_type: unexpected value; permitted: 'sum', 'avg', 'count', 'min', 'max'")
      end
  | _ =>
      Py.raise (Py.ValidationError
        "aggregation_type: unexpected value; permitted: 'sum', 'avg', 'count', 'min', 'max'")
  end.

(** [VisualizationSpec(chart_type=..., ..., aggregation_type=...)].  The
    last argument is [None] when the keyword is left out, in which case the
    declared default ["sum"] applies. *)
Definition VisualizationSpec_init
    (chart_type : VisualizationType) (title : string) (x_axis y_axis : list string)
    (color_field size_field : option string) (filters : list (gmap string PyVal))
    (color_scheme : ColorScheme) (show_labels show_legend : bool)
    (aggregation_type : option PyVal) : Py.result VisualizationSpec :=
  let! agg := match aggregation_type with
              | None => Py.ret (Some AggSum)
              | Some v => parse_aggregation_type v
              end in
  Py.ret {| chart_type := chart_type; title := title; x_axis := x_axis;
            y_axis := y_axis; color_field := color_field; size_field := size_field;
            filters := filters; viz_color_scheme := color_scheme;
            show_labels := show_labels; show_legend := show_legend;
            aggregation_type := agg |}.

(** [ValidationResult(is_valid=..., errors=..., warnings=..., suggestions=...)]:
    the three lists default to [[]]; the class declares no validator. *)
Definition ValidationResult_init
    (is_valid : bool) (errors warnings suggestions : option (list string))
    : Py.result ValidationResult :=
  Py.ret {| is_valid := is_valid;
            errors := default [] errors;
            vr_warnings := default [] warnings;
            suggestions := default [] suggestions |}.

(** [Field(..., ge=lo, le=hi)] on an [int] and on a [float]. *)
Definition check_int_range (field : string) (lo hi : Z) (v : Z) : Py.result Z :=
  if (Z.leb lo v && Z.leb v hi)%bool then Py.ret v
  else Py.raise (Py.ValidationError (field +:+ ": value out of range")).

Definition check_int_ge (field : string) (lo : Z) (v : Z) : Py.result Z :=
  if Z.leb lo v then Py.ret v
  else Py.raise (Py.ValidationError (field +:+ ": value out of range")).

Definition check_float_range (field : string) (lo hi : Q) (v : Q) : Py.result Q :=
  if (Qle_bool lo v && Qle_bool v hi)%bool then Py.ret v
  else Py.raise (Py.ValidationError (field +:+ ": value out of range")).

(** [KPISpecification(...)]: [priority] is [Field(1, ge=1, le=5)] and
    [format_string] defaults to "#,##0"; an argument left out is [None]. *)
Definition KPISpecification_init (name description calculation : string)
    (target_value : option Q) (format_string : option string) (priority : option Z)
    : Py.result KPISpecification :=
  let! p := check_int_range "priority" 1 5 (default 1 priority) in
  Py.ret {| kpi_name := name; kpi_description := description;
            calculation := calculation; target_value := target_value;
            format_string := default "#,##0" format_string; priority := p |}.

(** [AIRecommendation(...)]: [confidence_score] is [Field(..., ge=0, le=1)]. *)
Definition AIRecommendation_init (confidence_score : Q) (reasoning : string)
    (alternatives : option (list string)) : Py.result AIRecommendation :=
  let! c := check_float_range "confidence_score" (0 # 1) (1 # 1) confidence_score in
  Py.ret {| confidence_score := c; reasoning := reasoning;
            alternatives := default [] alternatives |}.

(** [DashboardLayout(...)]: [rows] and [columns] are [Field(2, ge=1)]. *)
Definition DashboardLayout_init (layout_type : option LayoutType)
    (rows columns : option Z)
    (worksheet_positions : option (gmap string (gmap string Q)))
    : Py.result DashboardLayout :=
  let! r := check_int_ge "rows" 1 (default 2 rows) in
  let! c := check_int_ge "columns" 1 (default 2 columns) in
  Py.ret {| layout_type := default LayoutAutomatic layout_type;
            layout_rows := r; layout_columns := c;
            worksheet_positions := default ∅ worksheet_positions |}.

(** Validation of one entry given for [calculated_fields]: an instance is
    kept; a dict is turned into an instance when it carries name, formula
    and data_type and its role, if any, is "dimension" or "measure". *)
Definition coerce_calc_field (c : CalcField) : Py.result CalculatedFieldSpec :=
  match c with
  | CalcModel spec => Py.ret spec
  | CalcDict d =>
      match d_name d, d_formula d, d_data_type d with
      | Some name, Some formula, Some data_type =>
          let! role :=
            match d_role d with
            | None => Py.ret (Some FieldMeasure)
            | Some r =>
                if String.eqb r "dimension" then Py.ret (Some FieldDimension)
                else if String.eqb r "measure" then Py.ret (Some FieldMeasure)
                else Py.raise (Py.ValidationError
                       "role: unexpected value; permitted: 'dimension', 'measure'")
            end in
          Py.ret {| cf_name := name; cf_formula := formula;
                    cf_data_type := data_type; cf_role := role |}
      | _, _, _ => Py.raise (Py.ValidationError "calculated_fields: field required")
      end
  end.

(** [DatasetSchema(...)]: [data_quality_score] is [Field(..., ge=0, le=1)];
    the entries of [calculated_fields] are validated one by one; [now] is
    the reading of the clock taken for [created_at]. *)
Definition DatasetSchema_init (now : Z) (name : string) (total_rows total_columns : Z)
    (columns : list DataColumn) (data_quality_score : Q)
    (business_context : option string) (calculated_fields : option (list CalcField))
    : Py.result DatasetSchema :=
  let! score := check_float_range "data_quality_score" (0 # 1) (1 # 1)
                  data_quality_score in
  let! specs := Py.for_each coerce_calc_field (default [] calculated_fields) in
  Py.ret {| ds_name := name; total_rows := total_rows; total_columns := total_columns;
            columns := columns; data_quality_score := score;
            business_context := business_context; ds_created_at := now;
            calculated_fields := CalcModel <$> specs |}.

(** *** Schema inference *)

(** What the pandas dtype tests of [validate_dataframe_schema] tell apart:
    at most one of [is_integer_dtype], [is_float_dtype],
    [is_datetime64_any_dtype], [is_bool_dtype] and [dtype == 'object'] holds
    of a column. *)
Inductive Dtype : Type :=
  | IntegerDtype | FloatDtype | Datetime64Dtype | BoolDtype | ObjectDtype | OtherDtype.

(** What the function reads off one column of the frame. *)
Record Series : Type := {
  series_name : string;
  dtype : Dtype;
  nunique : Z;
  isna_sum : Z;
  isna_all : bool;
  dropna_head5 : list PyVal;
  series_mean : Q;
  series_std : Q;
  series_min : Q;
  series_max : Q
}.

Record DataFrame : Type := {
  df_len : Z;
  df_columns : list Series
}.

Definition infer_data_type (col_data : Series) : DataType :=
  match dtype col_data with
  | IntegerDtype => INTEGER
  | FloatDtype => FLOAT
  | Datetime64Dtype => DATETIME
  | BoolDtype => BOOLEAN
  | ObjectDtype => if Z.ltb (nunique col_data) 50 then CATEGORICAL else STRING
  | OtherDtype => STRING
  end.

Definition is_numeric (data_type : DataType) : bool :=
  match data_type with
  | INTEGER | FLOAT => true
  | _ => false
  end.

(** The column specification built in the loop body.  [exceeds_08 u n] is
    the floating-point test [u > n * 0.8]. *)
Definition infer_column (exceeds_08 : Z -> Z -> bool) (df : DataFrame)
    (col_data : Series) : DataColumn :=
  let data_type := infer_data_type col_data in
  let stat (v : Q) : Q := if isna_all col_data then 0 # 1 else v in
  let statistics :=
    if is_numeric data_type
    then Some (<["mean" := stat (series_mean col_data)]>
               (<["std" := stat (series_std col_data)]>
               (<["min" := stat (series_min col_data)]>
               (<["max" := stat (series_max col_data)]> (∅ : gmap string Q)))))
    else None in
  {| col_name := series_name col_data;
     col_data_type := data_type;
     unique_values := nunique col_data;
     null_count := isna_sum col_data;
     sample_values := dropna_head5 col_data;
     statistics := statistics;
     is_key_field := exceeds_08 (nunique col_data) (df_len df);
     recommended_role :=
       Some (if is_numeric data_type then RoleMeasure else RoleDimension) |}.

(** [sum(col.null_count for col in columns)] *)
Definition total_nulls (columns : list DataColumn) : Z :=
  foldr (fun col acc => null_count col + acc) 0 columns.

(** [df.columns]: the labels, in order, repeated ones included. *)
Definition column_labels (df : DataFrame) : list string :=
  series_name <$> df_columns df.

(** What [df[col_name]] gives for a label of the frame: the column, or a
    frame of all the columns that carry the label when it is repeated. *)
Inductive Selection : Type :=
  | SelectedSeries (col_data : Series)
  | SelectedFrame (columns : list Series).

Definition getitem (df : DataFrame) (col_name : string) : Selection :=
  match filter (fun col_data => series_name col_data = col_name) (df_columns df) with
  | [col_data] => SelectedSeries col_data
  | columns => SelectedFrame columns
  end.

(** One round of the loop over [df.columns].  On a frame the four dtype
    tests answer False and reading [col_data.dtype] raises. *)
Definition infer_labelled (exceeds_08 : Z -> Z -> bool) (df : DataFrame)
    (col_name : string) : Py.result DataColumn :=
  match getitem df col_name with
  | SelectedSeries col_data => Py.ret (infer_column exceeds_08 df col_data)
  | SelectedFrame _ =>
      Py.raise (Py.AttributeError "'DataFrame' object has no attribute 'dtype'")
  end.

(** [validate_dataframe_schema(df, calculated_fields)]; the quality score
    [1 - total_nulls / total_cells] is taken as a rational. *)
Definition validate_dataframe_schema (exceeds_08 : Z -> Z -> bool) (now : Z)
    (df : DataFrame) (calculated_fields : option (list CalcField))
    : Py.result DatasetSchema :=
  let! columns := Py.for_each (infer_labelled exceeds_08 df) (column_labels df) in
  let nulls := total_nulls columns in
  let total_cells := df_len df * Py.len (df_columns df) in
  let data_quality_score :=
    if Z.ltb 0 total_cells
    then Qminus (1 # 1) (Qdiv (inject_Z nulls) (inject_Z total_cells))
    else 0 # 1 in
  DatasetSchema_init now "uploaded_dataset" (df_len df) (Py.len (df_columns df))
    columns data_quality_score None
    (Some (default [] calculated_fields)).

End Schemas.

(** ** The generation engine of [tableau_engine/generator.py] *)

Module Generator.
Import Schemas.

(** The attributes [__init__] sets on [self]; [output_directory] is the
    text [str(self.output_directory)] of the stored path. *)
Record TableauWorkbookGenerator : Type := {
  output_directory : string;
  tableau_version : string;
  build_version : string
}.

(** What a path of the file store holds once the packaging layer opened it
    for writing: a text file, or an archive with its entries in the order
    written. *)
Inductive File : Type :=
  | TextFile (content : string)
  | ZipFile (entries : list (string * string)).

(** The library calls and the surroundings the engine depends on.
    - [path_str s] is [str(Path(s))], [path_join dir name] is
      [str(Path(dir) / name)];
    - [mkdir_error dir] is what [Path(dir).mkdir(parents=True, exist_ok=True)]
      raises, if anything;
    - [open_error path] is what opening the path for writing raises;
    - [write_error path text] is what [f.write(text)] raises on the open text
      file, with the text the file is left with;
    - [writestr_error path name data] is what [zipf.writestr(name, data)]
      raises on the open archive, with the data of the entry when one was
      still recorded;
    - [csv_text rows] is the text [csv.writer] produces for the rows, or
      what the first row it cannot write raises;
    - random draws are indexed by the row and the column they are made for. *)
Record Env : Type := {
  uuid4 : string;
  clock : nat -> Z;
  prettify : ET.Element -> Py.result string;
  path_str : string -> string;
  path_join : string -> string -> string;
  mkdir_error : string -> option Py.Exn;
  open_error : string -> option Py.Exn;
  write_error : string -> string -> option (Py.Exn * string);
  writestr_error : string -> string -> string -> option (Py.Exn * option string);
  csv_text : list (list PyVal) -> Py.result string;
  randint : Z -> Z -> nat * nat -> Z;
  uniform_round2 : Z -> Z -> nat * nat -> Q;
  choice : nat -> nat * nat -> nat;
  strftime_days_after : Z -> Z -> Z -> Z -> string
}.

(** [__init__]: the directory is stored as a path and created with its
    parents.  The file store below holds the files the packaging layer
    writes, not the directory tree, so the creation shows as the exception
    it may raise. *)
Definition TableauWorkbookGenerator_init (env : Env) (output_directory : string)
    : Py.result TableauWorkbookGenerator :=
  let output_directory := path_str env output_directory in
  match mkdir_error env output_directory with
  | Some e => Py.raise e
  | None =>
      Py.ret {| output_directory := output_directory;
                tableau_version := "2023.3";
                build_version := "20233.23.0322.1437" |}
  end.

Section Engine.

Variable self : TableauWorkbookGenerator.
Variable env : Env.

(** [str(uuid.uuid4()).upper().replace("-", "")[:8]] *)
Definition _generate_id : string :=
  Py.prefix_n 8 (Py.remove_char "-" (Py.upper (uuid4 env))).

(** The dict literal [mapping] of [_get_tableau_data_type]. *)
Definition data_type_mapping : gmap string string :=
  list_to_map
    [ ("integer", "integer");
      ("float", "real");
      ("string", "string");
      ("datetime", "datetime");
      ("boolean", "boolean");
      ("categorical", "string") ].

Definition _get_tableau_data_type (data_type : DataType) : string :=
  default "string" (data_type_mapping !! DataType_value data_type).

(** [column.recommended_role == s] *)
Definition role_eq (r : option ColumnRole) (s : string) : bool :=
  match r with
  | Some r => String.eqb (ColumnRole_str r) s
  | None => false
  end.

Definition _add_column_metadata (column : DataColumn) (ordinal : Z) : ET.Element :=
  ET.extend
    [ ET.leaf "remote-name" (col_name column);
      ET.leaf "remote-type" (_get_tableau_data_type (col_data_type column));
      ET.leaf "local-name" ("[" +:+ col_name column +:+ "]");
      ET.leaf "parent-name" ("[" +:+ col_name column +:+ "]");
      ET.leaf "remote-alias" (col_name column);
      ET.leaf "ordinal" (Py.str_int ordinal);
      ET.leaf "local-type" (_get_tableau_data_type (col_data_type column));
      ET.leaf "aggregation"
        (if role_eq (recommended_role column) "measure" then "Sum" else "Count");
      ET.leaf "contains-null" (if Z.ltb 0 (null_count column) then "true" else "false") ]
    (ET.set "class" "column" (ET.new "metadata-record")).

(** [calc_field[key]]: a pydantic model is not subscriptable; a dict raises
    [KeyError] on a missing key. *)
Definition subscript {A} (calc_field : CalcField) (key : string)
    (entry : CalcFieldDict -> option A) : Py.result A :=
  match calc_field with
  | CalcModel _ =>
      Py.raise (Py.TypeError "'CalculatedFieldSpec' object is not subscriptable")
  | CalcDict d =>
      match entry d with
      | Some v => Py.ret v
      | None => Py.raise (Py.KeyError key)
      end
  end.

(** [calc_field.get('role', dflt)] *)
Definition get_role (calc_field : CalcField) (dflt : string) : Py.result string :=
  match calc_field with
  | CalcModel _ =>
      Py.raise (Py.mkExn "AttributeError"
                  "'CalculatedFieldSpec' object has no attribute 'get'")
  | CalcDict d => Py.ret (default dflt (d_role d))
  end.

(** The keys are read in the order name, data_type, role, formula; reading
    a key again gives what the first read gave. *)
Definition _add_calculated_field_metadata (calc_field : CalcField) (ordinal : Z)
    : Py.result ET.Element :=
  let! name := subscript calc_field "name" d_name in
  let! data_type := subscript calc_field "data_type" d_data_type in
  let! role := get_role calc_field "measure" in
  let! formula := subscript calc_field "formula" d_formula in
  Py.ret
    (ET.extend
       [ ET.leaf "remote-name" name;
         ET.leaf "remote-type" (_get_tableau_data_type data_type);
         ET.leaf "local-name" ("[" +:+ name +:+ "]");
         ET.leaf "parent-name" ("[" +:+ name +:+ "]");
         ET.leaf "remote-alias" name;
         ET.leaf "ordinal" (Py.str_int ordinal);
         ET.leaf "local-type" (_get_tableau_data_type data_type);
         ET.leaf "aggregation" (if String.eqb role "measure" then "Sum" else "Count");
         ET.leaf "contains-null" "false";
         ET.set "type" "tableau" (ET.set "formula" formula (ET.new "calculation")) ]
       (ET.set "class" "column" (ET.new "metadata-record"))).

(** The [column-instance] of a source column. *)
Definition column_instance (column : DataColumn) : ET.Element :=
  ET.set "type" (if role_eq (recommended_role column) "dimension"
                 then "nominal" else "quantitative")
    (ET.set "pivot" "key"
      (ET.set "name" ("[" +:+ col_name column +:+ "]")
        (ET.set "derivation" "None"
          (ET.set "column" ("[" +:+ col_name column +:+ "]")
            (ET.new "column-instance"))))).

(** The [column-instance] of a calculated field. *)
Definition calc_column_instance (calc_field : CalcField) : Py.result ET.Element :=
  let! name := subscript calc_field "name" d_name in
  let! role := get_role calc_field "dimension" in
  Py.ret
    (ET.set "type" (if String.eqb role "dimension" then "nominal" else "quantitative")
      (ET.set "pivot" "key"
        (ET.set "name" ("[" +:+ name +:+ "]")
          (ET.set "derivation" "Calculation"
            (ET.set "column" ("[" +:+ name +:+ "]")
              (ET.new "column-instance")))))).

(** The records appended to [metadata-records]: the loop over the columns,
    then, when [calculated_fields] is non-empty, the loop over it. *)
Definition metadata_records (dataset_schema : DatasetSchema)
    : Py.result (list ET.Element) :=
  let column_records :=
    map (fun '(i, column) => _add_column_metadata column i)
        (Py.enumerate (columns dataset_schema)) in
  let! calc_records :=
    match calculated_fields dataset_schema with
    | [] => Py.ret []
    | _ :: _ =>
        Py.for_each
          (fun '(j, calc_field) =>
             _add_calculated_field_metadata calc_field
               (Py.len (columns dataset_schema) + j))
          (Py.enumerate (calculated_fields dataset_schema))
    end in
  Py.ret (column_records ++ calc_records).

Definition _create_datasource_element (dataset_schema : DatasetSchema)
    : Py.result ET.Element :=
  let name := ds_name dataset_schema in
  let datasource :=
    ET.set "version" "18.1"
      (ET.set "name" ("federated." +:+ _generate_id)
        (ET.set "caption" name (ET.new "datasource"))) in
  let inner_connection :=
    ET.set "server" ""
      (ET.set "password" ""
        (ET.set "filename" (name +:+ ".csv")
          (ET.set "directory" (output_directory self)
            (ET.set "class" "textscan" (ET.new "connection"))))) in
  let named_connection :=
    ET.append inner_connection
      (ET.set "name" "textscan"
        (ET.set "caption" name (ET.new "named-connection"))) in
  let named_connections :=
    ET.append named_connection (ET.new "named-connections") in
  let relation :=
    ET.set "type" "table"
      (ET.set "table" ("[" +:+ name +:+ ".csv]")
        (ET.set "name" (name +:+ ".csv")
          (ET.set "connection" "textscan" (ET.new "relation")))) in
  let connection :=
    ET.append relation
      (ET.append named_connections
        (ET.set "class" "federated" (ET.new "connection"))) in
  let! records := metadata_records dataset_schema in
  let column_instances := map column_instance (columns dataset_schema) in
  let! calc_instances :=
    match calculated_fields dataset_schema with
    | [] => Py.ret []
    | _ :: _ => Py.for_each calc_column_instance (calculated_fields dataset_schema)
    end in
  Py.ret
    (ET.append (ET.extend (column_instances ++ calc_instances) (ET.new "column-instances"))
      (ET.append (ET.extend records (ET.new "metadata-records"))
        (ET.append connection datasource))).

(** *** Worksheets *)

(** [aggregation and aggregation != "none"] decides whether the column
    carries an [aggregation] attribute. *)
Definition _add_encoding (shelf field_name : string) (datasource : ET.Element)
    (aggregation : option string) : ET.Element :=
  let column :=
    ET.leaf "column"
      ("[" +:+ ET.fmt_get datasource "name" +:+ "].[" +:+ field_name +:+ "]") in
  let column :=
    if (Py.truthy_opt_str aggregation
        && negb (bool_decide (aggregation = Some "none")))%bool
    then ET.set "aggregation" (Py.title (default "" aggregation)) column
    else column in
  ET.append column (ET.new shelf).

(** The dict literal [mapping] of [_get_tableau_mark_type]. *)
Definition mark_type_mapping : list (VisualizationType * string) :=
  [ (BAR, "Bar"); (LINE, "Line"); (AREA, "Area"); (SCATTER, "Circle");
    (PIE, "Pie"); (HEATMAP, "Square"); (TREEMAP, "Square"); (MAP, "Map") ].

Definition _get_tableau_mark_type (chart_type : VisualizationType) : string :=
  match find (fun kv => bool_decide (kv.1 = chart_type)) mark_type_mapping with
  | Some kv => kv.2
  | None => "Automatic"
  end.

(** The children of [encodings], in the order the four blocks add them. *)
Definition encodings_of (viz_spec : VisualizationSpec) (datasource : ET.Element)
    : list ET.Element :=
  let aggregation_type := Aggregation_str <$> aggregation_type viz_spec in
  let rows :=
    match y_axis viz_spec with
    | [] => []
    | _ :: _ =>
        map (fun field => _add_encoding "rows" field datasource aggregation_type)
            (y_axis viz_spec)
    end in
  let cols :=
    match x_axis viz_spec with
    | [] => []
    | _ :: _ =>
        map (fun field => _add_encoding "columns" field datasource (Some "none"))
            (x_axis viz_spec)
    end in
  let color :=
    if Py.truthy_opt_str (color_field viz_spec)
    then [_add_encoding "color" (default "" (color_field viz_spec)) datasource (Some "none")]
    else [] in
  let size :=
    if Py.truthy_opt_str (size_field viz_spec)
    then [_add_encoding "size" (default "" (size_field viz_spec)) datasource aggregation_type]
    else [] in
  rows ++ cols ++ color ++ size.

(** The elements appended to [view]: [aggregation], then [panes]. *)
Definition _add_visualization_elements (viz_spec : VisualizationSpec)
    (datasource : ET.Element) : list ET.Element :=
  let aggregation := ET.set "value" "true" (ET.new "aggregation") in
  let view_name := ET.set "name" (title viz_spec) (ET.new "view") in
  let mark := ET.set "class" (_get_tableau_mark_type (chart_type viz_spec)) (ET.new "mark") in
  let encodings := ET.extend (encodings_of viz_spec datasource) (ET.new "encodings") in
  let pane :=
    ET.extend [view_name; mark; encodings]
      (ET.set "selection-relaxation-option" "selection-relaxation-allow" (ET.new "pane")) in
  [aggregation; ET.append pane (ET.new "panes")].

(** The [layout-options] element appended to the worksheet. *)
Definition _add_worksheet_style (worksheet_spec : WorksheetSpec) : ET.Element :=
  let title_run := ET.leaf "run" (title (visualization worksheet_spec)) in
  let title_text := ET.append title_run (ET.new "formatted-text") in
  ET.append (ET.append title_text (ET.new "title")) (ET.new "layout-options").

(** [datasource] is the element [_create_datasource_element] returned, which
    carries [caption] and [name]. *)
Definition _create_worksheet_element (worksheet_spec : WorksheetSpec)
    (datasource : ET.Element) : ET.Element :=
  let datasource_ref :=
    ET.set "name" (ET.fmt_get datasource "name")
      (ET.set "caption" (ET.fmt_get datasource "caption") (ET.new "datasource")) in
  let view :=
    ET.extend (_add_visualization_elements (visualization worksheet_spec) datasource)
      (ET.append (ET.append datasource_ref (ET.new "datasources")) (ET.new "view")) in
  let table :=
    ET.append view
      (ET.set "show-empty" "true"
        (ET.set "name" (ws_name worksheet_spec) (ET.new "table"))) in
  ET.append (_add_worksheet_style worksheet_spec)
    (ET.append table (ET.set "name" (ws_name worksheet_spec) (ET.new "worksheet"))).

(** *** Dashboards *)

Definition _add_zone_properties (zone : ET.Element) (worksheet : WorksheetSpec)
    (index total : Z) : Py.result ET.Element :=
  let cols := if Z.ltb 2 total then 2 else total in
  let! rows := Py.floordiv (total + cols - 1) cols in
  let! col := Py.pymod index cols in
  let! row := Py.floordiv index cols in
  let zone := ET.set "x" (Py.str_int (col * 400)) zone in
  let zone := ET.set "y" (Py.str_int (row * 300)) zone in
  let zone := ET.set "w" "400" zone in
  let zone := ET.set "h" "300" zone in
  Py.ret (ET.append (ET.set "name" (ws_name worksheet) (ET.new "worksheet")) zone).

(** [d[key]] on a [Dict[str, int]] *)
Definition dict_item (d : gmap string Z) (key : string) : Py.result Z :=
  match d !! key with
  | Some v => Py.ret v
  | None => Py.raise (Py.KeyError key)
  end.

(** The [zone] elements the loop over [enumerate(dashboard_spec.worksheets)]
    appends to [zones]. *)
Definition dashboard_zones (dashboard_spec : DashboardSpec)
    : Py.result (list ET.Element) :=
  Py.for_each
    (fun '(i, worksheet) =>
       let zone := ET.set "type" "layout-basic"
                     (ET.set "id" (Py.str_int i) (ET.new "zone")) in
       _add_zone_properties zone worksheet i (Py.len (worksheets dashboard_spec)))
    (Py.enumerate (worksheets dashboard_spec)).

Definition _create_dashboard_element (dashboard_spec : DashboardSpec)
    : Py.result ET.Element :=
  let dashboard := ET.set "name" (db_name dashboard_spec) (ET.new "dashboard") in
  let! height := dict_item (db_dimensions dashboard_spec) "height" in
  let! width := dict_item (db_dimensions dashboard_spec) "width" in
  let size :=
    ET.set "maxwidth" (Py.str_int width)
      (ET.set "maxheight" (Py.str_int height) (ET.new "size")) in
  let! zone_list := dashboard_zones dashboard_spec in
  let zones := ET.extend zone_list (ET.new "zones") in
  let devicelayout :=
    ET.set "name" "Phone" (ET.set "auto-generated" "true" (ET.new "devicelayout")) in
  let devicelayouts := ET.append devicelayout (ET.new "devicelayouts") in
  let view := ET.append devicelayouts (ET.append zones (ET.new "view")) in
  Py.ret (ET.append view (ET.append size dashboard)).

(** *** Windows *)

(** [workbook_spec.dashboards[0].worksheets[0].name if workbook_spec.dashboards
    else "Sheet1"] *)
Definition window_name (workbook_spec : TableauWorkbookSpec) : Py.result string :=
  match dashboards workbook_spec with
  | [] => Py.ret "Sheet1"
  | dashboard :: _ =>
      match worksheets dashboard with
      | [] => Py.raise (Py.IndexError "list index out of range")
      | worksheet :: _ => Py.ret (ws_name worksheet)
      end
  end.

Definition _create_windows_element (workbook_spec : TableauWorkbookSpec)
    : Py.result ET.Element :=
  let window := ET.set "maximized" "true" (ET.set "class" "worksheet" (ET.new "window")) in
  let! name := window_name workbook_spec in
  let window := ET.set "name" name window in
  let card := ET.set "type" "data" (ET.new "card") in
  let strip := ET.append card (ET.set "size" "160" (ET.new "strip")) in
  let edge_name := ET.append strip (ET.set "name" "left" (ET.new "edge")) in
  Py.ret (ET.append (ET.append edge_name (ET.new "cards")) window).

(** *** The workbook specification *)

Definition _create_workbook_specification (request : GenerationRequest)
    : TableauWorkbookSpec :=
  let worksheets :=
    map (fun '(i, viz_spec) =>
           {| ws_name := "Sheet " +:+ Py.str_int (i + 1);
              visualization := viz_spec;
              kpis := [];
              ws_description := Some ("Generated visualization: " +:+ title viz_spec);
              ws_dimensions := {[ "width" := 800; "height" := 600 ]} |})
        (Py.enumerate (recommended_visualizations (ai_analysis request))) in
  let dashboard :=
    {| db_name := "AI Generated Dashboard";
       db_description := "Automatically generated dashboard based on AI analysis";
       worksheets := worksheets;
       layout := DashboardLayout_default;
       global_filters := [];
       db_color_scheme := TABLEAU10;
       db_dimensions := {[ "width" := 1200; "height" := 800 ]} |} in
  {| wb_name := ds_name (dataset_schema request) +:+ "_Dashboard";
     wb_description := "AI-generated dashboard for " +:+ ds_name (dataset_schema request);
     dashboards := [dashboard];
     data_source := ds_name (dataset_schema request);
     version := tableau_version self;
     created_by := "AI Dashboard Generator";
     wb_created_at := clock env 1 |}.

(** *** The two XML documents *)

(** The tree handed to the serializer. *)
Definition workbook_tree (workbook_spec : TableauWorkbookSpec)
    (request : GenerationRequest) : Py.result ET.Element :=
  let workbook :=
    ET.set "source-build" (build_version self)
      (ET.set "build-version" (build_version self)
        (ET.set "version" (tableau_version self) (ET.new "workbook"))) in
  let preferences := ET.new "preferences" in
  let repository :=
    ET.set "path" (wb_name workbook_spec +:+ ".twb")
      (ET.set "id" "TWB Repository" (ET.new "repository-location")) in
  let! datasource := _create_datasource_element (dataset_schema request) in
  let datasources := ET.append datasource (ET.new "datasources") in
  let worksheet_list :=
    concat (map (fun dashboard =>
                   map (fun worksheet => _create_worksheet_element worksheet datasource)
                       (worksheets dashboard))
                (dashboards workbook_spec)) in
  let worksheets := ET.extend worksheet_list (ET.new "worksheets") in
  let! dashboard_list := Py.for_each _create_dashboard_element (dashboards workbook_spec) in
  let dashboards := ET.extend dashboard_list (ET.new "dashboards") in
  let! window := _create_windows_element workbook_spec in
  let windows := ET.append window (ET.new "windows") in
  Py.ret
    (ET.extend [preferences; repository; datasources; worksheets; dashboards; windows]
       workbook).

Definition _generate_workbook_xml (workbook_spec : TableauWorkbookSpec)
    (request : GenerationRequest) : Py.result string :=
  let! workbook := workbook_tree workbook_spec request in
  prettify env workbook.

Definition _generate_datasource_xml (dataset_schema : DatasetSchema) : Py.result string :=
  let datasource :=
    ET.set "version" "18.1"
      (ET.set "source-platform" "win"
        (ET.set "inline" "true"
          (ET.set "formatted-name" (ds_name dataset_schema) (ET.new "datasource")))) in
  let connection :=
    ET.set "filename" (ds_name dataset_schema +:+ ".csv")
      (ET.set "directory" (output_directory self)
        (ET.set "class" "textscan" (ET.new "connection"))) in
  prettify env (ET.append connection datasource).

(** *** Packaging *)

Definition _generate_synthetic_value (column : DataColumn) (index : Z)
    (draw : nat * nat) : PyVal :=
  match col_data_type column with
  | INTEGER => PyInt (randint env 1 1000 draw)
  | FLOAT => PyFloat (uniform_round2 env 0 1000 draw)
  | STRING => PyStr (col_name column +:+ "_" +:+ Py.str_int index)
  | CATEGORICAL =>
      PyStr (nth (choice env 4 draw)
                 ["Category A"; "Category B"; "Category C"; "Category D"] "Category A")
  | DATETIME => PyStr (strftime_days_after env 2023 1 1 index)
  | BOOLEAN => PyBool (nth (choice env 2 draw) [true; false] true)
  | DATE => PyStr ("Value_" +:+ Py.str_int index)
  end.

(** The rows handed to [csv.writer]: the header, then one row for each index
    of [range(min(100, total_rows))]. *)
Definition sample_rows (dataset_schema : DatasetSchema) : list (list PyVal) :=
  let headers := map (fun col => PyStr (col_name col)) (columns dataset_schema) in
  let row (i : Z) :=
    imap (fun j col =>
            match sample_values col with
            | [] => _generate_synthetic_value col i (Z.to_nat i, j)
            | _ :: _ =>
                default PyNone
                  (sample_values col !! Z.to_nat (i mod Py.len (sample_values col)))
            end)
         (columns dataset_schema) in
  headers :: map row (seqZ 0 (Z.min 100 (total_rows dataset_schema))).

Definition _generate_sample_csv (dataset_schema : DatasetSchema) : Py.result string :=
  csv_text env (sample_rows dataset_schema).

(** [with open(file_path, 'w', encoding='utf-8') as f: f.write(workbook_xml)]:
    a failing [open] leaves the store as it was; once the file is open it
    is there, with what was written when the block is left. *)
Definition _create_twb_file (workbook_xml : string) (workbook_spec : TableauWorkbookSpec)
    (fs : gmap string File) : Py.result string * gmap string File :=
  let filename := wb_name workbook_spec +:+ ".twb" in
  let file_path := path_join env (output_directory self) filename in
  match open_error env file_path with
  | Some e => (Py.raise e, fs)
  | None =>
      match write_error env file_path workbook_xml with
      | Some (e, written) => (Py.raise e, <[file_path := TextFile written]> fs)
      | None => (Py.ret file_path, <[file_path := TextFile workbook_xml]> fs)
      end
  end.

(** [zipf.writestr(name, data)] on the archive open at [file_path]: whether
    it raises, and the entries of the archive afterwards. *)
Definition writestr (file_path name data : string) (entries : list (string * string))
    : Py.result unit * list (string * string) :=
  match writestr_error env file_path name data with
  | Some (e, Some recorded) => (Py.raise e, entries ++ [(name, recorded)])
  | Some (e, None) => (Py.raise e, entries)
  | None => (Py.ret tt, entries ++ [(name, data)])
  end.

(** The body of the [with] block of [_create_twbx_file]: the two documents
    are written first, the CSV text is generated after them. *)
Definition twbx_body (file_path workbook_xml datasource_xml : string)
    (request : GenerationRequest) : Py.result unit * list (string * string) :=
  match writestr file_path "workbook.twb" workbook_xml [] with
  | (inl e, entries) => (Py.raise e, entries)
  | (inr _, entries) =>
      match writestr file_path "Data/Datasources/datasource.tds" datasource_xml
              entries with
      | (inl e, entries) => (Py.raise e, entries)
      | (inr _, entries) =>
          if include_sample_data request
          then
            match _generate_sample_csv (dataset_schema request) with
            | inl e => (Py.raise e, entries)
            | inr sample_data =>
                writestr file_path
                  ("Data/" +:+ ds_name (dataset_schema request) +:+ ".csv")
                  sample_data entries
            end
          else (Py.ret tt, entries)
      end
  end.

(** [with zipfile.ZipFile(file_path, 'w', ...) as zipf: ...]: leaving the
    block, also by an exception, closes the archive with the entries
    written so far. *)
Definition _create_twbx_file (workbook_xml datasource_xml : string)
    (workbook_spec : TableauWorkbookSpec) (request : GenerationRequest)
    (fs : gmap string File) : Py.result string * gmap string File :=
  let filename := wb_name workbook_spec +:+ ".twbx" in
  let file_path := path_join env (output_directory self) filename in
  match open_error env file_path with
  | Some e => (Py.raise e, fs)
  | None =>
      let '(body, entries) := twbx_body file_path workbook_xml datasource_xml request in
      (let! _ := body in Py.ret file_path, <[file_path := ZipFile entries]> fs)
  end.

(** *** Orchestration *)

(** The body of the [try] block up to the file path. *)
Definition generation_steps (request : GenerationRequest) (fs : gmap string File)
    : Py.result (TableauWorkbookSpec * string) * gmap string File :=
  let workbook_spec := _create_workbook_specification request in
  match _generate_workbook_xml workbook_spec request with
  | inl e => (Py.raise e, fs)
  | inr workbook_xml =>
      match _generate_datasource_xml (dataset_schema request) with
      | inl e => (Py.raise e, fs)
      | inr datasource_xml =>
          let '(written, fs') :=
            match output_format request with
            | Twbx => _create_twbx_file workbook_xml datasource_xml workbook_spec request fs
            | Twb => _create_twb_file workbook_xml workbook_spec fs
            end in
          (let! file_path := written in Py.ret (workbook_spec, file_path), fs')
      end
  end.

(** [generation_time] is kept in the unit of [clock]. *)
Definition generate_workbook (request : GenerationRequest) (fs : gmap string File)
    : GenerationResult * gmap string File :=
  let start_time := clock env 0 in
  match generation_steps request fs with
  | (inr (workbook_spec, file_path), fs') =>
      ({| workbook_spec := workbook_spec;
          file_path := file_path;
          generation_time := clock env 2 - start_time;
          gr_warnings := [];
          success := true;
          error_message := None |}, fs')
  | (inl e, fs') =>
      ({| workbook_spec :=
            {| wb_name := "Failed Generation";
               wb_description := "Generation failed";
               dashboards := [];
               data_source := "";
               version := "2023.3";
               created_by := "AI Dashboard Generator";
               wb_created_at := clock env 2 |};
          file_path := "";
          generation_time := clock env 3 - start_time;
          gr_warnings := [];
          success := false;
          error_message := Some (Py.exn_str e) |}, fs')
  end.

End Engine.

End Generator.

(** ** Sample inputs *)

Module Samples.
Import Schemas Generator.

(** The generator [TableauWorkbookGenerator()] with the default directory. *)
Definition sample_self : TableauWorkbookGenerator :=
  {| output_directory := "data/outputs";
     tableau_version := "2023.3";
     build_version := "20233.23.0322.1437" |}.

(** [s.split("/")] *)
Fixpoint split_slash (s : string) : list string :=
  match s with
  | EmptyString => [EmptyString]
  | String c s' =>
      if Ascii.eqb c "/" then EmptyString :: split_slash s'
      else match split_slash s' with
           | [] => [String c EmptyString]
           | part :: parts => String c part :: parts
           end
  end.

(** The root and the parts of a POSIX path: one leading slash, or exactly
    two, is the root; empty and "." components are dropped. *)
Definition posix_root (s : string) : string :=
  match s with
  | String "/" (String "/" (String "/" _)) => "/"
  | String "/" (String "/" _) => "//"
  | String "/" _ => "/"
  | _ => ""
  end.

Definition posix_parts (s : string) : list string :=
  filter (fun part => part <> "" /\ part <> ".") (split_slash s).

Definition posix_text (root : string) (parts : list string) : string :=
  match root, parts with
  | EmptyString, [] => "."
  | _, _ => root +:+ String.concat "/" parts
  end.

(** [str(PurePosixPath(s))] *)
Definition posix_str (s : string) : string :=
  posix_text (posix_root s) (posix_parts s).

(** [str(PurePosixPath(dir) / name)] *)
Definition posix_join (dir name : string) : string :=
  match posix_root name with
  | EmptyString => posix_text (posix_root dir) (posix_parts dir ++ posix_parts name)
  | _ => posix_str name
  end.

(** Whether [str] refuses an int: more than 4300 decimal digits.  The power
    of ten lies between [2 ^ 14284] and [2 ^ 14285]. *)
Definition over_digit_limit (n : Z) : bool :=
  let bits := Z.log2 (Z.abs n) in
  if Z.ltb bits 14284 then false
  else if Z.leb 14285 bits then true
  else Z.leb (10 ^ 4300) (Z.abs n).

Definition unprintable (value : PyVal) : bool :=
  match value with
  | PyInt n => over_digit_limit n
  | _ => false
  end.

(** Surroundings in which the file system never fails: paths are POSIX
    paths, the serializer answers with the root tag, every path can be
    opened and written, the clock ticks once per reading.  The CSV writer
    answers with the number of rows, and raises on an int that [str]
    refuses. *)
Definition sample_env : Env :=
  {| uuid4 := "1b9d6bcd-bbfd-4b2d-9b5d-ab8dfbbd4bed";
     clock := fun n => Z.of_nat n;
     prettify := fun e => Py.ret ("<" +:+ ET.tag e +:+ "/>");
     path_str := posix_str;
     path_join := posix_join;
     mkdir_error := fun _ => None;
     open_error := fun _ => None;
     write_error := fun _ _ => None;
     writestr_error := fun _ _ _ => None;
     csv_text := fun rows =>
       if existsb (existsb unprintable) rows
       then Py.raise (Py.ValueError
              "Exceeds the limit (4300 digits) for integer string conversion; use sys.set_int_max_str_digits() to increase the limit")
       else Py.ret (Py.str_int (Py.len rows));
     randint := fun lo _ _ => lo;
     uniform_round2 := fun lo _ _ => inject_Z lo;
     choice := fun _ _ => O;
     strftime_days_after := fun y _ _ _ => Py.str_int y |}.

Definition sample_column : DataColumn :=
  {| col_name := "Sales"; col_data_type := FLOAT; unique_values := 3;
     null_count := 0; sample_values := [PyInt 10; PyInt 20; PyInt 30];
     statistics := None; is_key_field := false;
     recommended_role := Some RoleMeasure |}.

Definition sample_region : DataColumn :=
  {| col_name := "Region"; col_data_type := CATEGORICAL; unique_values := 2;
     null_count := 1; sample_values := [];
     statistics := None; is_key_field := false;
     recommended_role := Some RoleDimension |}.

Definition sample_schema (calc : list CalcField) : DatasetSchema :=
  {| ds_name := "Sales"; total_rows := 3; total_columns := 2;
     columns := [sample_column; sample_region];
     data_quality_score := 1 # 1; business_context := None;
     ds_created_at := 0; calculated_fields := calc |}.

Definition sample_viz (color : option string) : VisualizationSpec :=
  {| chart_type := BAR; title := "Sales by Region";
     x_axis := ["Region"]; y_axis := ["Sales"];
     color_field := color; size_field := None; filters := [];
     viz_color_scheme := TABLEAU10; show_labels := true; show_legend := true;
     aggregation_type := Some AggSum |}.

Definition sample_recommendation : AIRecommendation :=
  {| confidence_score := 1 # 2; reasoning := "n/a"; alternatives := [] |}.

Definition sample_analysis (vizs : list VisualizationSpec) : AIAnalysisResponse :=
  {| dataset_insights := ∅; recommended_kpis := [];
     recommended_visualizations := vizs;
     dashboard_recommendations := sample_recommendation;
     layout_suggestions := sample_recommendation;
     color_scheme_recommendation := sample_recommendation;
     performance_considerations := []; generated_at := 0 |}.

Definition sample_request (calc : list CalcField) (vizs : list VisualizationSpec)
    (fmt : OutputFormat) (with_data : bool) : GenerationRequest :=
  {| dataset_schema := sample_schema calc;
     ai_analysis := sample_analysis vizs;
     user_preferences := ∅;
     output_format := fmt;
     include_sample_data := with_data |}.

(** The calculated field of the [DatasetSchema] docstring. *)
Definition sample_calc_spec : CalculatedFieldSpec :=
  {| cf_name := "Revenue"; cf_formula := "[UnitPrice] * [Quantity]";
     cf_data_type := FLOAT; cf_role := Some FieldMeasure |}.

(** The same field as a plain dict. *)
Definition sample_calc_dict : CalcFieldDict :=
  {| d_name := Some "Revenue"; d_formula := Some "[UnitPrice] * [Quantity]";
     d_data_type := Some FLOAT; d_role := Some "measure" |}.

Definition sample_datasource : ET.Element :=
  ET.set "name" "federated.1B9D6BCD" (ET.set "caption" "Sales" (ET.new "datasource")).

(** A column whose one sample value is the 4301-digit int [1 << 14285]. *)
Definition long_int_column : DataColumn :=
  {| col_name := "Sales"; col_data_type := INTEGER; unique_values := 1;
     null_count := 0; sample_values := [PyInt (Z.shiftl 1 14285)];
     statistics := None; is_key_field := false;
     recommended_role := Some RoleMeasure |}.

(** A packaged request with sample data over that column. *)
Definition long_int_request : GenerationRequest :=
  {| dataset_schema :=
       {| ds_name := "Sales"; total_rows := 1; total_columns := 1;
          columns := [long_int_column];
          data_quality_score := 1 # 1; business_context := None;
          ds_created_at := 0; calculated_fields := [] |};
     ai_analysis := sample_analysis [sample_viz None];
     user_preferences := ∅;
     output_format := Twbx;
     include_sample_data := true |}.



End Samples.

(** ** Descriptions the properties are stated with *)

Import Schemas Generator.

(** The record the generator builds for a dict that carries every key. *)
Definition calc_record (name formula : string) (data_type : DataType)
    (role : option string) (ordinal : Z) : ET.Element :=
  ET.mkElement "metadata-record" [("class", "column")] None
    [ ET.mkElement "remote-name" [] (Some name) [];
      ET.mkElement "remote-type" [] (Some (_get_tableau_data_type data_type)) [];
      ET.mkElement "local-name" [] (Some ("[" +:+ name +:+ "]")) [];
      ET.mkElement "parent-name" [] (Some ("[" +:+ name +:+ "]")) [];
      ET.mkElement "remote-alias" [] (Some name) [];
      ET.mkElement "ordinal" [] (Some (Py.str_int ordinal)) [];
      ET.mkElement "local-type" [] (Some (_get_tableau_data_type data_type)) [];
      ET.mkElement "aggregation" []
        (Some (if String.eqb (default "measure" role) "measure" then "Sum" else "Count")) [];
      ET.mkElement "contains-null" [] (Some "false") [];
      ET.mkElement "calculation" [("formula", formula); ("type", "tableau")] None [] ].

(** A dict with the three keys the generator subscripts. *)
Definition complete_dict (d : CalcFieldDict) : Prop :=
  is_Some (d_name d) /\ is_Some (d_formula d) /\ is_Some (d_data_type d).

Definition calc_record_of (d : CalcFieldDict) (ordinal : Z) : ET.Element :=
  calc_record (default "" (d_name d)) (default "" (d_formula d))
    (default STRING (d_data_type d)) (d_role d) ordinal.

Fixpoint last_char (s : string) : option ascii :=
  match s with
  | EmptyString => None
  | String c EmptyString => Some c
  | String _ s' => last_char s'
  end.

(** The element one call of [_add_encoding] appends: the shelf, with one
    [column] child holding the field reference and, when given, the
    [aggregation] attribute. *)
Definition encoding (shelf ds field : string) (aggregation : option string) : ET.Element :=
  ET.mkElement shelf [] None
    [ ET.mkElement "column"
        (match aggregation with
         | Some a => [("aggregation", a)]
         | None => []
         end)
        (Some ("[" +:+ ds +:+ "].[" +:+ field +:+ "]")) [] ].

Definition Aggregation_title (a : Aggregation) : string :=
  match a with
  | AggSum => "Sum"
  | AggAvg => "Avg"
  | AggCount => "Count"
  | AggMin => "Min"
  | AggMax => "Max"
  end.

(** The encodings as the specification words them: color and size are there
    as soon as the field is set. *)
Definition encodings_when_set (viz : VisualizationSpec) (ds : string) : list ET.Element :=
  let agg := Aggregation_title <$> aggregation_type viz in
  map (fun field => encoding "rows" ds field agg) (y_axis viz)
  ++ map (fun field => encoding "columns" ds field None) (x_axis viz)
  ++ match color_field viz with
     | Some field => [encoding "color" ds field None]
     | None => []
     end
  ++ match size_field viz with
     | Some field => [encoding "size" ds field agg]
     | None => []
     end.

(** The encodings with color and size there when the field is set to a
    non-empty string. *)
Definition encodings_when_truthy (viz : VisualizationSpec) (ds : string) : list ET.Element :=
  let agg := Aggregation_title <$> aggregation_type viz in
  map (fun field => encoding "rows" ds field agg) (y_axis viz)
  ++ map (fun field => encoding "columns" ds field None) (x_axis viz)
  ++ match color_field viz with
     | Some (String c field) => [encoding "color" ds (String c field) None]
     | _ => []
     end
  ++ match size_field viz with
     | Some (String c field) => [encoding "size" ds (String c field) agg]
     | _ => []
     end.

(** The worksheet the specification builder makes for the visualization at
    0-based position [i]. *)
Definition sheet (i : Z) (viz_spec : VisualizationSpec) : WorksheetSpec :=
  {| ws_name := "Sheet " +:+ Py.str_int (i + 1);
     visualization := viz_spec;
     kpis := [];
     ws_description := Some ("Generated visualization: " +:+ title viz_spec);
     ws_dimensions := {[ "width" := 800; "height" := 600 ]} |}.

Definition sheets (vizs : list VisualizationSpec) : list WorksheetSpec :=
  (fun p => sheet p.1 p.2) <$> Py.enumerate vizs.

(** The one dashboard the specification builder makes. *)
Definition main_dashboard (vizs : list VisualizationSpec) : DashboardSpec :=
  {| db_name := "AI Generated Dashboard";
     db_description := "Automatically generated dashboard based on AI analysis";
     worksheets := sheets vizs;
     layout := DashboardLayout_default;
     global_filters := [];
     db_color_scheme := TABLEAU10;
     db_dimensions := {[ "width" := 1200; "height" := 800 ]} |}.

(** The zone built for the worksheet at index [p.1] of [N]. *)
Definition zone_of (N : Z) (p : Z * WorksheetSpec) : ET.Element :=
  let cols := if 2 <? N then 2 else N in
  ET.mkElement "zone"
    [ ("id", Py.str_int p.1); ("type", "layout-basic");
      ("x", Py.str_int (p.1 mod cols * 400));
      ("y", Py.str_int (p.1 / cols * 300));
      ("w", "400"); ("h", "300") ]
    None
    [ ET.mkElement "worksheet" [("name", ws_name p.2)] None [] ].

(** [e.find(t)]: the first child carrying tag [t]. *)
Definition find_child (e : ET.Element) (t : string) : option ET.Element :=
  head (ET.findall e t).

(** [e.findtext(t)] *)
Definition findtext (e : ET.Element) (t : string) : option string :=
  find_child e t ≫= ET.text.

(** A calculated field the generator can serialize: a dict carrying name,
    formula and data_type. *)
Definition usable_calc_field (c : CalcField) : Prop :=
  exists d, c = CalcDict d /\ complete_dict d.

(** [request] with its [include_sample_data] flag replaced. *)
Definition with_sample_data (flag : bool) (request : GenerationRequest)
    : GenerationRequest :=
  {| dataset_schema := dataset_schema request;
     ai_analysis := ai_analysis request;
     user_preferences := user_preferences request;
     output_format := output_format request;
     include_sample_data := flag |}.

(** The name of the file a request is packaged into. *)
Definition output_filename (request : GenerationRequest) : string :=
  (ds_name (dataset_schema request) +:+ "_Dashboard")
  +:+ match output_format request with
      | Twb => ".twb"
      | Twbx => ".twbx"
      end.

(** The element of a dashboard whose dimensions carry both keys. *)
Definition dashboard_element (dashboard_spec : DashboardSpec) (height width : Z)
    : ET.Element :=
  ET.mkElement "dashboard" [("name", db_name dashboard_spec)] None
    [ ET.mkElement "size"
        [("maxheight", Py.str_int height); ("maxwidth", Py.str_int width)] None [];
      ET.mkElement "view" [] None
        [ ET.mkElement "zones" [] None
            (zone_of (Py.len (worksheets dashboard_spec))
               <$> Py.enumerate (worksheets dashboard_spec));
          ET.mkElement "devicelayouts" [] None
            [ ET.mkElement "devicelayout"
                [("auto-generated", "true"); ("name", "Phone")] None [] ] ] ].

(** The window element, for a given worksheet name. *)
Definition window_element (name : string) : ET.Element :=
  ET.mkElement "window"
    [("class", "worksheet"); ("maximized", "true"); ("name", name)] None
    [ ET.mkElement "cards" [] None
        [ ET.mkElement "edge" [("name", "left")] None
            [ ET.mkElement "strip" [("size", "160")] None
                [ ET.mkElement "card" [("type", "data")] None [] ] ] ] ].

(** The tree handed to the serializer for a request with at least one
    visualization, given the datasource element. *)
Definition workbook_element (self : TableauWorkbookGenerator)
    (request : GenerationRequest) (datasource : ET.Element) : ET.Element :=
  let vizs := recommended_visualizations (ai_analysis request) in
  ET.mkElement "workbook"
    [ ("version", tableau_version self);
      ("build-version", build_version self);
      ("source-build", build_version self) ]
    None
    [ ET.mkElement "preferences" [] None [];
      ET.mkElement "repository-location"
        [ ("id", "TWB Repository");
          ("path", (ds_name (dataset_schema request) +:+ "_Dashboard") +:+ ".twb") ]
        None [];
      ET.mkElement "datasources" [] None [datasource];
      ET.mkElement "worksheets" [] None
        ((fun worksheet => _create_worksheet_element worksheet datasource)
           <$> sheets vizs);
      ET.mkElement "dashboards" [] None
        [dashboard_element (main_dashboard vizs) 800 1200];
      ET.mkElement "windows" [] None [window_element "Sheet 1"] ].

(** The text [_generate_sample_csv] returns, empty where it raises. *)
Definition sample_csv_text (env : Env) (dataset_schema : DatasetSchema) : string :=
  match _generate_sample_csv env dataset_schema with
  | inr sample_data => sample_data
  | inl _ => ""
  end.

(** The entries of a complete archive, in the order of the three
    [writestr] calls. *)
Definition twbx_entries (env : Env) (workbook_xml datasource_xml : string)
    (request : GenerationRequest) : list (string * string) :=
  [ ("workbook.twb", workbook_xml);
    ("Data/Datasources/datasource.tds", datasource_xml) ]
  ++ (if include_sample_data request
      then [ ("Data/" +:+ ds_name (dataset_schema request) +:+ ".csv",
              sample_csv_text env (dataset_schema request)) ]
      else []).

(** The file a successful packaging leaves at the output path. *)
Definition packaged_file (env : Env) (request : GenerationRequest)
    (workbook_xml datasource_xml : string) : File :=
  match output_format request with
  | Twb => TextFile workbook_xml
  | Twbx => ZipFile (twbx_entries env workbook_xml datasource_xml request)
  end.

(** The first of the keys name, data_type and formula that a dict lacks, in
    the order the generator reads them. *)
Definition first_missing_key (d : CalcFieldDict) : option string :=
  match d_name d, d_data_type d, d_formula d with
  | None, _, _ => Some "name"
  | Some _, None, _ => Some "data_type"
  | Some _, Some _, None => Some "formula"
  | Some _, Some _, Some _ => None
  end.

#[global] Instance ColumnRole_eq_dec : EqDecision ColumnRole.
Proof. solve_decision. Defined.

#[global] Instance DataType_eq_dec : EqDecision DataType.
Proof. solve_decision. Defined.

(** A lower-case hexadecimal digit, as [str(uuid.uuid4())] prints them. *)
Definition is_hex_lower (c : ascii) : bool :=
  let n := nat_of_ascii c in
  ((Nat.leb 48 n && Nat.leb n 57) || (Nat.leb 97 n && Nat.leb n 102))%bool.

(** An upper-case hexadecimal digit. *)
Definition is_hex_upper (c : ascii) : bool :=
  let n := nat_of_ascii c in
  ((Nat.leb 48 n && Nat.leb n 57) || (Nat.leb 65 n && Nat.leb n 70))%bool.

(** [s] starts with [n] lower-case hexadecimal digits. *)
Fixpoint starts_with_hex (n : nat) (s : string) : bool :=
  match n, s with
  | O, _ => true
  | S _, EmptyString => false
  | S n', String c s' => (is_hex_lower c && starts_with_hex n' s')%bool
  end.


(** The writes into the open archive all go through, and so does the CSV
    text when it is asked for. *)
Definition twbx_writes_succeed (env : Env) (path : string) (request : GenerationRequest)
    (workbook_xml datasource_xml : string) : Prop :=
  writestr_error env path "workbook.twb" workbook_xml = None
  /\ writestr_error env path "Data/Datasources/datasource.tds" datasource_xml = None
  /\ (include_sample_data request = true ->
      exists sample_data,
        _generate_sample_csv env (dataset_schema request) = inr sample_data
        /\ writestr_error env path
             ("Data/" +:+ ds_name (dataset_schema request) +:+ ".csv")
             sample_data = None).

(** Every step of the packaging layer goes through: the output file opens
    and nothing raises while it is written. *)
Definition packaging_succeeds (env : Env) (path : string) (request : GenerationRequest)
    (workbook_xml datasource_xml : string) : Prop :=
  open_error env path = None
  /\ match output_format request with
     | Twb => write_error env path workbook_xml = None
     | Twbx => twbx_writes_succeed env path request workbook_xml datasource_xml
     end.

(** The generation gets as far as opening its output file: both documents
    serialize and [open] raises nothing. *)
Definition output_file_opened (self : TableauWorkbookGenerator) (env : Env)
    (request : GenerationRequest) : Prop :=
  exists workbook_xml datasource_xml,
    _generate_workbook_xml self env (_create_workbook_specification self env request)
      request = inr workbook_xml
    /\ _generate_datasource_xml self env (dataset_schema request) = inr datasource_xml
    /\ open_error env (path_join env (output_directory self) (output_filename request))
       = None.

(** ** Properties *)

(** *** Construction of the generator *)

(** [__init__] raises what creating the directory raises; otherwise the
    generator holds the normalised directory and the two fixed versions. *)
Lemma generator_init_char env (output_directory : string) :
  match mkdir_error env (path_str env output_directory) with
  | Some e => TableauWorkbookGenerator_init env output_directory = inl e
  | None =>
      TableauWorkbookGenerator_init env output_directory
      = inr {| Generator.output_directory := path_str env output_directory;
               tableau_version := "2023.3";
               build_version := "20233.23.0322.1437" |}
  end.
Proof.
  unfold TableauWorkbookGenerator_init.
  by destruct (mkdir_error env (path_str env output_directory)).
Qed.

(** The sample generator is the one the default directory gives, also
    when the directory is written with a doubled or a trailing slash. *)
Lemma sample_self_constructed :
  TableauWorkbookGenerator_init Samples.sample_env "data/outputs"
  = inr Samples.sample_self
  /\ TableauWorkbookGenerator_init Samples.sample_env "data//outputs/"
     = inr Samples.sample_self
  /\ TableauWorkbookGenerator_init Samples.sample_env "./data/outputs"
     = inr Samples.sample_self.
Proof. repeat split. Qed.

(** *** Loops and enumerations *)

Lemma enumerate_from_lookup {A} (xs : list A) (start : Z) (i : nat) :
  Py.enumerate_from start xs !! i = (fun x => (start + Z.of_nat i, x)) <$> xs !! i.
Proof.
  revert start i. induction xs as [|x xs IH]; intros start i; [done|].
  destruct i as [|i]; simpl.
  - f_equal. f_equal. lia.
  - rewrite IH. destruct (xs !! i); simpl; [|done]. do 2 f_equal. lia.
Qed.

Lemma enumerate_from_length {A} (xs : list A) (start : Z) :
  length (Py.enumerate_from start xs) = length xs.
Proof. revert start. induction xs; intros; simpl; auto. Qed.

Lemma enumerate_from_snd {A} (xs : list A) (start : Z) :
  (Py.enumerate_from start xs).*2 = xs.
Proof. revert start. induction xs; intros; simpl; f_equal; auto. Qed.

Lemma enumerate_from_fst {A} (xs : list A) (start : Z) :
  (Py.enumerate_from start xs).*1 = (fun i => start + Z.of_nat i) <$> seq 0 (length xs).
Proof.
  revert start. induction xs as [|x xs IH]; intros start; [done|].
  simpl. f_equal; [lia|]. rewrite IH, <- seq_shift, <- list_fmap_compose.
  apply list_fmap_ext. intros _ i _. simpl. lia.
Qed.

(** A loop whose body never raises returns the list of what the body built. *)
Lemma for_each_ok {A B} (f : A -> Py.result B) (g : A -> B) (xs : list A) :
  (forall x, x ∈ xs -> f x = inr (g x)) ->
  Py.for_each f xs = inr (g <$> xs).
Proof.
  induction xs as [|x xs IH]; intros Hf; [done|].
  simpl. rewrite Hf by left. simpl. rewrite IH; [done|].
  intros y Hy. apply Hf. by right.
Qed.

(** *** Attributes *)

Lemma dict_get_set_eq k v d : ET.dict_get k (ET.dict_set k v d) = Some v.
Proof.
  induction d as [|[k' v'] d IH]; simpl.
  - by rewrite String.eqb_refl.
  - destruct (String.eqb k' k) eqn:E; simpl.
    + by rewrite String.eqb_refl.
    + by rewrite E.
Qed.

Lemma dict_get_set_ne k k' v d :
  k <> k' -> ET.dict_get k (ET.dict_set k' v d) = ET.dict_get k d.
Proof.
  intros Hne. induction d as [|[k0 v0] d IH]; simpl.
  - destruct (String.eqb k' k) eqn:E; [|done].
    apply String.eqb_eq in E. congruence.
  - destruct (String.eqb k0 k') eqn:E; simpl.
    + apply String.eqb_eq in E. subst k0.
      destruct (String.eqb k' k) eqn:E'; [|done].
      apply String.eqb_eq in E'. congruence.
    + by rewrite IH.
Qed.

Lemma get_set_eq e k v : ET.get (ET.set k v e) k = Some v.
Proof. apply dict_get_set_eq. Qed.

Lemma get_set_ne e k k' v : k <> k' -> ET.get (ET.set k' v e) k = ET.get e k.
Proof. apply dict_get_set_ne. Qed.

Lemma get_append e c k : ET.get (ET.append c e) k = ET.get e k.
Proof. done. Qed.

(** *** The type table *)

(** C8. [_get_tableau_data_type] sends integer to "integer", float to
    "real", string to "string", datetime to "datetime", boolean to "boolean"
    and categorical to "string"; a data type whose value is not a key of the
    table, which is the case of date, is sent to the default "string". *)
Theorem get_tableau_data_type_table :
  _get_tableau_data_type INTEGER = "integer"
  /\ _get_tableau_data_type FLOAT = "real"
  /\ _get_tableau_data_type STRING = "string"
  /\ _get_tableau_data_type DATETIME = "datetime"
  /\ _get_tableau_data_type BOOLEAN = "boolean"
  /\ _get_tableau_data_type CATEGORICAL = "string"
  /\ data_type_mapping !! DataType_value DATE = None
  /\ _get_tableau_data_type DATE = "string"
  /\ forall d : DataType,
       data_type_mapping !! DataType_value d = None ->
       d = DATE /\ _get_tableau_data_type d = "string".
Proof.
  repeat split; try reflexivity.
  - destruct d; vm_compute in H; congruence.
  - unfold _get_tableau_data_type. by rewrite H.
Qed.

(** *** The workbook specification *)

(** C4. The specification built for a request holds exactly one dashboard,
    named "AI Generated Dashboard"; its worksheets are as many as the
    recommended visualizations, the worksheet at 0-based position [i] is
    named "Sheet " followed by [i + 1] and wraps the visualization at
    position [i]; the workbook is named after the dataset, with
    "_Dashboard" appended. *)
Theorem create_workbook_specification_shape self env request :
  let spec := _create_workbook_specification self env request in
  let vizs := recommended_visualizations (ai_analysis request) in
  exists dashboard,
    dashboards spec = [dashboard]
    /\ db_name dashboard = "AI Generated Dashboard"
    /\ length (worksheets dashboard) = length vizs
    /\ visualization <$> worksheets dashboard = vizs
    /\ ws_name <$> worksheets dashboard
       = (fun i => "Sheet " +:+ Py.str_int (Z.of_nat i + 1)) <$> seq 0 (length vizs)
    /\ wb_name spec = ds_name (dataset_schema request) +:+ "_Dashboard".
Proof.
  intros spec vizs. eexists. split; [reflexivity|]. simpl.
  fold vizs. unfold Py.enumerate.
  split; [done|]. split; [|split; [|split]].
  - by rewrite length_map, enumerate_from_length.
  - rewrite <- list_fmap_compose.
    rewrite <- (enumerate_from_snd vizs 0) at 2.
    apply list_fmap_ext. by intros _ [i v] _.
  - rewrite <- list_fmap_compose.
    transitivity ((fun i => "Sheet " +:+ Py.str_int (i + 1)) <$> (Py.enumerate_from 0 vizs).*1).
    + rewrite <- list_fmap_compose. apply list_fmap_ext. by intros _ [i v] _.
    + rewrite enumerate_from_fst, <- list_fmap_compose. done.
  - done.
Qed.

(** *** The grid *)

(** The zone built for index [i] of [N]: the attributes the caller set,
    then x, y, w and h. *)
Lemma add_zone_properties_ok zone worksheet (i N : Z) :
  1 <= N ->
  let cols := if 2 <? N then 2 else N in
  _add_zone_properties zone worksheet i N
  = inr (ET.append (ET.set "name" (ws_name worksheet) (ET.new "worksheet"))
           (ET.set "h" "300" (ET.set "w" "400"
              (ET.set "y" (Py.str_int (i / cols * 300))
                 (ET.set "x" (Py.str_int (i mod cols * 400)) zone))))).
Proof.
  intros HN cols. unfold _add_zone_properties, Py.floordiv, Py.pymod.
  fold cols.
  assert (Hc : (cols =? 0) = false).
  { apply Z.eqb_neq. unfold cols. destruct (2 <? N) eqn:E; lia. }
  rewrite Hc. reflexivity.
Qed.

(** C5. In a dashboard with N >= 1 worksheets the loop over the worksheets
    returns, and the zone it emits for the worksheet at 0-based index i
    carries x = (i mod columns) * 400, y = (i div columns) * 300, w = 400
    and h = 300, where columns is 2 when N > 2 and N otherwise; when
    N <= 2 this is x = i * 400 and y = 0. *)
Theorem dashboard_zone_grid (dashboard_spec : DashboardSpec) (i : nat)
    (worksheet : WorksheetSpec) :
  worksheets dashboard_spec !! i = Some worksheet ->
  let N := Py.len (worksheets dashboard_spec) in
  let columns := if 2 <? N then 2 else N in
  exists zones zone,
    dashboard_zones dashboard_spec = inr zones
    /\ length zones = length (worksheets dashboard_spec)
    /\ zones !! i = Some zone
    /\ ET.get zone "x" = Some (Py.str_int (Z.of_nat i mod columns * 400))
    /\ ET.get zone "y" = Some (Py.str_int (Z.of_nat i / columns * 300))
    /\ ET.get zone "w" = Some "400"
    /\ ET.get zone "h" = Some "300"
    /\ (N <= 2 ->
        ET.get zone "x" = Some (Py.str_int (Z.of_nat i * 400))
        /\ ET.get zone "y" = Some "0").
Proof.
  intros Hi N columns.
  assert (HN : 1 <= N).
  { apply lookup_lt_Some in Hi. unfold N, Py.len. lia. }
  assert (HiN : 0 <= Z.of_nat i < N).
  { apply lookup_lt_Some in Hi. unfold N, Py.len. lia. }
  set (build := fun p : Z * WorksheetSpec =>
    ET.append (ET.set "name" (ws_name p.2) (ET.new "worksheet"))
      (ET.set "h" "300" (ET.set "w" "400"
        (ET.set "y" (Py.str_int (p.1 / columns * 300))
          (ET.set "x" (Py.str_int (p.1 mod columns * 400))
            (ET.set "type" "layout-basic"
              (ET.set "id" (Py.str_int p.1) (ET.new "zone")))))))).
  exists (build <$> Py.enumerate (worksheets dashboard_spec)), (build (Z.of_nat i, worksheet)).
  split.
  { unfold dashboard_zones. apply for_each_ok. intros [j w] _.
    fold N. rewrite add_zone_properties_ok by exact HN. reflexivity. }
  split.
  { unfold Py.enumerate. by rewrite length_fmap, enumerate_from_length. }
  split.
  { rewrite list_lookup_fmap. unfold Py.enumerate.
    rewrite enumerate_from_lookup, Hi. reflexivity. }
  assert (Hx : ET.get (build (Z.of_nat i, worksheet)) "x"
               = Some (Py.str_int (Z.of_nat i mod columns * 400))).
  { unfold build. rewrite get_append.
    rewrite !get_set_ne by discriminate. apply get_set_eq. }
  assert (Hy : ET.get (build (Z.of_nat i, worksheet)) "y"
               = Some (Py.str_int (Z.of_nat i / columns * 300))).
  { unfold build. rewrite get_append.
    rewrite !get_set_ne by discriminate. apply get_set_eq. }
  split; [exact Hx|]. split; [exact Hy|].
  split.
  { unfold build. rewrite get_append, get_set_ne by discriminate. apply get_set_eq. }
  split.
  { unfold build. rewrite get_append. apply get_set_eq. }
  intros Hsmall. split.
  - rewrite Hx. assert (columns = N) as -> by (unfold columns; destruct (2 <? N) eqn:E; lia).
    by rewrite Z.mod_small.
  - rewrite Hy. assert (columns = N) as -> by (unfold columns; destruct (2 <? N) eqn:E; lia).
    by rewrite Z.div_small.
Qed.

Lemma dashboard_zone_grid_witness :
  exists zones zone,
    dashboard_zones
      (hd (Build_DashboardSpec "" "" [] DashboardLayout_default [] TABLEAU10 ∅)
          (dashboards (_create_workbook_specification Samples.sample_self Samples.sample_env
             (Samples.sample_request []
                [Samples.sample_viz None; Samples.sample_viz None; Samples.sample_viz None]
                Twbx true)))) = inr zones
    /\ length zones = 3%nat
    /\ zones !! 2%nat = Some zone
    /\ ET.get zone "x" = Some "0"
    /\ ET.get zone "y" = Some "300"
    /\ ET.get zone "w" = Some "400"
    /\ ET.get zone "h" = Some "300".
Proof.
  destruct (dashboard_zone_grid
    (hd (Build_DashboardSpec "" "" [] DashboardLayout_default [] TABLEAU10 ∅)
        (dashboards (_create_workbook_specification Samples.sample_self Samples.sample_env
           (Samples.sample_request []
              [Samples.sample_viz None; Samples.sample_viz None; Samples.sample_viz None]
              Twbx true))))
    2%nat _ eq_refl) as (zones & zone & H1 & H2 & H3 & H4 & H5 & H6 & H7 & _).
  exists zones, zone. repeat split; assumption.
Defined.

(** *** Orchestration *)

(** C1. [generate_workbook] is a total function into [GenerationResult]:
    whatever the steps of the [try] block do, a result comes back.  In it
    [success] holds exactly when [error_message] is [None]; when a step
    raised [e], [success] is false and [error_message] is [str(e)]; when no
    step raised, the result carries the specification and the path. *)
Theorem generate_workbook_never_raises self env request fs :
  let r := (generate_workbook self env request fs).1 in
  xorb (success r) (bool_decide (is_Some (error_message r))) = true
  /\ (success r = true <-> error_message r = None)
  /\ match (generation_steps self env request fs).1 with
     | inl e =>
         success r = false /\ error_message r = Some (Py.exn_str e)
         /\ dashboards (workbook_spec r) = [] /\ file_path r = ""
     | inr (spec, path) =>
         success r = true /\ error_message r = None
         /\ workbook_spec r = spec /\ file_path r = path
     end.
Proof.
  unfold generate_workbook.
  destruct (generation_steps self env request fs) as [[e|[spec path]] fs']; simpl.
  - repeat split; try done.
  - repeat split; done.
Qed.

(** The one dashboard of a request without visualizations, and the element
    built from it. *)
Lemma empty_dashboard_element self env request :
  recommended_visualizations (ai_analysis request) = [] ->
  exists dashboard element view zones,
    dashboards (_create_workbook_specification self env request) = [dashboard]
    /\ worksheets dashboard = []
    /\ _create_dashboard_element dashboard = inr element
    /\ ET.findall element "view" = [view]
    /\ ET.findall view "zones" = [zones]
    /\ ET.children zones = [].
Proof.
  intros Hviz. unfold _create_workbook_specification. rewrite Hviz. simpl.
  eexists. eexists. eexists. eexists.
  split; [reflexivity|]. split; [reflexivity|].
  split; [vm_compute; reflexivity|].
  split; [vm_compute; reflexivity|].
  split; [vm_compute; reflexivity|]. reflexivity.
Qed.

(** The dashboard built for an empty list of visualizations has no
    worksheet, and the element built from it has a [zones] child that is
    there and has no children. *)
Theorem empty_dashboard_zones self env request :
  recommended_visualizations (ai_analysis request) = [] ->
  exists dashboard element view zones,
    dashboards (_create_workbook_specification self env request) = [dashboard]
    /\ worksheets dashboard = []
    /\ _create_dashboard_element dashboard = inr element
    /\ ET.findall element "view" = [view]
    /\ ET.findall view "zones" = [zones]
    /\ ET.children zones = [].
Proof. apply empty_dashboard_element. Qed.

Lemma empty_dashboard_zones_witness :
  exists dashboard element view zones,
    dashboards (_create_workbook_specification Samples.sample_self Samples.sample_env
                  (Samples.sample_request [] [] Twb false)) = [dashboard]
    /\ worksheets dashboard = []
    /\ _create_dashboard_element dashboard = inr element
    /\ ET.findall element "view" = [view]
    /\ ET.findall view "zones" = [zones]
    /\ ET.children zones = [].
Proof.
  exact (empty_dashboard_zones Samples.sample_self Samples.sample_env
           (Samples.sample_request [] [] Twb false) eq_refl).
Defined.

(** With no worksheet in the first dashboard, the window name cannot be
    read. *)
Lemma window_name_empty self env request :
  recommended_visualizations (ai_analysis request) = [] ->
  _create_windows_element (_create_workbook_specification self env request)
  = inl (Py.IndexError "list index out of range").
Proof.
  intros Hviz. unfold _create_windows_element, window_name, _create_workbook_specification.
  rewrite Hviz. reflexivity.
Qed.

Lemma create_datasource_element_no_calc self env dataset_schema :
  calculated_fields dataset_schema = [] ->
  exists datasource, _create_datasource_element self env dataset_schema = inr datasource.
Proof.
  intros Hcalc. unfold _create_datasource_element, metadata_records.
  rewrite Hcalc. simpl. eexists. reflexivity.
Qed.

Lemma workbook_tree_empty self env request :
  recommended_visualizations (ai_analysis request) = [] ->
  exists e,
    workbook_tree self env (_create_workbook_specification self env request) request = inl e
    /\ (calculated_fields (dataset_schema request) = [] ->
        e = Py.IndexError "list index out of range").
Proof.
  intros Hviz. unfold workbook_tree.
  destruct (_create_datasource_element self env (dataset_schema request)) as [e|ds] eqn:Hds.
  - exists e. split; [reflexivity|]. intros Hcalc.
    destruct (create_datasource_element_no_calc self env _ Hcalc) as [ds Hds'].
    congruence.
  - cbn [Py.bind].
    destruct (empty_dashboard_element self env request Hviz)
      as (d & el & _ & _ & Hd & _ & Hel & _).
    rewrite Hd. cbn [Py.for_each Py.bind]. rewrite Hel. cbn [Py.bind Py.ret].
    rewrite (window_name_empty self env request Hviz). cbn [Py.bind].
    eexists. split; reflexivity.
Qed.

(** C2. For a request whose list of recommended visualizations is empty,
    [generate_workbook] returns a failed result: [success] is false, the
    placeholder specification has no dashboard, and when the schema has no
    calculated field the message is that of the [IndexError] raised while
    the window name is read from [dashboards[0].worksheets[0]]. *)
Theorem generate_workbook_empty_visualizations self env request fs :
  recommended_visualizations (ai_analysis request) = [] ->
  let r := (generate_workbook self env request fs).1 in
  success r = false
  /\ dashboards (workbook_spec r) = []
  /\ (generate_workbook self env request fs).2 = fs
  /\ (calculated_fields (dataset_schema request) = [] ->
      error_message r = Some "list index out of range").
Proof.
  intros Hviz.
  destruct (workbook_tree_empty self env request Hviz) as (e & He & Hmsg).
  unfold generate_workbook, generation_steps, _generate_workbook_xml.
  rewrite He. simpl. repeat split; try done.
  intros Hcalc. by rewrite (Hmsg Hcalc).
Qed.

Lemma generate_workbook_empty_visualizations_witness :
  let r := (generate_workbook Samples.sample_self Samples.sample_env
              (Samples.sample_request [] [] Twbx true) ∅).1 in
  success r = false
  /\ dashboards (workbook_spec r) = []
  /\ error_message r = Some "list index out of range".
Proof.
  destruct (generate_workbook_empty_visualizations Samples.sample_self Samples.sample_env
              (Samples.sample_request [] [] Twbx true) ∅ eq_refl)
    as (H1 & H2 & _ & H4).
  split; [exact H1|]. split; [exact H2|]. exact (H4 eq_refl).
Defined.

(** *** Calculated fields *)

Lemma metadata_records_model_raises dataset_schema spec rest :
  calculated_fields dataset_schema = CalcModel spec :: rest ->
  metadata_records dataset_schema
  = inl (Py.TypeError "'CalculatedFieldSpec' object is not subscriptable").
Proof.
  intros Hcalc. unfold metadata_records. rewrite Hcalc. reflexivity.
Qed.

Lemma add_calculated_field_metadata_model spec ordinal :
  _add_calculated_field_metadata (CalcModel spec) ordinal
  = inl (Py.TypeError "'CalculatedFieldSpec' object is not subscriptable").
Proof. reflexivity. Qed.

(** C3. When the schema holds what its declaration says, a non-empty list
    of [CalculatedFieldSpec] instances, no metadata record is emitted for a
    calculated field: reading [calc_field['name']] raises [TypeError], the
    datasource element is not built, and [generate_workbook] returns a
    failed result carrying that message. *)
Theorem calculated_field_spec_not_subscriptable self env request fs :
  declared_calculated_fields (dataset_schema request) ->
  calculated_fields (dataset_schema request) <> [] ->
  let r := (generate_workbook self env request fs).1 in
  metadata_records (dataset_schema request)
  = inl (Py.TypeError "'CalculatedFieldSpec' object is not subscriptable")
  /\ _create_datasource_element self env (dataset_schema request)
     = inl (Py.TypeError "'CalculatedFieldSpec' object is not subscriptable")
  /\ success r = false
  /\ error_message r = Some "'CalculatedFieldSpec' object is not subscriptable".
Proof.
  intros Hdecl Hne.
  destruct (calculated_fields (dataset_schema request)) as [|c rest] eqn:Hcalc;
    [done|].
  unfold declared_calculated_fields in Hdecl. rewrite Hcalc in Hdecl.
  apply Forall_cons in Hdecl as [[spec ->] _].
  pose proof (metadata_records_model_raises _ _ _ Hcalc) as Hrec.
  assert (Hds : _create_datasource_element self env (dataset_schema request)
                = inl (Py.TypeError "'CalculatedFieldSpec' object is not subscriptable")).
  { unfold _create_datasource_element. by rewrite Hrec. }
  split; [exact Hrec|]. split; [exact Hds|].
  unfold generate_workbook, generation_steps, _generate_workbook_xml, workbook_tree.
  rewrite Hds. simpl. done.
Qed.

Lemma calculated_field_spec_not_subscriptable_witness :
  let request :=
    Samples.sample_request [CalcModel Samples.sample_calc_spec] [Samples.sample_viz None]
      Twbx true in
  let r := (generate_workbook Samples.sample_self Samples.sample_env request ∅).1 in
  success r = false
  /\ error_message r = Some "'CalculatedFieldSpec' object is not subscriptable".
Proof.
  assert (Hdecl : declared_calculated_fields
                    (dataset_schema
                       (Samples.sample_request [CalcModel Samples.sample_calc_spec]
                          [Samples.sample_viz None] Twbx true))).
  { repeat constructor. by eexists. }
  destruct (calculated_field_spec_not_subscriptable Samples.sample_self Samples.sample_env
              (Samples.sample_request [CalcModel Samples.sample_calc_spec]
                 [Samples.sample_viz None] Twbx true)
              ∅ Hdecl ltac:(discriminate)) as (_ & _ & H3 & H4).
  split; [exact H3 | exact H4].
Defined.

Lemma add_calculated_field_metadata_dict d ordinal :
  complete_dict d ->
  _add_calculated_field_metadata (CalcDict d) ordinal = inr (calc_record_of d ordinal).
Proof.
  intros ([n Hn] & [f Hf] & [t Ht]).
  unfold _add_calculated_field_metadata, calc_record_of, subscript, get_role.
  rewrite Hn, Hf, Ht. reflexivity.
Qed.

Lemma add_column_metadata_ordinal column ordinal :
  exists before after,
    ET.children (_add_column_metadata column ordinal)
    = before ++ ET.mkElement "ordinal" [] (Some (Py.str_int ordinal)) [] :: after
    /\ length before = 5%nat.
Proof.
  eexists (_ :: _ :: _ :: _ :: _ :: []), _. split; reflexivity.
Qed.

(** *** Packaging *)

Lemma last_char_append s t : t <> "" -> last_char (s +:+ t) = last_char t.
Proof.
  intros Ht. induction s as [|a s IH]; [done|].
  change (String a s +:+ t) with (String a (s +:+ t)).
  destruct (s +:+ t) as [|b u] eqn:E.
  - destruct s; simpl in E; [contradiction|discriminate].
  - exact IH.
Qed.

(** The name of the CSV entry is neither of the two fixed names. *)
Lemma csv_entry_name_fresh name :
  "Data/" +:+ name +:+ ".csv" <> "workbook.twb"
  /\ "Data/" +:+ name +:+ ".csv" <> "Data/Datasources/datasource.tds".
Proof.
  split; [discriminate|].
  intros H. apply (f_equal last_char) in H.
  rewrite !last_char_append in H; [discriminate|discriminate|].
  destruct name; discriminate.
Qed.

(** The body of the archive block returns exactly when the three writes
    and the CSV text go through, and then leaves the complete archive. *)
Lemma twbx_body_spec env path workbook_xml datasource_xml request :
  match twbx_body env path workbook_xml datasource_xml request with
  | (inr _, entries) =>
      twbx_writes_succeed env path request workbook_xml datasource_xml
      /\ entries = twbx_entries env workbook_xml datasource_xml request
  | (inl _, _) =>
      ~ twbx_writes_succeed env path request workbook_xml datasource_xml
  end.
Proof.
  unfold twbx_body, writestr, twbx_writes_succeed, twbx_entries, sample_csv_text.
  destruct (writestr_error env path "workbook.twb" workbook_xml)
    as [[e1 [r1|]]|] eqn:H1; cbn;
    [intros (H & _); discriminate|intros (H & _); discriminate|].
  destruct (writestr_error env path "Data/Datasources/datasource.tds" datasource_xml)
    as [[e2 [r2|]]|] eqn:H2; cbn;
    [intros (_ & H & _); discriminate|intros (_ & H & _); discriminate|].
  destruct (include_sample_data request).
  - destruct (_generate_sample_csv env (dataset_schema request))
      as [e|sample_data] eqn:Hcsv.
    + intros (_ & _ & H). destruct (H eq_refl) as (sd & Hsd & _). discriminate.
    + destruct (writestr_error env path _ sample_data) as [[e3 [r3|]]|] eqn:H3; cbn.
      * intros (_ & _ & H). destruct (H eq_refl) as (sd & Hsd & Hw).
        injection Hsd as <-. congruence.
      * intros (_ & _ & H). destruct (H eq_refl) as (sd & Hsd & Hw).
        injection Hsd as <-. congruence.
      * split; [|reflexivity]. split; [done|]. split; [done|].
        intros _. by exists sample_data.
  - split; [|reflexivity]. split; [done|]. split; [done|]. intros [=].
Qed.

(** When the CSV text cannot be produced the archive is closed with the
    two documents written before. *)
Lemma twbx_body_csv_raises env path workbook_xml datasource_xml request e :
  include_sample_data request = true ->
  writestr_error env path "workbook.twb" workbook_xml = None ->
  writestr_error env path "Data/Datasources/datasource.tds" datasource_xml = None ->
  _generate_sample_csv env (dataset_schema request) = inl e ->
  twbx_body env path workbook_xml datasource_xml request
  = (inl e, [ ("workbook.twb", workbook_xml);
              ("Data/Datasources/datasource.tds", datasource_xml) ]).
Proof.
  intros Hinc H1 H2 Hcsv. unfold twbx_body, writestr.
  by rewrite H1, H2, Hinc, Hcsv.
Qed.

(** C7, as the code has it.  When a generation with output format "twbx"
    succeeds, the file at the returned path is an archive whose entries are,
    in this order, workbook.twb with the workbook XML and
    Data/Datasources/datasource.tds with the datasource XML, followed by
    Data/<dataset name>.csv with the sample text exactly when
    [include_sample_data] is true; the CSV name is among the entry names if
    and only if the flag is set. *)
Theorem twbx_archive_entries self env request fs :
  output_format request = Twbx ->
  success (generate_workbook self env request fs).1 = true ->
  let out := generate_workbook self env request fs in
  let csv_name := "Data/" +:+ ds_name (dataset_schema request) +:+ ".csv" in
  exists workbook_xml datasource_xml entries,
    _generate_workbook_xml self env (workbook_spec out.1) request = inr workbook_xml
    /\ _generate_datasource_xml self env (dataset_schema request) = inr datasource_xml
    /\ out.2 !! file_path out.1 = Some (ZipFile entries)
    /\ (if include_sample_data request
        then exists sample_data,
               _generate_sample_csv env (dataset_schema request) = inr sample_data
               /\ entries
                  = [ ("workbook.twb", workbook_xml);
                      ("Data/Datasources/datasource.tds", datasource_xml);
                      (csv_name, sample_data) ]
        else entries
             = [ ("workbook.twb", workbook_xml);
                 ("Data/Datasources/datasource.tds", datasource_xml) ])
    /\ length entries = (if include_sample_data request then 3 else 2)%nat
    /\ (csv_name ∈ entries.*1 <-> include_sample_data request = true).
Proof.
  intros Hfmt Hok out csv_name. subst out.
  revert Hok. unfold generate_workbook, generation_steps.
  destruct (_generate_workbook_xml self env _ request) as [e|workbook_xml] eqn:Hw;
    [simpl; discriminate|].
  destruct (_generate_datasource_xml self env (dataset_schema request))
    as [e|datasource_xml] eqn:Hd; [simpl; discriminate|].
  rewrite Hfmt. unfold _create_twbx_file.
  destruct (open_error env _) as [e|] eqn:Hopen; [simpl; discriminate|].
  pose proof (twbx_body_spec env
                (path_join env (output_directory self)
                   (wb_name (_create_workbook_specification self env request)
                    +:+ ".twbx"))
                workbook_xml datasource_xml request) as Hbody.
  destruct (twbx_body env _ workbook_xml datasource_xml request)
    as [[e|u] entries]; [simpl; discriminate|].
  destruct Hbody as [(_ & _ & Hcsv) ->].
  simpl. intros _.
  exists workbook_xml, datasource_xml,
    (twbx_entries env workbook_xml datasource_xml request).
  split; [exact Hw|]. split; [reflexivity|].
  split; [apply lookup_insert_eq|].
  destruct (csv_entry_name_fresh (ds_name (dataset_schema request))) as [Hn1 Hn2].
  fold csv_name in Hn1, Hn2.
  unfold twbx_entries, sample_csv_text. fold csv_name.
  destruct (include_sample_data request); simpl.
  - destruct (Hcsv eq_refl) as (sample_data & Hsd & _). rewrite Hsd.
    split; [by exists sample_data|]. split; [done|]. split; [done|]. intros _.
    do 2 apply list_elem_of_further. apply list_elem_of_here.
  - split; [reflexivity|]. split; [reflexivity|]. split; [|discriminate].
    intros Hin. apply elem_of_cons in Hin as [Hin|Hin]; [congruence|].
    apply elem_of_cons in Hin as [Hin|Hin]; [congruence|].
    by apply elem_of_nil in Hin.
Qed.

Lemma twbx_archive_entries_witness :
  let request := Samples.sample_request [] [Samples.sample_viz None] Twbx true in
  let out := generate_workbook Samples.sample_self Samples.sample_env request ∅ in
  exists workbook_xml datasource_xml entries,
    out.2 !! file_path out.1 = Some (ZipFile entries)
    /\ entries.*1 = ["workbook.twb"; "Data/Datasources/datasource.tds"; "Data/Sales.csv"]
    /\ entries.*2 = [workbook_xml; datasource_xml; "4"].
Proof.
  destruct (twbx_archive_entries Samples.sample_self Samples.sample_env
              (Samples.sample_request [] [Samples.sample_viz None] Twbx true) ∅
              eq_refl eq_refl)
    as (workbook_xml & datasource_xml & entries & _ & _ & Hfile & Hentries & _).
  exists workbook_xml, datasource_xml, entries.
  split; [exact Hfile|].
  cbn [Samples.sample_request include_sample_data] in Hentries.
  destruct Hentries as (sample_data & Hsd & ->).
  injection Hsd as <-. split; reflexivity.
Defined.

(** The claim as the specification words it, for every generation, fails
    where the CSV text cannot be produced: for a dataset whose sample value
    is an int of 4301 digits, [csv.writer] raises after the two documents
    went into the archive, so the generation fails and leaves at the output
    path an archive of exactly two entries although [include_sample_data]
    is true. *)
Lemma twbx_archive_without_requested_csv :
  let request := Samples.long_int_request in
  let out := generate_workbook Samples.sample_self Samples.sample_env request ∅ in
  output_format request = Twbx
  /\ include_sample_data request = true
  /\ success out.1 = false
  /\ (exists e, _generate_sample_csv Samples.sample_env (dataset_schema request) = inl e
                /\ Py.exn_class e = "ValueError"
                /\ error_message out.1 = Some (Py.exn_str e))
  /\ out.2 !! "data/outputs/Sales_Dashboard.twbx"
     = Some (ZipFile [ ("workbook.twb", "<workbook/>");
                       ("Data/Datasources/datasource.tds", "<datasource/>") ])
  /\ "Data/Sales.csv"
     ∉ ["workbook.twb"; "Data/Datasources/datasource.tds"].
Proof.
  intros request out.
  split; [reflexivity|]. split; [reflexivity|]. split; [by vm_compute|].
  split; [eexists; split; [by vm_compute|]; split; by vm_compute|].
  split; [by vm_compute|].
  intros H. repeat (apply elem_of_cons in H as [H|H]; [discriminate|]).
  by apply elem_of_nil in H.
Qed.

(** *** Encodings *)

Lemma title_of_aggregation a : Py.title (Aggregation_str a) = Aggregation_title a.
Proof. by destruct a. Qed.

Lemma add_encoding_typed shelf field datasource ds (a : option Aggregation) :
  ET.get datasource "name" = Some ds ->
  _add_encoding shelf field datasource (Aggregation_str <$> a)
  = encoding shelf ds field (Aggregation_title <$> a).
Proof.
  intros Hname. unfold _add_encoding, ET.fmt_get. rewrite Hname.
  destruct a as [[]|]; reflexivity.
Qed.

Lemma add_encoding_none shelf field datasource ds :
  ET.get datasource "name" = Some ds ->
  _add_encoding shelf field datasource (Some "none") = encoding shelf ds field None.
Proof.
  intros Hname. unfold _add_encoding, ET.fmt_get. by rewrite Hname.
Qed.

(** C6, as the code has it.  The encodings of a worksheet are, in this
    order: one "rows" encoding per y_axis field, carrying the title-cased
    aggregation when [aggregation_type] is set; one "columns" encoding per
    x_axis field, without aggregation; one "color" encoding when
    [color_field] is set to a non-empty string, without aggregation; one
    "size" encoding when [size_field] is set to a non-empty string,
    aggregated like the rows.  Each column text is
    "[<datasource name>].[<field>]".  When neither field is the empty
    string this is the list the specification words. *)
Theorem encodings_fixed_order viz datasource ds :
  ET.get datasource "name" = Some ds ->
  encodings_of viz datasource = encodings_when_truthy viz ds
  /\ (color_field viz <> Some "" -> size_field viz <> Some "" ->
      encodings_of viz datasource = encodings_when_set viz ds).
Proof.
  intros Hname.
  assert (H : encodings_of viz datasource = encodings_when_truthy viz ds).
  { unfold encodings_of, encodings_when_truthy.
    f_equal; [|f_equal; [|f_equal]].
    - destruct (y_axis viz) as [|f fs] eqn:E; [done|]. rewrite <- E.
      apply map_ext. intros field. by apply add_encoding_typed.
    - destruct (x_axis viz) as [|f fs] eqn:E; [done|]. rewrite <- E.
      apply map_ext. intros field. by apply add_encoding_none.
    - destruct (color_field viz) as [[|c f]|]; simpl; [done| |done].
      f_equal. by apply add_encoding_none.
    - destruct (size_field viz) as [[|c f]|]; simpl; [done| |done].
      f_equal. by apply add_encoding_typed. }
  split; [exact H|]. intros Hcolor Hsize. rewrite H.
  unfold encodings_when_truthy, encodings_when_set.
  destruct (color_field viz) as [[|c f]|], (size_field viz) as [[|c' f']|];
    try reflexivity; congruence.
Qed.

Lemma encodings_fixed_order_witness :
  encodings_of (Samples.sample_viz (Some "Category")) Samples.sample_datasource
  = [ encoding "rows" "federated.1B9D6BCD" "Sales" (Some "Sum");
      encoding "columns" "federated.1B9D6BCD" "Region" None;
      encoding "color" "federated.1B9D6BCD" "Category" None ].
Proof.
  destruct (encodings_fixed_order (Samples.sample_viz (Some "Category"))
              Samples.sample_datasource "federated.1B9D6BCD" eq_refl) as [H _].
  exact H.
Defined.

(** C6, as the specification states it, fails when [color_field] is set to
    the empty string: the field is set, the list the specification words
    has a "color" encoding, the list the code builds has none. *)
Lemma encodings_color_field_empty_string :
  let viz := Samples.sample_viz (Some "") in
  color_field viz = Some ""
  /\ filter (fun e => ET.tag e = "color") (encodings_when_set viz "federated.1B9D6BCD")
     = [encoding "color" "federated.1B9D6BCD" "" None]
  /\ filter (fun e => ET.tag e = "color") (encodings_of viz Samples.sample_datasource) = []
  /\ encodings_of viz Samples.sample_datasource
     = [ encoding "rows" "federated.1B9D6BCD" "Sales" (Some "Sum");
         encoding "columns" "federated.1B9D6BCD" "Region" None ].
Proof. repeat split. Qed.

(** *** Construction of the value objects *)

(** C9, as the code has it.  Construction of a [VisualizationSpec] accepts
    for [aggregation_type] each of "sum", "avg", "count", "min" and "max",
    accepts [None], takes "sum" when the argument is left out, and refuses
    every other string; "none" is one of the strings it refuses. *)
Theorem aggregation_type_domain chart_type title x_axis y_axis color_field size_field
    filters color_scheme show_labels show_legend :
  let init := VisualizationSpec_init chart_type title x_axis y_axis color_field
                size_field filters color_scheme show_labels show_legend in
  (forall a, exists spec,
      init (Some (PyStr (Aggregation_str a))) = inr spec
      /\ aggregation_type spec = Some a)
  /\ (exists spec, init (Some PyNone) = inr spec /\ aggregation_type spec = None)
  /\ (exists spec, init None = inr spec /\ aggregation_type spec = Some AggSum)
  /\ (forall s, (exists spec, init (Some (PyStr s)) = inr spec)
                <-> s ∈ ["sum"; "avg"; "count"; "min"; "max"])
  /\ exists e, init (Some (PyStr "none")) = inl e.
Proof.
  intros init. subst init. unfold VisualizationSpec_init.
  split; [intros []; eexists; split; reflexivity|].
  split; [eexists; split; reflexivity|].
  split; [eexists; split; reflexivity|].
  split; [|eexists; reflexivity].
  intros s. unfold parse_aggregation_type.
  destruct (find (fun a => String.eqb (Aggregation_str a) s) all_aggregations) as [a|] eqn:E.
  - split; [intros _|intros _; simpl; eexists; reflexivity].
    apply find_some in E as [_ E]. apply String.eqb_eq in E. subst s.
    destruct a; simpl; set_solver.
  - split; [intros [spec H]; simpl in H; discriminate|].
    intros Hin. exfalso.
    assert (Hall : forall a, String.eqb (Aggregation_str a) s = false).
    { intros a. apply (find_none _ _ E). destruct a; simpl; tauto. }
    rewrite !elem_of_cons in Hin. rewrite elem_of_nil in Hin.
    destruct Hin as [->|[->|[->|[->|[->|[]]]]]].
    + specialize (Hall AggSum). discriminate.
    + specialize (Hall AggAvg). discriminate.
    + specialize (Hall AggCount). discriminate.
    + specialize (Hall AggMin). discriminate.
    + specialize (Hall AggMax). discriminate.
Qed.

(** C9, as the specification states it, fails at "none": construction of a
    [VisualizationSpec] with [aggregation_type="none"] raises a validation
    error. *)
Lemma aggregation_type_none_rejected :
  VisualizationSpec_init BAR "Sales by Region" ["Region"] ["Sales"] None None []
    TABLEAU10 true true (Some (PyStr "none"))
  = inl (Py.ValidationError
           "aggregation_type: unexpected value; permitted: 'sum', 'avg', 'count', 'min', 'max'").
Proof. reflexivity. Qed.

(** C10, as the code has it.  Construction of a [ValidationResult] succeeds
    for every flag and every list of errors and stores both unchanged: the
    type relates [is_valid] and [errors] in no way. *)
Theorem validation_result_fields_independent (flag : bool)
    (errs warns suggs : option (list string)) :
  exists v,
    ValidationResult_init flag errs warns suggs = inr v
    /\ is_valid v = flag
    /\ errors v = default [] errs
    /\ vr_warnings v = default [] warns
    /\ suggestions v = default [] suggs.
Proof. eexists. repeat split. Qed.

(** C10, as the specification states it, fails: a [ValidationResult] with
    [is_valid] true and a non-empty list of errors is constructed, and so is
    one with [is_valid] false and no error. *)
Lemma validation_result_valid_with_errors :
  exists v w,
    ValidationResult_init true (Some ["Required column 'Date' is missing"]) None None = inr v
    /\ is_valid v = true
    /\ errors v = ["Required column 'Date' is missing"]
    /\ ValidationResult_init false None None None = inr w
    /\ is_valid w = false
    /\ errors w = [].
Proof. do 2 eexists. repeat split. Qed.

(** *** Calculated fields given as dicts *)

Lemma enumerate_from_fmap {A B} (f : A -> B) (xs : list A) (start : Z) :
  Py.enumerate_from start (f <$> xs) = prod_map id f <$> Py.enumerate_from start xs.
Proof.
  revert start. induction xs as [|x xs IH]; intros start; [done|].
  simpl. f_equal. apply IH.
Qed.

(** When every calculated field is a dict carrying name, formula and
    data_type, the metadata records are one record per column, in column
    order, with the column index as ordinal, followed by one record per
    calculated field with ordinal [len(columns) + j], contains-null "false"
    and a [calculation] child holding the formula with type "tableau". *)
Theorem metadata_records_of_dicts dataset_schema (dicts : list CalcFieldDict) :
  calculated_fields dataset_schema = CalcDict <$> dicts ->
  Forall complete_dict dicts ->
  metadata_records dataset_schema
  = inr (map (fun p => _add_column_metadata p.2 p.1)
             (Py.enumerate (columns dataset_schema))
         ++ map (fun p => calc_record_of p.2 (Py.len (columns dataset_schema) + p.1))
                (Py.enumerate dicts)).
Proof.
  intros Hcalc Hall. unfold metadata_records. rewrite Hcalc.
  assert (Hcols : map (fun '(i, column) => _add_column_metadata column i)
                      (Py.enumerate (columns dataset_schema))
                  = map (fun p => _add_column_metadata p.2 p.1)
                      (Py.enumerate (columns dataset_schema))).
  { apply map_ext. by intros [i c]. }
  rewrite Hcols.
  destruct dicts as [|d dicts]; [reflexivity|].
  change (CalcDict <$> d :: dicts) with (CalcDict d :: (CalcDict <$> dicts)) at 1.
  cbv beta iota.
  unfold Py.enumerate. rewrite enumerate_from_fmap.
  rewrite (for_each_ok _
    (fun p : Z * CalcField =>
       match p.2 with
       | CalcDict d => calc_record_of d (Py.len (columns dataset_schema) + p.1)
       | CalcModel _ => ET.new ""
       end)).
  - cbn [Py.bind Py.ret]. do 2 f_equal.
    rewrite <- list_fmap_compose. apply list_fmap_ext. by intros _ [j d'] _.
  - intros [j c] Hin. apply list_elem_of_fmap in Hin as ([j' d'] & Heq & Hin).
    simpl in Heq. injection Heq as -> ->.
    apply add_calculated_field_metadata_dict.
    rewrite Forall_forall in Hall. apply Hall.
    apply (list_elem_of_fmap_2 snd) in Hin. rewrite enumerate_from_snd in Hin.
    exact Hin.
Qed.

Lemma metadata_records_of_dicts_witness :
  metadata_records (Samples.sample_schema [CalcDict Samples.sample_calc_dict])
  = inr [ _add_column_metadata Samples.sample_column 0;
          _add_column_metadata Samples.sample_region 1;
          calc_record "Revenue" "[UnitPrice] * [Quantity]" FLOAT (Some "measure") 2 ].
Proof.
  refine (metadata_records_of_dicts
            (Samples.sample_schema [CalcDict Samples.sample_calc_dict])
            [Samples.sample_calc_dict] eq_refl _).
  repeat constructor; by eexists.
Defined.

(** *** The mark table *)

(** The mark class of a worksheet: Bar, Line, Area, Circle, Pie, Square,
    Square and Map for the eight chart types of the table, "Automatic" for
    the six others. *)
Theorem get_tableau_mark_type_table (chart_type : VisualizationType) :
  _get_tableau_mark_type chart_type
  = match chart_type with
    | BAR => "Bar"
    | LINE => "Line"
    | AREA => "Area"
    | SCATTER => "Circle"
    | PIE => "Pie"
    | HEATMAP | TREEMAP => "Square"
    | MAP => "Map"
    | HISTOGRAM | FILLED_MAP | GANTT | PACKED_BUBBLES | BOX_PLOT | BULLET_GRAPH =>
        "Automatic"
    end.
Proof. by destruct chart_type. Qed.

(** ** Further properties of the engine *)

(** *** Decimal rendering *)

Lemma str_int_inj (a b : Z) : Py.str_int a = Py.str_int b -> a = b.
Proof.
  unfold Py.str_int. intros H.
  assert (Hnn : forall z, Z.to_int z <> Decimal.Pos Decimal.Nil
                          /\ Z.to_int z <> Decimal.Neg Decimal.Nil).
  { intros [|p|p]; simpl; split; try discriminate;
      intros [= E]; by apply DecimalPos.Unsigned.to_uint_nonnil in E. }
  apply (f_equal NilZero.int_of_string) in H.
  rewrite !NilZero.isi in H by apply Hnn.
  injection H as H. by apply DecimalZ.to_int_inj.
Qed.

(** *** What the specification builder hands to the serializer *)

Lemma create_workbook_specification_dashboards self env request :
  dashboards (_create_workbook_specification self env request)
  = [main_dashboard (recommended_visualizations (ai_analysis request))].
Proof.
  unfold _create_workbook_specification, main_dashboard, sheets. simpl.
  do 2 f_equal. apply map_ext. by intros [i v].
Qed.

Lemma sheets_length vizs : length (sheets vizs) = length vizs.
Proof. unfold sheets, Py.enumerate. by rewrite length_fmap, enumerate_from_length. Qed.

Lemma sheets_lookup vizs (i : nat) :
  sheets vizs !! i = sheet (Z.of_nat i) <$> vizs !! i.
Proof.
  unfold sheets, Py.enumerate. rewrite list_lookup_fmap, enumerate_from_lookup.
  by destruct (vizs !! i).
Qed.

(** Worksheet names are unique within the workbook the builder makes. *)
Theorem worksheet_names_unique self env request :
  Forall (fun dashboard => NoDup (ws_name <$> worksheets dashboard))
         (dashboards (_create_workbook_specification self env request)).
Proof.
  rewrite create_workbook_specification_dashboards.
  apply Forall_singleton. simpl.
  apply NoDup_alt. intros i j name Hi Hj.
  rewrite list_lookup_fmap, sheets_lookup in Hi, Hj.
  destruct (_ !! i) as [vi|]; [|done]. destruct (_ !! j) as [vj|]; [|done].
  simpl in Hi, Hj. injection Hi as Hi. injection Hj as Hj. subst name.
  cbn in Hj. injection Hj as Hj. apply str_int_inj in Hj. lia.
Qed.

(** *** Dashboards *)

Lemma dashboard_zones_built dashboard_spec :
  dashboard_zones dashboard_spec
  = inr (zone_of (Py.len (worksheets dashboard_spec))
           <$> Py.enumerate (worksheets dashboard_spec)).
Proof.
  unfold dashboard_zones. apply for_each_ok. intros [i w] Hin.
  rewrite add_zone_properties_ok; [reflexivity|].
  destruct (worksheets dashboard_spec); [by apply elem_of_nil in Hin|].
  unfold Py.len. simpl. lia.
Qed.

Lemma create_dashboard_element_ok dashboard_spec height width :
  db_dimensions dashboard_spec !! "height" = Some height ->
  db_dimensions dashboard_spec !! "width" = Some width ->
  _create_dashboard_element dashboard_spec
  = inr (dashboard_element dashboard_spec height width).
Proof.
  intros Hh Hw. unfold _create_dashboard_element, dict_item.
  rewrite Hh, Hw, dashboard_zones_built. reflexivity.
Qed.


(** The serializer never looks at the layout, the global filters, the color
    scheme or the description of a dashboard: two dashboards that agree on
    name, worksheets and dimensions give the same element, whatever their
    [layout_type]. *)
Theorem create_dashboard_element_ignores_layout (d1 d2 : DashboardSpec) :
  db_name d1 = db_name d2 ->
  worksheets d1 = worksheets d2 ->
  db_dimensions d1 = db_dimensions d2 ->
  _create_dashboard_element d1 = _create_dashboard_element d2.
Proof.
  intros Hn Hw Hd.
  unfold _create_dashboard_element, dashboard_zones. by rewrite Hn, Hw, Hd.
Qed.

Lemma create_dashboard_element_ignores_layout_witness :
  _create_dashboard_element (main_dashboard [Samples.sample_viz None])
  = _create_dashboard_element
      {| db_name := "AI Generated Dashboard";
         db_description := "";
         worksheets := sheets [Samples.sample_viz None];
         layout := {| layout_type := LayoutFreeForm; layout_rows := 7;
                      layout_columns := 1; worksheet_positions := ∅ |};
         global_filters := [];
         db_color_scheme := BLUES;
         db_dimensions := {[ "width" := 1200; "height" := 800 ]} |}.
Proof.
  exact (create_dashboard_element_ignores_layout _ _ eq_refl eq_refl eq_refl).
Defined.

(** In the dashboard of the workbook the builder makes, the zone at 0-based
    position i carries id i and refers to the worksheet named
    "Sheet " i+1. *)
Theorem zones_refer_to_sheets (vizs : list VisualizationSpec) (i : nat)
    (viz : VisualizationSpec) :
  vizs !! i = Some viz ->
  exists zones zone,
    dashboard_zones (main_dashboard vizs) = inr zones
    /\ zones !! i = Some zone
    /\ ET.get zone "id" = Some (Py.str_int (Z.of_nat i))
    /\ ET.children zone
       = [ ET.mkElement "worksheet"
             [("name", "Sheet " +:+ Py.str_int (Z.of_nat i + 1))] None [] ].
Proof.
  intros Hi. eexists. eexists. split; [apply dashboard_zones_built|].
  split.
  - rewrite list_lookup_fmap. unfold Py.enumerate.
    rewrite enumerate_from_lookup. simpl. rewrite sheets_lookup, Hi. reflexivity.
  - split; reflexivity.
Qed.

Lemma zones_refer_to_sheets_witness :
  exists zones zone,
    dashboard_zones (main_dashboard [Samples.sample_viz None; Samples.sample_viz None])
    = inr zones
    /\ zones !! 1%nat = Some zone
    /\ ET.get zone "id" = Some "1"
    /\ ET.children zone = [ ET.mkElement "worksheet" [("name", "Sheet 2")] None [] ].
Proof.
  exact (zones_refer_to_sheets [Samples.sample_viz None; Samples.sample_viz None]
           1%nat _ eq_refl).
Defined.

(** Two different worksheets of a dashboard never get the same grid cell:
    their zones differ in x or in y. *)
Theorem zones_do_not_coincide dashboard_spec zones (i j : nat) zi zj :
  dashboard_zones dashboard_spec = inr zones ->
  zones !! i = Some zi ->
  zones !! j = Some zj ->
  i <> j ->
  (ET.get zi "x", ET.get zi "y") <> (ET.get zj "x", ET.get zj "y").
Proof.
  intros Hz Hi Hj Hne Heq.
  rewrite dashboard_zones_built in Hz. injection Hz as <-.
  rewrite list_lookup_fmap in Hi, Hj. unfold Py.enumerate in Hi, Hj.
  rewrite enumerate_from_lookup in Hi, Hj.
  destruct (worksheets dashboard_spec !! i) as [wi|] eqn:Ei; [|done].
  destruct (worksheets dashboard_spec !! j) as [wj|] eqn:Ej; [|done].
  simpl in Hi, Hj. injection Hi as <-. injection Hj as <-.
  apply lookup_lt_Some in Ei, Ej.
  set (N := Py.len (worksheets dashboard_spec)) in *.
  assert (HN : Z.of_nat i < N /\ Z.of_nat j < N) by (unfold N, Py.len; lia).
  cbn in Heq. injection Heq as Hx Hy.
  apply str_int_inj in Hx, Hy.
  set (cols := if 2 <? N then 2 else N) in *.
  assert (Hc : 0 < cols) by (unfold cols; destruct (2 <? N) eqn:E; lia).
  assert (Hi' := Z.div_mod (Z.of_nat i) cols ltac:(lia)).
  assert (Hj' := Z.div_mod (Z.of_nat j) cols ltac:(lia)).
  rewrite !Z.add_0_l in Hx, Hy.
  assert (Hm : Z.of_nat i mod cols = Z.of_nat j mod cols) by lia.
  assert (Hd : Z.of_nat i / cols = Z.of_nat j / cols) by lia.
  rewrite Hm, Hd in Hi'. lia.
Qed.

Lemma zones_do_not_coincide_witness :
  let dashboard :=
    main_dashboard [Samples.sample_viz None; Samples.sample_viz None;
                    Samples.sample_viz None] in
  exists zones z0 z2,
    dashboard_zones dashboard = inr zones
    /\ zones !! 0%nat = Some z0
    /\ zones !! 2%nat = Some z2
    /\ (ET.get z0 "x", ET.get z0 "y") <> (ET.get z2 "x", ET.get z2 "y").
Proof.
  intros dashboard.
  pose proof (dashboard_zones_built dashboard) as Hz.
  exists (zone_of 3 <$> Py.enumerate (worksheets dashboard)),
         (zone_of 3 (0, sheet 0 (Samples.sample_viz None))),
         (zone_of 3 (2, sheet 2 (Samples.sample_viz None))).
  split; [exact Hz|]. split; [reflexivity|]. split; [reflexivity|].
  exact (zones_do_not_coincide dashboard _ 0%nat 2%nat _ _ Hz eq_refl eq_refl
           ltac:(discriminate)).
Defined.

(** *** The datasource element *)

Lemma for_each_inv {A B} (f : A -> Py.result B) (xs : list A) (ys : list B) :
  Py.for_each f xs = inr ys -> Forall2 (fun x y => f x = inr y) xs ys.
Proof.
  revert ys. induction xs as [|x xs IH]; intros ys H; simpl in H.
  - injection H as <-. constructor.
  - destruct (f x) as [e|y] eqn:Hx; [discriminate|]. simpl in H.
    destruct (Py.for_each f xs) as [e|ys'] eqn:Hxs; [discriminate|].
    simpl in H. injection H as <-. constructor; [exact Hx|]. by apply IH.
Qed.

Lemma add_calculated_field_metadata_inv calc_field ordinal record :
  _add_calculated_field_metadata calc_field ordinal = inr record ->
  usable_calc_field calc_field.
Proof.
  unfold _add_calculated_field_metadata, subscript, get_role.
  destruct calc_field as [spec|d]; [discriminate|].
  destruct (d_name d) eqn:Hn; [|discriminate].
  destruct (d_data_type d) eqn:Ht; [|discriminate].
  destruct (d_formula d) eqn:Hf; [|discriminate].
  intros _. exists d. split; [done|]. unfold complete_dict.
  rewrite Hn, Ht, Hf. repeat split; by eexists.
Qed.

Lemma calc_column_instance_dict d :
  complete_dict d ->
  exists instance, calc_column_instance (CalcDict d) = inr instance.
Proof.
  intros ([n Hn] & _). unfold calc_column_instance, subscript, get_role.
  rewrite Hn. eexists. reflexivity.
Qed.

Lemma metadata_records_inv dataset_schema records :
  metadata_records dataset_schema = inr records ->
  Forall usable_calc_field (calculated_fields dataset_schema)
  /\ length records
     = (length (columns dataset_schema) + length (calculated_fields dataset_schema))%nat.
Proof.
  unfold metadata_records. intros H.
  destruct (calculated_fields dataset_schema) as [|c cs] eqn:Hcalc.
  - simpl in H. injection H as <-. split; [constructor|].
    unfold Py.enumerate.
    rewrite length_app, length_map, enumerate_from_length. simpl. lia.
  - destruct (Py.for_each _ _) as [e|calc_records] eqn:Hloop; [discriminate|].
    simpl in H. injection H as <-.
    apply for_each_inv in Hloop. split.
    + apply Forall_forall. intros c' Hin.
      apply list_elem_of_lookup in Hin as [k Hk].
      assert (Hk' : Py.enumerate (c :: cs) !! k = Some (0 + Z.of_nat k, c')).
      { unfold Py.enumerate. by rewrite enumerate_from_lookup, Hk. }
      destruct (Forall2_lookup_l _ _ _ _ _ Hloop Hk') as (r & _ & Hr).
      simpl in Hr. by apply add_calculated_field_metadata_inv in Hr.
    + apply Forall2_length in Hloop. unfold Py.enumerate in *.
      rewrite enumerate_from_length in Hloop.
      rewrite length_app, length_map, enumerate_from_length. lia.
Qed.

Lemma metadata_records_usable dataset_schema :
  Forall usable_calc_field (calculated_fields dataset_schema) ->
  exists records, metadata_records dataset_schema = inr records.
Proof.
  intros Hall.
  assert (exists dicts, calculated_fields dataset_schema = CalcDict <$> dicts
                        /\ Forall complete_dict dicts) as (dicts & Hd & Hc).
  { induction Hall as [|c cs (d & -> & Hd) _ (ds & -> & Hds)].
    - by exists [].
    - exists (d :: ds). split; [done|]. by constructor. }
  unfold metadata_records. rewrite Hd.
  destruct dicts as [|d dicts]; [eexists; reflexivity|].
  change (CalcDict <$> d :: dicts) with (CalcDict d :: (CalcDict <$> dicts)) at 1.
  cbv beta iota.
  unfold Py.enumerate. rewrite enumerate_from_fmap.
  rewrite (for_each_ok _
    (fun p : Z * CalcField =>
       match p.2 with
       | CalcDict d => calc_record_of d (Py.len (columns dataset_schema) + p.1)
       | CalcModel _ => ET.new ""
       end)).
  - eexists. reflexivity.
  - intros [j c] Hin. apply list_elem_of_fmap in Hin as ([j' d'] & Heq & Hin).
    simpl in Heq. injection Heq as -> ->.
    apply add_calculated_field_metadata_dict.
    rewrite Forall_forall in Hc. apply Hc.
    apply (list_elem_of_fmap_2 snd) in Hin. rewrite enumerate_from_snd in Hin.
    exact Hin.
Qed.

Lemma calc_instances_usable (calcs : list CalcField) :
  Forall usable_calc_field calcs ->
  exists instances,
    Py.for_each calc_column_instance calcs = inr instances
    /\ length instances = length calcs.
Proof.
  induction 1 as [|c cs (d & -> & Hd) _ (instances & Hi & Hl)].
  - by exists [].
  - destruct (calc_column_instance_dict d Hd) as [instance Hinst].
    exists (instance :: instances). simpl. rewrite Hinst. simpl. rewrite Hi.
    simpl. split; [done|]. by rewrite Hl.
Qed.

Lemma create_datasource_element_char self env dataset_schema :
  ((exists datasource, _create_datasource_element self env dataset_schema = inr datasource)
   <-> Forall usable_calc_field (calculated_fields dataset_schema))
  /\ forall datasource,
       _create_datasource_element self env dataset_schema = inr datasource ->
       ET.tag datasource = "datasource"
       /\ ET.attrib datasource
          = [ ("caption", ds_name dataset_schema);
              ("name", "federated." +:+ _generate_id env);
              ("version", "18.1") ]
       /\ exists connection records instances,
            ET.children datasource = [connection; records; instances]
            /\ ET.tag connection = "connection"
            /\ ET.tag records = "metadata-records"
            /\ ET.tag instances = "column-instances"
            /\ length (ET.children records)
               = (length (columns dataset_schema)
                  + length (calculated_fields dataset_schema))%nat
            /\ length (ET.children instances)
               = (length (columns dataset_schema)
                  + length (calculated_fields dataset_schema))%nat.
Proof.
  split; [split|].
  - intros [datasource H]. unfold _create_datasource_element in H.
    destruct (metadata_records dataset_schema) as [e|records] eqn:Hrec;
      [discriminate|].
    by apply metadata_records_inv in Hrec as [Hall _].
  - intros Hall. unfold _create_datasource_element.
    destruct (metadata_records_usable _ Hall) as [records ->].
    destruct (calc_instances_usable _ Hall) as (instances & Hi & _).
    destruct (calculated_fields dataset_schema) as [|c cs] eqn:Hcalc.
    + eexists. reflexivity.
    + rewrite Hi. eexists. reflexivity.
  - intros datasource H. unfold _create_datasource_element in H.
    destruct (metadata_records dataset_schema) as [e|records] eqn:Hrec;
      [discriminate|].
    apply metadata_records_inv in Hrec as [Hall Hlen].
    destruct (calc_instances_usable _ Hall) as (instances & Hi & Hil).
    assert (Hinst : match calculated_fields dataset_schema with
                    | [] => Py.ret []
                    | _ :: _ => Py.for_each calc_column_instance
                                  (calculated_fields dataset_schema)
                    end = inr instances).
    { destruct (calculated_fields dataset_schema); [|exact Hi].
      simpl in Hi. exact Hi. }
    cbn [Py.bind] in H. rewrite Hinst in H. cbn [Py.bind Py.ret] in H.
    injection H as <-.
    split; [reflexivity|]. split; [reflexivity|].
    do 3 eexists. split; [reflexivity|].
    repeat split; simpl.
    + exact Hlen.
    + rewrite length_app, length_map. lia.
Qed.

(** [_create_datasource_element] returns exactly when every calculated
    field is a dict carrying name, formula and data_type; the element then
    is a [datasource] with caption, name "federated." followed by the
    generated id and version "18.1", whose children are the connection, the
    metadata records and the column instances, the last two holding one
    child per column and per calculated field. *)
Theorem create_datasource_element_shape self env dataset_schema :
  ((exists datasource, _create_datasource_element self env dataset_schema = inr datasource)
   <-> Forall usable_calc_field (calculated_fields dataset_schema))
  /\ forall datasource,
       _create_datasource_element self env dataset_schema = inr datasource ->
       ET.tag datasource = "datasource"
       /\ ET.attrib datasource
          = [ ("caption", ds_name dataset_schema);
              ("name", "federated." +:+ _generate_id env);
              ("version", "18.1") ]
       /\ exists connection records instances,
            ET.children datasource = [connection; records; instances]
            /\ ET.tag connection = "connection"
            /\ ET.tag records = "metadata-records"
            /\ ET.tag instances = "column-instances"
            /\ length (ET.children records)
               = (length (columns dataset_schema)
                  + length (calculated_fields dataset_schema))%nat
            /\ length (ET.children instances)
               = (length (columns dataset_schema)
                  + length (calculated_fields dataset_schema))%nat.
Proof. apply create_datasource_element_char. Qed.

(** *** Column metadata *)

(** The metadata record and the column instance of a source column: the
    record names the column, carries the ordinal, gives the same mapped
    type as remote and local type, says contains-null "true" exactly when
    [null_count] is positive and aggregation "Sum" exactly when the role is
    measure ("Count" otherwise); the instance is "nominal" exactly when the
    role is dimension ("quantitative" otherwise). *)
Theorem column_metadata_semantics (column : DataColumn) (ordinal : Z) :
  let record := _add_column_metadata column ordinal in
  let instance := column_instance column in
  findtext record "remote-name" = Some (col_name column)
  /\ findtext record "local-name" = Some ("[" +:+ col_name column +:+ "]")
  /\ findtext record "ordinal" = Some (Py.str_int ordinal)
  /\ findtext record "remote-type" = Some (_get_tableau_data_type (col_data_type column))
  /\ findtext record "local-type" = findtext record "remote-type"
  /\ findtext record "contains-null"
     = Some (if bool_decide (0 < null_count column) then "true" else "false")
  /\ findtext record "aggregation"
     = Some (if bool_decide (recommended_role column = Some RoleMeasure)
             then "Sum" else "Count")
  /\ ET.get instance "type"
     = Some (if bool_decide (recommended_role column = Some RoleDimension)
             then "nominal" else "quantitative")
  /\ ET.get instance "column" = Some ("[" +:+ col_name column +:+ "]").
Proof.
  intros record instance. subst record instance.
  repeat split; try reflexivity.
  - unfold findtext, find_child. cbn.
    destruct (0 <? null_count column) eqn:E.
    + rewrite bool_decide_eq_true_2; [done|]. by apply Z.ltb_lt.
    + rewrite bool_decide_eq_false_2; [done|]. by apply Z.ltb_nlt.
  - unfold findtext, find_child. cbn.
    by destruct (recommended_role column) as [[]|].
  - cbn. by destruct (recommended_role column) as [[]|].
Qed.

(** A column whose role is neither measure nor dimension (no role, or
    attribute) is counted like a dimension in its metadata record and typed
    like a measure in its column instance. *)
Theorem column_without_role_mixed (column : DataColumn) (ordinal : Z) :
  recommended_role column <> Some RoleMeasure ->
  recommended_role column <> Some RoleDimension ->
  findtext (_add_column_metadata column ordinal) "aggregation" = Some "Count"
  /\ ET.get (column_instance column) "type" = Some "quantitative".
Proof.
  intros Hm Hd. unfold findtext, find_child. cbn.
  by destruct (recommended_role column) as [[]|].
Qed.

Lemma column_without_role_mixed_witness :
  let column :=
    {| col_name := "Notes"; col_data_type := STRING; unique_values := 3;
       null_count := 0; sample_values := []; statistics := None;
       is_key_field := false; recommended_role := Some RoleAttribute |} in
  findtext (_add_column_metadata column 4) "aggregation" = Some "Count"
  /\ ET.get (column_instance column) "type" = Some "quantitative".
Proof.
  intros column.
  exact (column_without_role_mixed column 4 ltac:(discriminate) ltac:(discriminate)).
Defined.

(** *** Calculated fields given as dicts: roles and missing keys *)

(** For a dict carrying name, formula and data_type, the record says
    aggregation "Sum" when role is "measure" or absent, and the column
    instance says "nominal" when role is "dimension" or absent: a dict
    without a role is summed like a measure and typed like a dimension. *)
Theorem calc_dict_role_defaults (d : CalcFieldDict) (ordinal : Z) :
  complete_dict d ->
  exists record instance,
    _add_calculated_field_metadata (CalcDict d) ordinal = inr record
    /\ calc_column_instance (CalcDict d) = inr instance
    /\ findtext record "aggregation"
       = Some (if bool_decide (d_role d = None \/ d_role d = Some "measure")
               then "Sum" else "Count")
    /\ ET.get instance "type"
       = Some (if bool_decide (d_role d = None \/ d_role d = Some "dimension")
               then "nominal" else "quantitative")
    /\ ET.get instance "derivation" = Some "Calculation"
    /\ (d_role d = None ->
        findtext record "aggregation" = Some "Sum"
        /\ ET.get instance "type" = Some "nominal").
Proof.
  intros Hd. pose proof Hd as ([n Hn] & [f Hf] & [t Ht]).
  exists (calc_record_of d ordinal). eexists.
  split; [by apply add_calculated_field_metadata_dict|].
  unfold calc_column_instance, subscript, get_role. rewrite Hn.
  split; [reflexivity|].
  assert (Hagg : findtext (calc_record_of d ordinal) "aggregation"
                 = Some (if String.eqb (default "measure" (d_role d)) "measure"
                         then "Sum" else "Count")) by reflexivity.
  rewrite Hagg. cbn.
  destruct (d_role d) as [role|] eqn:Hr; simpl.
  - split; [|split; [|split; [done|done]]].
    + destruct (String.eqb_spec role "measure") as [->|Hne].
      * rewrite bool_decide_eq_true_2; [done|]. by right.
      * rewrite bool_decide_eq_false_2; [done|]. intros [?|?]; congruence.
    + destruct (String.eqb_spec role "dimension") as [->|Hne].
      * rewrite bool_decide_eq_true_2; [done|]. by right.
      * rewrite bool_decide_eq_false_2; [done|]. intros [?|?]; congruence.
  - repeat split.
Qed.

Lemma calc_dict_role_defaults_witness :
  let d := {| d_name := Some "Margin"; d_formula := Some "[Profit] / [Sales]";
              d_data_type := Some FLOAT; d_role := None |} in
  exists record instance,
    _add_calculated_field_metadata (CalcDict d) 2 = inr record
    /\ calc_column_instance (CalcDict d) = inr instance
    /\ findtext record "aggregation" = Some "Sum"
    /\ ET.get instance "type" = Some "nominal".
Proof.
  intros d.
  destruct (calc_dict_role_defaults d 2) as (record & instance & H1 & H2 & _ & _ & _ & H6).
  { repeat split; by eexists. }
  exists record, instance. split; [exact H1|]. split; [exact H2|]. exact (H6 eq_refl).
Defined.

(** A dict that lacks one of name, data_type and formula makes the record
    builder raise [KeyError] for the first key missing in that order, and a
    generation whose first calculated field is such a dict fails with the
    quoted key as message. *)
Theorem calc_dict_missing_key self env request fs (d : CalcFieldDict)
    (rest : list CalcField) (key : string) :
  first_missing_key d = Some key ->
  calculated_fields (dataset_schema request) = CalcDict d :: rest ->
  let r := (generate_workbook self env request fs).1 in
  (forall ordinal,
      _add_calculated_field_metadata (CalcDict d) ordinal = inl (Py.KeyError key))
  /\ success r = false
  /\ error_message r = Some ("'" +:+ key +:+ "'").
Proof.
  intros Hkey Hcalc r.
  assert (Hrec : forall ordinal,
             _add_calculated_field_metadata (CalcDict d) ordinal = inl (Py.KeyError key)).
  { intros ordinal. unfold first_missing_key in Hkey.
    unfold _add_calculated_field_metadata, subscript, get_role.
    destruct (d_name d); [|by injection Hkey as <-].
    destruct (d_data_type d); [|by injection Hkey as <-].
    destruct (d_formula d); [discriminate|by injection Hkey as <-]. }
  split; [exact Hrec|].
  assert (Hds : _create_datasource_element self env (dataset_schema request)
                = inl (Py.KeyError key)).
  { unfold _create_datasource_element, metadata_records. rewrite Hcalc.
    unfold Py.enumerate. cbn [Py.enumerate_from Py.for_each].
    by rewrite Hrec. }
  subst r.
  unfold generate_workbook, generation_steps, _generate_workbook_xml, workbook_tree.
  rewrite Hds. simpl. done.
Qed.

Lemma calc_dict_missing_key_witness :
  let d := {| d_name := Some "Margin"; d_formula := None;
              d_data_type := Some FLOAT; d_role := Some "measure" |} in
  let r := (generate_workbook Samples.sample_self Samples.sample_env
              (Samples.sample_request [CalcDict d] [Samples.sample_viz None] Twb true)
              ∅).1 in
  success r = false /\ error_message r = Some "'formula'".
Proof.
  intros d.
  destruct (calc_dict_missing_key Samples.sample_self Samples.sample_env
              (Samples.sample_request [CalcDict d] [Samples.sample_viz None] Twb true)
              ∅ d [] "formula" eq_refl eq_refl) as (_ & H2 & H3).
  split; [exact H2 | exact H3].
Defined.

(** *** The workbook tree *)

Lemma workbook_tree_built self env request datasource :
  _create_datasource_element self env (dataset_schema request) = inr datasource ->
  recommended_visualizations (ai_analysis request) <> [] ->
  workbook_tree self env (_create_workbook_specification self env request) request
  = inr (workbook_element self request datasource).
Proof.
  intros Hds Hviz. unfold workbook_tree. rewrite Hds. cbn [Py.bind].
  rewrite create_workbook_specification_dashboards. cbn [Py.for_each Py.bind].
  rewrite (create_dashboard_element_ok _ 800 1200) by reflexivity.
  cbn [Py.bind Py.ret].
  unfold _create_windows_element, window_name.
  rewrite create_workbook_specification_dashboards.
  cbn [concat map]. rewrite app_nil_r.
  destruct (recommended_visualizations (ai_analysis request)) as [|v vs] eqn:Hv;
    [done|].
  unfold workbook_element. rewrite Hv. reflexivity.
Qed.

Lemma workbook_tree_success_char self env request :
  (exists root,
      workbook_tree self env (_create_workbook_specification self env request) request
      = inr root)
  <-> recommended_visualizations (ai_analysis request) <> []
      /\ Forall usable_calc_field (calculated_fields (dataset_schema request)).
Proof.
  pose proof (create_datasource_element_char self env (dataset_schema request))
    as [Hiff _].
  split.
  - intros [root H]. split.
    + intros Hviz. destruct (workbook_tree_empty self env request Hviz) as (e & He & _).
      congruence.
    + apply Hiff. unfold workbook_tree in H.
      destruct (_create_datasource_element self env (dataset_schema request))
        as [e|ds]; [discriminate|]. by exists ds.
  - intros [Hviz Hall]. apply Hiff in Hall as [ds Hds].
    eexists. by apply workbook_tree_built.
Qed.

(** The workbook tree is built exactly when the request has at least one
    visualization and every calculated field is a usable dict. *)
Theorem workbook_tree_succeeds_iff self env request :
  (exists root,
      workbook_tree self env (_create_workbook_specification self env request) request
      = inr root)
  <-> recommended_visualizations (ai_analysis request) <> []
      /\ Forall usable_calc_field (calculated_fields (dataset_schema request)).
Proof. apply workbook_tree_success_char. Qed.

(** When the workbook tree is built, its root is [workbook] with the version
    and build attributes of the generator, and its children are, in this
    order, preferences, repository-location, datasources, worksheets,
    dashboards and windows; there is one worksheet element per recommended
    visualization, named "Sheet 1", "Sheet 2", ... in order and titled by
    the visualization, one dashboard element, and one window named
    "Sheet 1". *)
Theorem workbook_tree_shape self env request root :
  workbook_tree self env (_create_workbook_specification self env request) request
  = inr root ->
  let vizs := recommended_visualizations (ai_analysis request) in
  ET.tag root = "workbook"
  /\ ET.attrib root
     = [ ("version", tableau_version self);
         ("build-version", build_version self);
         ("source-build", build_version self) ]
  /\ ET.tag <$> ET.children root
     = [ "preferences"; "repository-location"; "datasources"; "worksheets";
         "dashboards"; "windows" ]
  /\ exists worksheets_el dashboards_el windows_el window,
       find_child root "worksheets" = Some worksheets_el
       /\ find_child root "dashboards" = Some dashboards_el
       /\ find_child root "windows" = Some windows_el
       /\ (fun e => ET.get e "name") <$> ET.children worksheets_el
          = (fun i => Some ("Sheet " +:+ Py.str_int (Z.of_nat i + 1)))
              <$> seq 0 (length vizs)
       /\ (fun e => find_child e "layout-options" ≫= fun o =>
                    find_child o "title" ≫= fun t =>
                    find_child t "formatted-text" ≫= fun f => findtext f "run")
            <$> ET.children worksheets_el
          = (fun viz => Some (title viz)) <$> vizs
       /\ length (ET.children dashboards_el) = 1%nat
       /\ ET.children windows_el = [window]
       /\ ET.get window "name" = Some "Sheet 1".
Proof.
  intros H vizs.
  assert (Hsucc : exists r, workbook_tree self env
                              (_create_workbook_specification self env request) request
                            = inr r) by eauto.
  apply workbook_tree_success_char in Hsucc as [Hviz Hall].
  pose proof (create_datasource_element_char self env (dataset_schema request))
    as [Hiff _].
  apply Hiff in Hall as [ds Hds].
  rewrite (workbook_tree_built self env request ds Hds Hviz) in H.
  injection H as <-.
  split; [reflexivity|]. split; [reflexivity|]. split; [reflexivity|].
  do 4 eexists.
  split; [reflexivity|]. split; [reflexivity|]. split; [reflexivity|].
  split; [|split; [|split; [reflexivity|split; reflexivity]]].
  - cbn [ET.children]. fold vizs. unfold sheets, Py.enumerate.
    rewrite <- !list_fmap_compose.
    transitivity ((fun i => Some ("Sheet " +:+ Py.str_int (i + 1)))
                    <$> (Py.enumerate_from 0 vizs).*1).
    + rewrite <- list_fmap_compose. apply list_fmap_ext. by intros _ [i v] _.
    + rewrite enumerate_from_fst, <- list_fmap_compose. done.
  - cbn [ET.children]. fold vizs. unfold sheets, Py.enumerate.
    rewrite <- !list_fmap_compose.
    rewrite <- (enumerate_from_snd vizs 0) at 2.
    rewrite <- list_fmap_compose.
    apply list_fmap_ext. by intros _ [i v] _.
Qed.

Lemma workbook_tree_shape_witness :
  let request :=
    Samples.sample_request [] [Samples.sample_viz None; Samples.sample_viz (Some "Region")]
      Twb false in
  exists root worksheets_el,
    workbook_tree Samples.sample_self Samples.sample_env
      (_create_workbook_specification Samples.sample_self Samples.sample_env request)
      request = inr root
    /\ ET.get root "version" = Some "2023.3"
    /\ find_child root "worksheets" = Some worksheets_el
    /\ (fun e => ET.get e "name") <$> ET.children worksheets_el
       = [Some "Sheet 1"; Some "Sheet 2"].
Proof.
  intros request.
  destruct (create_datasource_element_no_calc Samples.sample_self Samples.sample_env
              (dataset_schema request) eq_refl) as [ds Hds].
  pose proof (workbook_tree_built Samples.sample_self Samples.sample_env request ds Hds
                ltac:(discriminate)) as Htree.
  destruct (workbook_tree_shape Samples.sample_self Samples.sample_env request _ Htree)
    as (_ & Hattr & _ & ws & db & wn & w & Hws & _ & _ & Hnames & _).
  exists (workbook_element Samples.sample_self request ds), ws.
  split; [exact Htree|]. split; [reflexivity|]. split; [exact Hws|]. exact Hnames.
Defined.

(** *** When a generation succeeds, and what it writes *)

Lemma output_path_eq self env request :
  path_join env (output_directory self)
    (wb_name (_create_workbook_specification self env request)
     +:+ match output_format request with Twb => ".twb" | Twbx => ".twbx" end)
  = path_join env (output_directory self) (output_filename request).
Proof. reflexivity. Qed.

(** The outcome of [generate_workbook] once the two documents serialize:
    the error of [open] comes back and nothing is written, or the file is
    there, complete when every write went through. *)
Lemma generate_workbook_packaging self env request fs workbook_xml datasource_xml :
  _generate_workbook_xml self env (_create_workbook_specification self env request)
    request = inr workbook_xml ->
  _generate_datasource_xml self env (dataset_schema request) = inr datasource_xml ->
  let path := path_join env (output_directory self) (output_filename request) in
  let out := generate_workbook self env request fs in
  match open_error env path with
  | Some e =>
      success out.1 = false
      /\ error_message out.1 = Some (Py.exn_str e)
      /\ out.2 = fs
  | None =>
      (packaging_succeeds env path request workbook_xml datasource_xml
       /\ success out.1 = true
       /\ file_path out.1 = path
       /\ workbook_spec out.1 = _create_workbook_specification self env request
       /\ out.2 = <[path := packaged_file env request workbook_xml datasource_xml]> fs)
      \/ (~ packaging_succeeds env path request workbook_xml datasource_xml
          /\ success out.1 = false
          /\ exists file,
               out.2 = <[path := file]> fs
               /\ match output_format request with
                  | Twb => exists text, file = TextFile text
                  | Twbx => exists entries, file = ZipFile entries
                  end)
  end.
Proof.
  intros Hw Hd path out. subst out.
  unfold generate_workbook, generation_steps. rewrite Hw, Hd.
  unfold _create_twbx_file, _create_twb_file, packaged_file, packaging_succeeds.
  pose proof (output_path_eq self env request) as Hp. fold path in Hp.
  destruct (output_format request) eqn:Hfmt; rewrite Hp;
    destruct (open_error env path) as [e|] eqn:Hopen; [done| |done|].
  - destruct (write_error env path workbook_xml) as [[e written]|] eqn:Hwrite.
    + right. split; [intros [_ [=]]|]. split; [done|]. eauto.
    + left. done.
  - pose proof (twbx_body_spec env path workbook_xml datasource_xml request) as Hbody.
    destruct (twbx_body env path workbook_xml datasource_xml request)
      as [[e|u] entries].
    + right. split; [intros [_ H]; by apply Hbody|]. split; [done|]. eauto.
    + left. destruct Hbody as [Hok ->]. done.
Qed.

Lemma generate_workbook_warnings self env request fs :
  gr_warnings (generate_workbook self env request fs).1 = [].
Proof.
  unfold generate_workbook.
  by destruct (generation_steps self env request fs) as [[e|[spec p]] fs'].
Qed.

(** A failed generation reports the empty path. *)
Lemma generate_workbook_failed_path self env request fs :
  success (generate_workbook self env request fs).1 = false ->
  file_path (generate_workbook self env request fs).1 = "".
Proof.
  unfold generate_workbook.
  by destruct (generation_steps self env request fs) as [[e|[spec p]] fs'].
Qed.

(** Whether [_generate_workbook_xml] returns, in terms of its steps. *)
Lemma generate_workbook_xml_char self env request workbook_xml :
  _generate_workbook_xml self env (_create_workbook_specification self env request)
    request = inr workbook_xml
  <-> exists datasource,
        recommended_visualizations (ai_analysis request) <> []
        /\ _create_datasource_element self env (dataset_schema request) = inr datasource
        /\ prettify env (workbook_element self request datasource) = inr workbook_xml.
Proof.
  split.
  - intros Hw. unfold _generate_workbook_xml in Hw.
    destruct (workbook_tree self env (_create_workbook_specification self env request)
                request) as [e|root] eqn:Htree; [discriminate|].
    assert (Hex : exists r, workbook_tree self env
                    (_create_workbook_specification self env request) request = inr r)
      by eauto.
    apply workbook_tree_success_char in Hex as [Hviz Hall].
    pose proof (create_datasource_element_char self env (dataset_schema request))
      as [Hiff _].
    apply Hiff in Hall as [ds Hds].
    pose proof (workbook_tree_built self env request ds Hds Hviz) as Hbuilt.
    rewrite Htree in Hbuilt. injection Hbuilt as ->.
    exists ds. done.
  - intros (ds & Hviz & Hds & Hw). unfold _generate_workbook_xml.
    by rewrite (workbook_tree_built self env request ds Hds Hviz).
Qed.

(** What a successful generation went through and what it leaves. *)
Lemma generate_workbook_success_inv self env request fs :
  let path := path_join env (output_directory self) (output_filename request) in
  let out := generate_workbook self env request fs in
  success out.1 = true ->
  exists datasource workbook_xml datasource_xml,
    recommended_visualizations (ai_analysis request) <> []
    /\ _create_datasource_element self env (dataset_schema request) = inr datasource
    /\ prettify env (workbook_element self request datasource) = inr workbook_xml
    /\ _generate_datasource_xml self env (dataset_schema request) = inr datasource_xml
    /\ packaging_succeeds env path request workbook_xml datasource_xml
    /\ file_path out.1 = path
    /\ workbook_spec out.1 = _create_workbook_specification self env request
    /\ out.2 = <[path := packaged_file env request workbook_xml datasource_xml]> fs.
Proof.
  intros path out Hok.
  destruct (_generate_workbook_xml self env
              (_create_workbook_specification self env request) request)
    as [e|wxml] eqn:Hw.
  { subst out. revert Hok. unfold generate_workbook, generation_steps.
    rewrite Hw. simpl. intros [=]. }
  destruct (_generate_datasource_xml self env (dataset_schema request))
    as [e|dxml] eqn:Hd.
  { subst out. revert Hok. unfold generate_workbook, generation_steps.
    rewrite Hw, Hd. simpl. intros [=]. }
  pose proof (generate_workbook_packaging self env request fs _ _ Hw Hd) as Hpack.
  cbv zeta in Hpack. fold path in Hpack. fold out in Hpack.
  apply generate_workbook_xml_char in Hw as (ds & Hviz & Hds & Hw).
  destruct (open_error env path) as [e|] eqn:Hopen.
  { destruct Hpack as (Hf & _). congruence. }
  destruct Hpack as [(Hpk & _ & Hpath & Hspec & Hfs)|(_ & Hf & _)]; [|congruence].
  exists ds, wxml, dxml. done.
Qed.

(** The conditions under which a generation succeeds are enough. *)
Lemma generate_workbook_success_intro self env request fs
    datasource workbook_xml datasource_xml :
  let path := path_join env (output_directory self) (output_filename request) in
  recommended_visualizations (ai_analysis request) <> [] ->
  _create_datasource_element self env (dataset_schema request) = inr datasource ->
  prettify env (workbook_element self request datasource) = inr workbook_xml ->
  _generate_datasource_xml self env (dataset_schema request) = inr datasource_xml ->
  packaging_succeeds env path request workbook_xml datasource_xml ->
  success (generate_workbook self env request fs).1 = true.
Proof.
  intros path Hviz Hds Hw Hd Hpk.
  assert (Hxml : _generate_workbook_xml self env
                   (_create_workbook_specification self env request) request
                 = inr workbook_xml)
    by (apply generate_workbook_xml_char; eauto).
  pose proof (generate_workbook_packaging self env request fs _ _ Hxml Hd) as Hpack.
  cbv zeta in Hpack. fold path in Hpack.
  destruct Hpk as [Hopen Hwrites]. rewrite Hopen in Hpack.
  destruct Hpack as [(_ & Hok & _)|(Hno & _)]; [exact Hok|].
  exfalso. apply Hno. by split.
Qed.

Lemma output_file_opened_dec self env request :
  output_file_opened self env request \/ ~ output_file_opened self env request.
Proof.
  unfold output_file_opened.
  destruct (_generate_workbook_xml self env _ request) as [e|wxml];
    [right; intros (w & d & [=] & _)|].
  destruct (_generate_datasource_xml self env _) as [e|dxml];
    [right; intros (w & d & _ & [=] & _)|].
  destruct (open_error env _) as [e|];
    [right; intros (w & d & _ & _ & [=])|].
  left. by exists wxml, dxml.
Qed.

(** When the output file is never opened the generation fails and the
    store is left as it was. *)
Lemma generate_workbook_unopened self env request fs :
  let path := path_join env (output_directory self) (output_filename request) in
  let out := generate_workbook self env request fs in
  ~ output_file_opened self env request ->
  success out.1 = false /\ out.2 = fs.
Proof.
  intros path out Hno. subst out. unfold generate_workbook, generation_steps.
  destruct (_generate_workbook_xml self env _ request) as [e|wxml] eqn:Hw; [done|].
  destruct (_generate_datasource_xml self env _) as [e|dxml] eqn:Hd; [done|].
  unfold _create_twbx_file, _create_twb_file.
  pose proof (output_path_eq self env request) as Hp. fold path in Hp.
  destruct (output_format request); rewrite Hp;
    (destruct (open_error env path) as [e|] eqn:Hopen; [done|]);
    exfalso; apply Hno; exists wxml, dxml; done.
Qed.

(** [generate_workbook] reports success exactly when the request has at
    least one visualization, the datasource element is built, both
    documents serialize, the output file can be opened and nothing raises
    while it is written (in "twbx" mode this includes producing the CSV
    text when sample data is asked for).  The result of a successful
    generation carries the output path and the specification, no warning,
    and the file store holds the complete packaged file at that path. *)
Theorem generate_workbook_succeeds_iff self env request fs :
  let path := path_join env (output_directory self) (output_filename request) in
  let out := generate_workbook self env request fs in
  (success out.1 = true
   <-> exists datasource workbook_xml datasource_xml,
         recommended_visualizations (ai_analysis request) <> []
         /\ _create_datasource_element self env (dataset_schema request) = inr datasource
         /\ prettify env (workbook_element self request datasource) = inr workbook_xml
         /\ _generate_datasource_xml self env (dataset_schema request)
            = inr datasource_xml
         /\ packaging_succeeds env path request workbook_xml datasource_xml)
  /\ (success out.1 = true ->
      file_path out.1 = path
      /\ workbook_spec out.1 = _create_workbook_specification self env request
      /\ gr_warnings out.1 = []
      /\ error_message out.1 = None
      /\ exists workbook_xml datasource_xml,
           _generate_workbook_xml self env (workbook_spec out.1) request
           = inr workbook_xml
           /\ _generate_datasource_xml self env (dataset_schema request)
              = inr datasource_xml
           /\ out.2 = <[path := packaged_file env request workbook_xml datasource_xml]> fs).
Proof.
  intros path out. split; [split|].
  - intros Hok.
    apply generate_workbook_success_inv in Hok
      as (ds & wxml & dxml & Hviz & Hds & Hw & Hd & Hpk & _).
    exists ds, wxml, dxml. done.
  - intros (ds & wxml & dxml & Hviz & Hds & Hw & Hd & Hpk).
    exact (generate_workbook_success_intro self env request fs ds wxml dxml
             Hviz Hds Hw Hd Hpk).
  - intros Hok.
    assert (Hmsg : error_message out.1 = None).
    { subst out. revert Hok. unfold generate_workbook.
      by destruct (generation_steps self env request fs) as [[e|[spec p]] fs']. }
    apply generate_workbook_success_inv in Hok
      as (ds & wxml & dxml & Hviz & Hds & Hw & Hd & _ & Hpath & Hspec & Hfs).
    fold out in Hpath, Hspec, Hfs.
    split; [exact Hpath|]. split; [exact Hspec|].
    split; [apply generate_workbook_warnings|]. split; [exact Hmsg|].
    exists wxml, dxml. split; [|by split].
    rewrite Hspec. apply generate_workbook_xml_char. eauto.
Qed.

(** A generation changes the file store at most at its output path, and a
    failed one reports the empty path.  The store is left as it was when
    the output file is never opened (a document does not serialize, or
    [open] raises).  Once the file is opened it is there afterwards, also
    when the generation fails: a text file left with what a failing write
    left in it; in "twbx" mode an archive, and when the CSV text cannot be
    produced after the two documents were written, an archive of exactly
    these two entries. *)
Theorem generate_workbook_frame self env request fs :
  let path := path_join env (output_directory self) (output_filename request) in
  let out := generate_workbook self env request fs in
  (forall p, p <> path -> out.2 !! p = fs !! p)
  /\ (success out.1 = false -> file_path out.1 = "")
  /\ (~ output_file_opened self env request -> success out.1 = false /\ out.2 = fs)
  /\ (output_file_opened self env request ->
      exists file,
        out.2 = <[path := file]> fs
        /\ match output_format request with
           | Twb => exists text, file = TextFile text
           | Twbx => exists entries, file = ZipFile entries
           end)
  /\ (forall workbook_xml datasource_xml e written,
        output_format request = Twb ->
        _generate_workbook_xml self env (_create_workbook_specification self env request)
          request = inr workbook_xml ->
        _generate_datasource_xml self env (dataset_schema request) = inr datasource_xml ->
        open_error env path = None ->
        write_error env path workbook_xml = Some (e, written) ->
        success out.1 = false
        /\ error_message out.1 = Some (Py.exn_str e)
        /\ out.2 = <[path := TextFile written]> fs)
  /\ (forall workbook_xml datasource_xml e,
        output_format request = Twbx ->
        include_sample_data request = true ->
        _generate_workbook_xml self env (_create_workbook_specification self env request)
          request = inr workbook_xml ->
        _generate_datasource_xml self env (dataset_schema request) = inr datasource_xml ->
        open_error env path = None ->
        writestr_error env path "workbook.twb" workbook_xml = None ->
        writestr_error env path "Data/Datasources/datasource.tds" datasource_xml = None ->
        _generate_sample_csv env (dataset_schema request) = inl e ->
        success out.1 = false
        /\ error_message out.1 = Some (Py.exn_str e)
        /\ out.2 = <[path := ZipFile [ ("workbook.twb", workbook_xml);
                                       ("Data/Datasources/datasource.tds",
                                        datasource_xml) ]]> fs).
Proof.
  intros path out.
  assert (Hopened : output_file_opened self env request ->
            exists file,
              out.2 = <[path := file]> fs
              /\ match output_format request with
                 | Twb => exists text, file = TextFile text
                 | Twbx => exists entries, file = ZipFile entries
                 end).
  { intros (wxml & dxml & Hw & Hd & Hopen).
    pose proof (generate_workbook_packaging self env request fs _ _ Hw Hd) as Hpack.
    cbv zeta in Hpack. fold path in Hpack, Hopen. fold out in Hpack.
    rewrite Hopen in Hpack.
    destruct Hpack as [(_ & _ & _ & _ & Hfs)|(_ & _ & Hfile)]; [|exact Hfile].
    eexists. split; [exact Hfs|]. unfold packaged_file.
    destruct (output_format request); eauto. }
  split; [|split; [|split; [|split; [|split]]]].
  - intros p Hp.
    destruct (output_file_opened_dec self env request) as [Hyes|Hno].
    + destruct (Hopened Hyes) as (file & -> & _). by apply lookup_insert_ne.
    + pose proof (generate_workbook_unopened self env request fs Hno) as [_ Hfs].
      fold out in Hfs. by rewrite Hfs.
  - apply generate_workbook_failed_path.
  - apply generate_workbook_unopened.
  - exact Hopened.
  - intros wxml dxml e written Hfmt Hw Hd Hopen Hwrite. subst out.
    unfold generate_workbook, generation_steps. rewrite Hw, Hd, Hfmt.
    unfold _create_twb_file.
    pose proof (output_path_eq self env request) as Hp. fold path in Hp.
    rewrite Hfmt in Hp. rewrite Hp, Hopen, Hwrite. done.
  - intros wxml dxml e Hfmt Hinc Hw Hd Hopen H1 H2 Hcsv. subst out.
    unfold generate_workbook, generation_steps. rewrite Hw, Hd, Hfmt.
    unfold _create_twbx_file.
    pose proof (output_path_eq self env request) as Hp. fold path in Hp.
    rewrite Hfmt in Hp. rewrite Hp, Hopen.
    rewrite (twbx_body_csv_raises env path wxml dxml request e Hinc H1 H2 Hcsv).
    done.
Qed.

(** In "twb" mode the [include_sample_data] flag changes nothing: the
    result and the file system are the same whatever the flag. *)
Theorem twb_ignores_sample_data self env request fs (flag : bool) :
  output_format request = Twb ->
  generate_workbook self env (with_sample_data flag request) fs
  = generate_workbook self env request fs.
Proof.
  intros Hfmt.
  unfold generate_workbook, generation_steps. cbn [output_format with_sample_data].
  rewrite Hfmt. reflexivity.
Qed.

Lemma twb_ignores_sample_data_witness :
  let request := Samples.sample_request [] [Samples.sample_viz None] Twb true in
  generate_workbook Samples.sample_self Samples.sample_env
    (with_sample_data false request) ∅
  = generate_workbook Samples.sample_self Samples.sample_env request ∅.
Proof.
  intros request.
  exact (twb_ignores_sample_data Samples.sample_self Samples.sample_env request ∅ false
           eq_refl).
Defined.

(** The output path depends on the dataset name and the format only, so a
    second successful generation for the same dataset name and format
    replaces the file of the first. *)
Theorem same_dataset_overwrites self env request1 request2 fs :
  ds_name (dataset_schema request1) = ds_name (dataset_schema request2) ->
  output_format request1 = output_format request2 ->
  let out1 := generate_workbook self env request1 fs in
  let out2 := generate_workbook self env request2 out1.2 in
  success out1.1 = true ->
  success out2.1 = true ->
  file_path out2.1 = file_path out1.1
  /\ exists workbook_xml datasource_xml,
       _generate_workbook_xml self env (workbook_spec out2.1) request2 = inr workbook_xml
       /\ _generate_datasource_xml self env (dataset_schema request2) = inr datasource_xml
       /\ out2.2 !! file_path out1.1
          = Some (packaged_file env request2 workbook_xml datasource_xml)
       /\ forall p, p <> file_path out1.1 -> out2.2 !! p = fs !! p.
Proof.
  intros Hname Hfmt out1 out2 H1 H2.
  apply generate_workbook_success_inv in H1
    as (ds1 & w1 & d1 & _ & _ & _ & _ & _ & Hp1 & _ & Hfs1).
  apply generate_workbook_success_inv in H2
    as (ds2 & w2 & d2 & Hviz2 & Hds2 & Hw2 & Hd2 & _ & Hp2 & Hspec2 & Hfs2).
  fold out1 in Hp1, Hfs1. fold out2 in Hp2, Hspec2, Hfs2.
  assert (Hsame : output_filename request2 = output_filename request1).
  { unfold output_filename. by rewrite Hname, Hfmt. }
  rewrite Hsame in Hp2, Hfs2.
  split; [congruence|].
  exists w2, d2. split.
  { rewrite Hspec2. unfold _generate_workbook_xml.
    rewrite (workbook_tree_built self env request2 ds2 Hds2 Hviz2). exact Hw2. }
  split; [exact Hd2|]. rewrite Hp1. split.
  - rewrite Hfs2. apply lookup_insert_eq.
  - intros p Hp. rewrite Hfs2, Hfs1. by rewrite !lookup_insert_ne.
Qed.

Lemma same_dataset_overwrites_witness :
  let request1 := Samples.sample_request [] [Samples.sample_viz None] Twbx false in
  let request2 := Samples.sample_request [] [Samples.sample_viz None] Twbx true in
  let out1 := generate_workbook Samples.sample_self Samples.sample_env request1 ∅ in
  let out2 := generate_workbook Samples.sample_self Samples.sample_env request2 out1.2 in
  file_path out2.1 = "data/outputs/Sales_Dashboard.twbx"
  /\ file_path out1.1 = "data/outputs/Sales_Dashboard.twbx"
  /\ exists entries,
       out1.2 !! "data/outputs/Sales_Dashboard.twbx" = Some (ZipFile entries)
       /\ length entries = 2%nat
  /\ exists entries,
       out2.2 !! "data/outputs/Sales_Dashboard.twbx" = Some (ZipFile entries)
       /\ length entries = 3%nat.
Proof.
  intros request1 request2 out1 out2.
  destruct (same_dataset_overwrites Samples.sample_self Samples.sample_env
              request1 request2 ∅ eq_refl eq_refl eq_refl eq_refl)
    as (Hpath & _).
  split; [exact Hpath|]. split; [reflexivity|].
  eexists. split; [reflexivity|]. split; [reflexivity|].
  eexists. split; reflexivity.
Defined.

(** The standalone datasource document holds the file connection only: it
    is the serialization of a [datasource] element without text, with one
    [connection] child and nothing else; the connection has no text and no
    child.  The document is the same for two schemas with the same name
    whatever their columns and calculated fields. *)
Theorem datasource_document_connection_only self env (s1 s2 : DatasetSchema) :
  (exists tree connection,
      _generate_datasource_xml self env s1 = prettify env tree
      /\ ET.tag tree = "datasource"
      /\ ET.text tree = None
      /\ ET.attrib tree
         = [ ("formatted-name", ds_name s1); ("inline", "true");
             ("source-platform", "win"); ("version", "18.1") ]
      /\ ET.children tree = [connection]
      /\ ET.tag connection = "connection"
      /\ ET.text connection = None
      /\ ET.attrib connection
         = [ ("class", "textscan"); ("directory", output_directory self);
             ("filename", ds_name s1 +:+ ".csv") ]
      /\ ET.children connection = [])
  /\ (ds_name s1 = ds_name s2 ->
      _generate_datasource_xml self env s1 = _generate_datasource_xml self env s2).
Proof.
  split.
  - do 2 eexists. split; [reflexivity|]. repeat split.
  - intros Hname. unfold _generate_datasource_xml. by rewrite Hname.
Qed.

(** *** Identifiers *)

Lemma to_upper_not_lower c : Py.is_lower (Py.to_upper c) = false.
Proof. by destruct c as [[] [] [] [] [] [] [] []]. Qed.

Lemma to_upper_hex c :
  is_hex_lower c = true ->
  is_hex_upper (Py.to_upper c) = true /\ Ascii.eqb (Py.to_upper c) "-" = false.
Proof. by destruct c as [[] [] [] [] [] [] [] []]. Qed.

Lemma generate_id_chars (s : string) (n : nat) :
  Forall (fun c => c <> "-"%char /\ Py.is_lower c = false)
         (list_ascii_of_string (Py.prefix_n n (Py.remove_char "-" (Py.upper s)))).
Proof.
  revert n. induction s as [|c s IH]; intros n.
  - destruct n; constructor.
  - simpl. destruct (Ascii.eqb (Py.to_upper c) "-") eqn:E; [apply IH|].
    destruct n as [|n]; [constructor|]. simpl. constructor; [|apply IH].
    split; [|apply to_upper_not_lower].
    intros Heq. rewrite Heq in E. discriminate.
Qed.

Lemma generate_id_length (s : string) (n : nat) :
  (String.length (Py.prefix_n n (Py.remove_char "-" (Py.upper s))) <= n)%nat.
Proof.
  revert n. induction s as [|c s IH]; intros n.
  - destruct n; simpl; lia.
  - simpl. destruct (Ascii.eqb (Py.to_upper c) "-"); [apply IH|].
    destruct n as [|n]; simpl; [lia|]. specialize (IH n). lia.
Qed.

Lemma generate_id_hex (s : string) (n : nat) :
  starts_with_hex n s = true ->
  Py.prefix_n n (Py.remove_char "-" (Py.upper s)) = Py.upper (Py.prefix_n n s)
  /\ String.length (Py.prefix_n n s) = n
  /\ Forall (fun c => is_hex_upper c = true)
            (list_ascii_of_string (Py.upper (Py.prefix_n n s))).
Proof.
  revert s. induction n as [|n IH]; intros s H.
  - simpl. destruct s; simpl; repeat split; constructor.
  - destruct s as [|c s]; [discriminate|]. simpl in H.
    apply andb_true_iff in H as [Hc Hs].
    destruct (to_upper_hex c Hc) as [Hu Hd].
    destruct (IH s Hs) as (H1 & H2 & H3).
    simpl. rewrite Hd. simpl. rewrite H1, H2.
    repeat split. by constructor.
Qed.

(** The generated id has at most 8 characters, none of them a hyphen or a
    lower-case letter; when the uuid text starts with 8 hexadecimal digits,
    as a printed UUID does, the id is exactly those 8 digits in upper
    case. *)
Theorem generate_id_token (env : Env) :
  let id := _generate_id env in
  (String.length id <= 8)%nat
  /\ Forall (fun c => c <> "-"%char /\ Py.is_lower c = false) (list_ascii_of_string id)
  /\ (starts_with_hex 8 (uuid4 env) = true ->
      id = Py.upper (Py.prefix_n 8 (uuid4 env))
      /\ String.length id = 8%nat
      /\ Forall (fun c => is_hex_upper c = true) (list_ascii_of_string id)).
Proof.
  intros id. subst id. unfold _generate_id.
  split; [apply generate_id_length|]. split; [apply generate_id_chars|].
  intros H. destruct (generate_id_hex _ _ H) as (H1 & H2 & H3).
  rewrite H1. split; [done|]. split; [|done].
  clear -H2. revert H2. generalize (Py.prefix_n 8 (uuid4 env)).
  intros s. revert s. generalize 8%nat. intros n s. revert n.
  induction s; intros n H; simpl in *; [done|]. destruct n; [done|].
  f_equal. apply IHs. lia.
Qed.

(** *** Sample data *)

(** The rows of the sample CSV: the header holds the column names in schema
    order; below it there are min(100, total_rows) rows, none when
    [total_rows] is not positive; every row has one cell per column. *)
Theorem sample_rows_shape (env : Env) (dataset_schema : DatasetSchema) :
  let rows := sample_rows env dataset_schema in
  head rows = Some ((fun col => PyStr (col_name col)) <$> columns dataset_schema)
  /\ length rows = S (Z.to_nat (Z.min 100 (total_rows dataset_schema)))
  /\ (total_rows dataset_schema <= 0 -> length rows = 1%nat)
  /\ (100 <= total_rows dataset_schema -> length rows = 101%nat)
  /\ Forall (fun row => length row = length (columns dataset_schema)) rows.
Proof.
  intros rows. subst rows.
  split; [reflexivity|].
  assert (Hlen : length (sample_rows env dataset_schema)
                 = S (Z.to_nat (Z.min 100 (total_rows dataset_schema)))).
  { unfold sample_rows. simpl. by rewrite length_map, length_seqZ. }
  split; [apply Hlen|]. split; [|split].
  - intros H. rewrite Hlen. f_equal. lia.
  - intros H. rewrite Hlen. f_equal. lia.
  - unfold sample_rows. constructor; [by rewrite length_map|].
    apply Forall_forall. intros row Hin.
    apply list_elem_of_fmap in Hin as (i & -> & _). by rewrite length_imap.
Qed.

(** The cell of data row [i] under column [j]: when the column has recorded
    sample values, the value at position [i mod len(sample_values)], so the
    samples repeat cyclically; when it has none, the synthetic value for
    the column and the row index. *)
Theorem sample_rows_cell (env : Env) (dataset_schema : DatasetSchema)
    (i : Z) (j : nat) (col : DataColumn) :
  0 <= i < Z.min 100 (total_rows dataset_schema) ->
  columns dataset_schema !! j = Some col ->
  exists row cell,
    sample_rows env dataset_schema !! S (Z.to_nat i) = Some row
    /\ row !! j = Some cell
    /\ (sample_values col = [] ->
        cell = _generate_synthetic_value env col i (Z.to_nat i, j))
    /\ (sample_values col <> [] ->
        sample_values col !! (Z.to_nat i mod length (sample_values col))%nat
        = Some cell).
Proof.
  intros Hi Hj. unfold sample_rows.
  exists (imap (fun j col =>
                  match sample_values col with
                  | [] => _generate_synthetic_value env col i (Z.to_nat i, j)
                  | _ :: _ =>
                      default PyNone
                        (sample_values col !! Z.to_nat (i mod Py.len (sample_values col)))
                  end) (columns dataset_schema)).
  exists (match sample_values col with
          | [] => _generate_synthetic_value env col i (Z.to_nat i, j)
          | _ :: _ =>
              default PyNone
                (sample_values col !! Z.to_nat (i mod Py.len (sample_values col)))
          end).
  split.
  { simpl. rewrite list_lookup_fmap, lookup_seqZ_lt by lia. simpl.
    rewrite Z2Nat.id by lia. reflexivity. }
  split.
  { rewrite list_lookup_imap, Hj. reflexivity. }
  split.
  - intros Hnil. by rewrite Hnil.
  - intros Hne. destruct (sample_values col) as [|v vs] eqn:Hs; [done|].
    set (samples := v :: vs) in *.
    assert (Hpos : 0 < Py.len samples) by (unfold Py.len; simpl; lia).
    assert (Hidx : Z.to_nat (i mod Py.len samples)
                   = (Z.to_nat i mod length samples)%nat).
    { unfold Py.len. rewrite <- (Z2Nat.id i) at 1 by lia.
      rewrite <- Nat2Z.inj_mod. apply Nat2Z.id. }
    rewrite <- Hidx.
    destruct (samples !! Z.to_nat (i mod Py.len samples)) as [cell|] eqn:Hc;
      [reflexivity|].
    apply lookup_ge_None in Hc.
    pose proof (Z.mod_pos_bound i (Py.len samples) Hpos). unfold Py.len in *. lia.
Qed.

Lemma sample_rows_cell_witness :
  exists row,
    sample_rows Samples.sample_env (Samples.sample_schema []) !! 2%nat = Some row
    /\ row = [PyInt 20; PyStr "Category A"].
Proof.
  destruct (sample_rows_cell Samples.sample_env (Samples.sample_schema []) 1 0
              Samples.sample_column ltac:(vm_compute; split; congruence) eq_refl)
    as (row & cell & Hrow & _).
  exists row. split; [exact Hrow|].
  vm_compute in Hrow. by injection Hrow as <-.
Defined.

(** ** Properties of the data model *)

(** *** Declared ranges *)

Lemma check_float_range_iff field (v : Q) :
  (exists q, check_float_range field (0 # 1) (1 # 1) v = inr q)
  <-> Qle (0 # 1) v /\ Qle v (1 # 1).
Proof.
  unfold check_float_range. rewrite <- !Qle_bool_iff.
  destruct (Qle_bool (0 # 1) v), (Qle_bool v (1 # 1)); simpl; split;
    try (by intros [? [=]]); try (by intros [[=] ?]); try (by intros [? [=]]); eauto.
Qed.

(** Construction enforces the declared ranges and nothing else: a
    [KPISpecification] is built exactly when the priority (1 when left out)
    lies in 1..5, an [AIRecommendation] exactly when the confidence score
    lies in [0, 1], a [DashboardLayout] exactly when rows and columns (2
    when left out) are at least 1; the value built stores the checked
    numbers. *)
Theorem construction_ranges :
  (forall name description calc target fmt (prio : option Z),
      (exists k, KPISpecification_init name description calc target fmt prio = inr k)
      <-> 1 <= default 1 prio <= 5)
  /\ (forall name description calc target fmt prio k,
         KPISpecification_init name description calc target fmt prio = inr k ->
         1 <= Schemas.priority k <= 5)
  /\ (forall score reasoning alternatives,
         (exists r, AIRecommendation_init score reasoning alternatives = inr r)
         <-> Qle (0 # 1) score /\ Qle score (1 # 1))
  /\ (forall kind (nrows ncols : option Z) positions,
         (exists l, DashboardLayout_init kind nrows ncols positions = inr l)
         <-> 1 <= default 2 nrows /\ 1 <= default 2 ncols)
  /\ exists l, DashboardLayout_init None None None None = inr l
               /\ l = DashboardLayout_default.
Proof.
  split; [|split; [|split; [|split]]].
  - intros. unfold KPISpecification_init, check_int_range.
    destruct (Z.leb_spec 1 (default 1 prio)), (Z.leb_spec (default 1 prio) 5);
      simpl; split; try (by intros [? [=]]); try lia; eauto.
  - intros * H. unfold KPISpecification_init, check_int_range in H.
    destruct (Z.leb_spec 1 (default 1 prio)), (Z.leb_spec (default 1 prio) 5);
      simpl in H; try discriminate. injection H as <-. simpl. lia.
  - intros. unfold AIRecommendation_init.
    rewrite <- (check_float_range_iff "confidence_score").
    destruct (check_float_range _ _ _ score) as [e|q]; simpl; split;
      try (by intros [? [=]]); eauto.
  - intros. unfold DashboardLayout_init, check_int_ge.
    destruct (Z.leb_spec 1 (default 2 nrows)), (Z.leb_spec 1 (default 2 ncols));
      simpl; split; try (by intros [? [=]]); try lia; eauto.
  - eexists. split; reflexivity.
Qed.

(** *** Schema inference *)

Lemma coerce_all_models (calcs : list CalcField) (specs : list CalculatedFieldSpec) :
  Py.for_each coerce_calc_field calcs = inr specs -> length specs = length calcs.
Proof. intros H. apply for_each_inv, Forall2_length in H. done. Qed.

Lemma for_each_fmap {A B C} (f : B -> Py.result C) (h : A -> B) (xs : list A) :
  Py.for_each f (h <$> xs) = Py.for_each (fun x => f (h x)) xs.
Proof. induction xs as [|x xs IH]; [done|]. simpl. by rewrite <- IH. Qed.

Lemma for_each_returns_each {A B} (f : A -> Py.result B) (xs : list A) (ys : list B) :
  Py.for_each f xs = inr ys -> forall x, x ∈ xs -> exists y, f x = inr y.
Proof.
  intros H. apply for_each_inv in H.
  induction H as [|x y xs ys Hx _ IH]; intros x' Hin.
  - by apply elem_of_nil in Hin.
  - apply elem_of_cons in Hin as [->|Hin]; eauto.
Qed.


(** *** Columns looked up by label *)

Lemma filter_label_absent (cols : list Series) (name : string) :
  name ∉ series_name <$> cols ->
  filter (fun col_data => series_name col_data = name) cols = [].
Proof.
  induction cols as [|c cs IH]; intros Hn; [done|].
  rewrite fmap_cons in Hn. apply not_elem_of_cons in Hn as [Hne Hn].
  rewrite filter_cons_False by congruence. by apply IH.
Qed.

Lemma filter_label_unique (cols : list Series) (col_data : Series) :
  NoDup (series_name <$> cols) -> col_data ∈ cols ->
  filter (fun c => series_name c = series_name col_data) cols = [col_data].
Proof.
  induction cols as [|c cs IH]; intros Hnd Hin; [by apply elem_of_nil in Hin|].
  rewrite fmap_cons in Hnd. apply NoDup_cons in Hnd as [Hnotin Hnd].
  apply elem_of_cons in Hin as [->|Hin].
  - rewrite filter_cons_True by done. f_equal. by apply filter_label_absent.
  - rewrite filter_cons_False; [by apply IH|].
    intros Heq. apply Hnotin. rewrite Heq. apply list_elem_of_fmap. eauto.
Qed.

Lemma labels_distinct_of_singletons (cols : list Series) :
  (forall c, c ∈ cols ->
     exists s, filter (fun col_data => series_name col_data = series_name c) cols = [s]) ->
  NoDup (series_name <$> cols).
Proof.
  induction cols as [|c cs IH]; intros H; [constructor|].
  rewrite fmap_cons. apply NoDup_cons. split.
  - destruct (H c ltac:(left)) as [s Hs].
    rewrite filter_cons_True in Hs by done. injection Hs as _ Hs.
    intros Hin. apply list_elem_of_fmap in Hin as (c' & Hname & Hin').
    assert (Hc' : c' ∈ filter (fun col_data => series_name col_data = series_name c) cs)
      by (apply list_elem_of_filter; done).
    rewrite Hs in Hc'. by apply elem_of_nil in Hc'.
  - apply IH. intros c' Hin'. destruct (H c' ltac:(by right)) as [s Hs].
    destruct (decide (series_name c = series_name c')) as [Heq|Hne].
    + rewrite filter_cons_True in Hs by done. injection Hs as _ Hs.
      assert (Hc' : c' ∈ filter (fun col_data => series_name col_data = series_name c') cs)
        by (apply list_elem_of_filter; done).
      rewrite Hs in Hc'. by apply elem_of_nil in Hc'.
    + rewrite filter_cons_False in Hs by done. eauto.
Qed.

(** With labels that differ from one another the loop reads every column. *)
Lemma infer_loop_distinct exceeds_08 (df : DataFrame) :
  NoDup (column_labels df) ->
  Py.for_each (infer_labelled exceeds_08 df) (column_labels df)
  = inr (map (infer_column exceeds_08 df) (df_columns df)).
Proof.
  intros Hnd. unfold column_labels. rewrite for_each_fmap.
  apply (for_each_ok _ (infer_column exceeds_08 df)).
  intros c Hin. unfold infer_labelled, getitem.
  by rewrite (filter_label_unique _ _ Hnd Hin).
Qed.

(** The loop returns only for labels that differ from one another. *)
Lemma infer_loop_returns_distinct exceeds_08 (df : DataFrame) columns :
  Py.for_each (infer_labelled exceeds_08 df) (column_labels df) = inr columns ->
  NoDup (column_labels df).
Proof.
  intros H. apply labels_distinct_of_singletons. intros c Hin.
  destruct (for_each_returns_each _ _ _ H (series_name c)) as [y Hy].
  { apply list_elem_of_fmap. eauto. }
  unfold infer_labelled, getitem in Hy.
  destruct (filter _ (df_columns df)) as [|a [|b l]]; try discriminate. eauto.
Qed.

Lemma infer_loop_inv exceeds_08 (df : DataFrame) columns :
  Py.for_each (infer_labelled exceeds_08 df) (column_labels df) = inr columns ->
  columns = map (infer_column exceeds_08 df) (df_columns df).
Proof.
  intros H. pose proof (infer_loop_returns_distinct _ _ _ H) as Hnd.
  rewrite (infer_loop_distinct exceeds_08 df Hnd) in H. by injection H as <-.
Qed.


Lemma validate_dataframe_schema_inv exceeds_08 now df calcs schema :
  validate_dataframe_schema exceeds_08 now df calcs = inr schema ->
  exists specs,
    Py.for_each coerce_calc_field (default [] calcs) = inr specs
    /\ schema
       = {| ds_name := "uploaded_dataset";
            total_rows := df_len df;
            total_columns := Py.len (df_columns df);
            columns := map (infer_column exceeds_08 df) (df_columns df);
            data_quality_score := data_quality_score schema;
            business_context := None;
            ds_created_at := now;
            calculated_fields := CalcModel <$> specs |}.
Proof.
  unfold validate_dataframe_schema, DatasetSchema_init.
  destruct (Py.for_each (infer_labelled exceeds_08 df) (column_labels df))
    as [e|cols] eqn:Hloop; cbn [Py.bind]; [intros [=]|].
  apply infer_loop_inv in Hloop as ->.
  destruct (check_float_range _ _ _ _) as [e|score];
    cbn [Py.bind default from_option id]; [intros [=]|].
  destruct (Py.for_each coerce_calc_field (default [] calcs)) as [e|specs];
    cbn [Py.bind Py.ret]; [intros [=]|].
  intros [= <-]. eexists. split; reflexivity.
Qed.

(** A schema inferred from a frame is named "uploaded_dataset", counts the
    rows and the columns of the frame, and keeps the column names in frame
    order.  Each of its columns has a data type other than date, carries
    statistics exactly when its type is integer or float, and has role
    measure when numeric and dimension otherwise (never attribute, never
    none); its calculated fields are [CalculatedFieldSpec] instances, as
    many as were given. *)
Theorem validate_dataframe_schema_invariants exceeds_08 now df calcs schema :
  validate_dataframe_schema exceeds_08 now df calcs = inr schema ->
  ds_name schema = "uploaded_dataset"
  /\ total_rows schema = df_len df
  /\ total_columns schema = Py.len (columns schema)
  /\ col_name <$> columns schema = series_name <$> df_columns df
  /\ Forall (fun column =>
               col_data_type column <> DATE
               /\ (is_Some (statistics column) <-> is_numeric (col_data_type column) = true)
               /\ recommended_role column
                  = Some (if is_numeric (col_data_type column)
                          then RoleMeasure else RoleDimension))
            (columns schema)
  /\ declared_calculated_fields schema
  /\ length (calculated_fields schema) = length (default [] calcs).
Proof.
  intros H. apply validate_dataframe_schema_inv in H as (specs & Hspecs & ->).
  cbn [ds_name total_rows total_columns columns calculated_fields].
  split; [done|]. split; [done|].
  split; [unfold Py.len; by rewrite length_map|].
  split; [rewrite <- list_fmap_compose; by apply list_fmap_ext|].
  split; [|split].
  - apply Forall_forall. intros column Hin.
    apply list_elem_of_fmap in Hin as (col_data & -> & _).
    unfold infer_column. cbn [col_data_type statistics recommended_role].
    split; [|split; [|done]].
    + unfold infer_data_type.
      destruct (dtype col_data); try discriminate.
      destruct (nunique col_data <? 50); discriminate.
    + destruct (is_numeric (infer_data_type col_data)); split; done.
  - unfold declared_calculated_fields. cbn [calculated_fields].
    apply Forall_fmap, Forall_forall. intros spec _. by exists spec.
  - rewrite length_fmap. by apply coerce_all_models.
Qed.

Lemma validate_dataframe_schema_invariants_witness :
  let df :=
    {| df_len := 4;
       df_columns :=
         [ {| series_name := "Amount"; dtype := FloatDtype; nunique := 4;
              isna_sum := 1; isna_all := false; dropna_head5 := [PyInt 1];
              series_mean := 5 # 2; series_std := 1 # 1; series_min := 1 # 1;
              series_max := 4 # 1 |};
           {| series_name := "Region"; dtype := ObjectDtype; nunique := 2;
              isna_sum := 0; isna_all := false; dropna_head5 := [PyStr "N"];
              series_mean := 0 # 1; series_std := 0 # 1; series_min := 0 # 1;
              series_max := 0 # 1 |} ] |} in
  exists schema,
    validate_dataframe_schema (fun u n => Z.ltb (4 * n) (5 * u)) 0 df None = inr schema
    /\ col_name <$> columns schema = ["Amount"; "Region"]
    /\ col_data_type <$> columns schema = [FLOAT; CATEGORICAL]
    /\ total_columns schema = 2.
Proof.
  intros df.
  assert (H : exists schema,
             validate_dataframe_schema (fun u n => Z.ltb (4 * n) (5 * u)) 0 df None
             = inr schema) by (eexists; reflexivity).
  destruct H as [schema H]. exists schema. split; [exact H|].
  destruct (validate_dataframe_schema_invariants _ _ _ _ _ H)
    as (_ & _ & Hc & Hn & _).
  split; [exact Hn|].
  apply validate_dataframe_schema_inv in H as (specs & _ & ->).
  split; reflexivity.
Defined.





Lemma generate_workbook_model_fails self env request fs spec rest :
  calculated_fields (dataset_schema request) = CalcModel spec :: rest ->
  let r := (generate_workbook self env request fs).1 in
  success r = false
  /\ error_message r = Some "'CalculatedFieldSpec' object is not subscriptable".
Proof.
  intros Hcalc.
  pose proof (metadata_records_model_raises _ _ _ Hcalc) as Hrec.
  assert (Hds : _create_datasource_element self env (dataset_schema request)
                = inl (Py.TypeError "'CalculatedFieldSpec' object is not subscriptable")).
  { unfold _create_datasource_element. by rewrite Hrec. }
  unfold generate_workbook, generation_steps, _generate_workbook_xml, workbook_tree.
  rewrite Hds. simpl. done.
Qed.

(** Whatever is given for [calculated_fields] when a [DatasetSchema] is
    constructed, instances or dicts, the constructed schema holds
    [CalculatedFieldSpec] instances; so a generation from a constructed
    schema with at least one calculated field always fails with the
    "not subscriptable" message. *)
Theorem constructed_schema_with_calculated_fields_fails self env fs request
    now name rows ncols cols score context (calcs : list CalcField) schema :
  DatasetSchema_init now name rows ncols cols score context (Some calcs) = inr schema ->
  calcs <> [] ->
  dataset_schema request = schema ->
  let r := (generate_workbook self env request fs).1 in
  declared_calculated_fields schema
  /\ length (calculated_fields schema) = length calcs
  /\ success r = false
  /\ error_message r = Some "'CalculatedFieldSpec' object is not subscriptable".
Proof.
  intros Hinit Hne Hreq r. subst r.
  unfold DatasetSchema_init in Hinit.
  destruct (check_float_range _ _ _ score) as [e|q]; [discriminate|].
  cbn [Py.bind default from_option id] in Hinit.
  destruct (Py.for_each coerce_calc_field calcs) as [e|specs] eqn:Hspecs;
    [discriminate|].
  cbn [Py.bind Py.ret] in Hinit. injection Hinit as <-.
  pose proof (coerce_all_models _ _ Hspecs) as Hlen.
  split.
  { unfold declared_calculated_fields. cbn [calculated_fields].
    apply Forall_fmap, Forall_forall. intros spec _. by exists spec. }
  split; [cbn [calculated_fields]; by rewrite length_fmap|].
  destruct specs as [|spec specs]; [destruct calcs; [done|discriminate]|].
  apply (generate_workbook_model_fails self env request fs spec (CalcModel <$> specs)).
  by rewrite Hreq.
Qed.

Lemma constructed_schema_with_calculated_fields_fails_witness :
  exists schema,
    DatasetSchema_init 0 "Sales" 3 2 [Samples.sample_column; Samples.sample_region]
      (1 # 1) None (Some [CalcDict Samples.sample_calc_dict]) = inr schema
    /\ calculated_fields schema = [CalcModel Samples.sample_calc_spec]
    /\ let request :=
         {| dataset_schema := schema;
            ai_analysis := Samples.sample_analysis [Samples.sample_viz None];
            user_preferences := ∅;
            output_format := Twb;
            include_sample_data := false |} in
       let r := (generate_workbook Samples.sample_self Samples.sample_env request ∅).1 in
       success r = false
       /\ error_message r = Some "'CalculatedFieldSpec' object is not subscriptable".
Proof.
  eexists. split; [reflexivity|]. split; [reflexivity|].
  intros request.
  destruct (constructed_schema_with_calculated_fields_fails
              Samples.sample_self Samples.sample_env ∅ request
              0 "Sales" 3 2 [Samples.sample_column; Samples.sample_region]
              (1 # 1) None [CalcDict Samples.sample_calc_dict] _
              eq_refl ltac:(discriminate) eq_refl) as (_ & _ & H3 & H4).
  split; [exact H3 | exact H4].
Defined.

(** The columns of an inferred schema are serialized consistently: a
    numeric column gets remote type "integer" or "real", aggregation "Sum"
    and a "quantitative" column instance; every other column gets remote
    type "datetime", "boolean" or "string", aggregation "Count" and a
    "nominal" column instance. *)
Theorem inferred_columns_serialized exceeds_08 now df calcs schema :
  validate_dataframe_schema exceeds_08 now df calcs = inr schema ->
  Forall (fun column =>
            forall ordinal,
              let record := _add_column_metadata column ordinal in
              (findtext record "remote-type" ∈ [Some "integer"; Some "real"]
               /\ findtext record "aggregation" = Some "Sum"
               /\ ET.get (column_instance column) "type" = Some "quantitative")
              \/ (findtext record "remote-type"
                    ∈ [Some "datetime"; Some "boolean"; Some "string"]
                  /\ findtext record "aggregation" = Some "Count"
                  /\ ET.get (column_instance column) "type" = Some "nominal"))
         (columns schema).
Proof.
  intros H. apply validate_dataframe_schema_inv in H as (specs & _ & ->).
  cbn [columns]. apply Forall_forall. intros column Hin ordinal.
  apply list_elem_of_fmap in Hin as (col_data & -> & _).
  unfold infer_column, infer_data_type.
  destruct (dtype col_data); [left|left|right|right| |right];
    try (split; [|split; reflexivity]; set_solver).
  destruct (nunique col_data <? 50); right;
    (split; [|split; reflexivity]; set_solver).
Qed.

Lemma inferred_columns_serialized_witness :
  let df :=
    {| df_len := 2;
       df_columns :=
         [ {| series_name := "Units"; dtype := IntegerDtype; nunique := 2;
              isna_sum := 0; isna_all := false; dropna_head5 := [PyInt 3; PyInt 4];
              series_mean := 7 # 2; series_std := 1 # 2; series_min := 3 # 1;
              series_max := 4 # 1 |} ] |} in
  exists schema,
    validate_dataframe_schema (fun u n => Z.ltb (4 * n) (5 * u)) 0 df None = inr schema
    /\ Forall (fun column =>
                 forall ordinal,
                   let record := _add_column_metadata column ordinal in
                   (findtext record "remote-type" ∈ [Some "integer"; Some "real"]
                    /\ findtext record "aggregation" = Some "Sum"
                    /\ ET.get (column_instance column) "type" = Some "quantitative")
                   \/ (findtext record "remote-type"
                         ∈ [Some "datetime"; Some "boolean"; Some "string"]
                       /\ findtext record "aggregation" = Some "Count"
                       /\ ET.get (column_instance column) "type" = Some "nominal"))
              (columns schema).
Proof.
  intros df.
  assert (H : exists schema,
             validate_dataframe_schema (fun u n => Z.ltb (4 * n) (5 * u)) 0 df None
             = inr schema) by (eexists; reflexivity).
  destruct H as [schema H]. exists schema. split; [exact H|].
  exact (inferred_columns_serialized _ _ _ _ _ H).
Defined.

(** *** References between the elements of the workbook *)

(** In a workbook tree, every worksheet refers to the datasource that the
    tree holds: the reference under worksheet/table/view/datasources
    carries the caption (the dataset name) and the name ("federated."
    followed by the generated id) of the one datasource element under
    datasources. *)
Theorem worksheets_reference_datasource self env request root :
  workbook_tree self env (_create_workbook_specification self env request) request
  = inr root ->
  exists datasource worksheets_el,
    (find_child root "datasources" ≫= fun d => find_child d "datasource")
    = Some datasource
    /\ ET.get datasource "caption" = Some (ds_name (dataset_schema request))
    /\ ET.get datasource "name" = Some ("federated." +:+ _generate_id env)
    /\ find_child root "worksheets" = Some worksheets_el
    /\ length (ET.children worksheets_el)
       = length (recommended_visualizations (ai_analysis request))
    /\ Forall (fun worksheet =>
                 (find_child worksheet "table" ≫= fun t =>
                  find_child t "view" ≫= fun v =>
                  find_child v "datasources" ≫= fun d =>
                  ET.attrib <$> find_child d "datasource")
                 = Some [ ("caption", ds_name (dataset_schema request));
                          ("name", "federated." +:+ _generate_id env) ])
              (ET.children worksheets_el).
Proof.
  intros H.
  assert (Hsucc : exists r, workbook_tree self env
                              (_create_workbook_specification self env request) request
                            = inr r) by eauto.
  apply workbook_tree_success_char in Hsucc as [Hviz Hall].
  pose proof (create_datasource_element_char self env (dataset_schema request))
    as [Hiff Hshape].
  apply Hiff in Hall as [ds Hds].
  rewrite (workbook_tree_built self env request ds Hds Hviz) in H.
  injection H as <-.
  destruct (Hshape ds Hds) as (Htag & Hattr & _).
  destruct ds as [t a tx ch]. simpl in Htag, Hattr. subst t a.
  eexists. eexists.
  split; [reflexivity|]. split; [reflexivity|]. split; [reflexivity|].
  split; [reflexivity|].
  split; [cbn [ET.children]; by rewrite length_fmap, sheets_length|].
  cbn [ET.children]. apply Forall_fmap, Forall_forall. intros worksheet _.
  reflexivity.
Qed.

Lemma worksheets_reference_datasource_witness :
  let request :=
    Samples.sample_request [] [Samples.sample_viz None; Samples.sample_viz None] Twb false in
  exists root datasource worksheets_el,
    workbook_tree Samples.sample_self Samples.sample_env
      (_create_workbook_specification Samples.sample_self Samples.sample_env request)
      request = inr root
    /\ ET.get datasource "name" = Some "federated.1B9D6BCD"
    /\ find_child root "worksheets" = Some worksheets_el
    /\ length (ET.children worksheets_el) = 2%nat.
Proof.
  intros request.
  destruct (create_datasource_element_no_calc Samples.sample_self Samples.sample_env
              (dataset_schema request) eq_refl) as [ds Hds].
  pose proof (workbook_tree_built Samples.sample_self Samples.sample_env request ds Hds
                ltac:(discriminate)) as Htree.
  destruct (worksheets_reference_datasource Samples.sample_self Samples.sample_env
              request _ Htree) as (d & ws & _ & _ & Hname & Hws & Hlen & _).
  exists (workbook_element Samples.sample_self request ds), d, ws.
  split; [exact Htree|]. split; [exact Hname|]. split; [exact Hws|]. exact Hlen.
Defined.
